(** * batch-wise: dynamic schema and anomaly scoring pipeline

    A shallow embedding of the core of the backend:

    - [app/services/data_processing.py]: table-name and column-name
      sanitisation, column type inference, dynamic table creation and the
      unified view builder;
    - [app/ml/feature_engineering.py]: the four feature stages over frames
      of labelled columns, the pandas runtime a parameter;
    - [app/services/anomaly.py]: hybrid severity classification and
      [detect_and_update] over a transactional session;
    - their callers: the row loader [process_csv_upload], the routes
      [upload_csv] and [delete_csv_data] of [app/api/v1/upload.py], and
      [prepare_features] of [app/ml/train_model.py].

    Conventions.  A Python [str] is a [string] whose characters stand for
    the code points below 256.  A float is an [fval]: a rational, an
    infinity or NaN; the embedded code only compares floats, which is
    exact on rationals, and leaves the arithmetic to the pandas runtime, a
    parameter.  A [dict] or a [pandas.Series] read with
    [.get] is a [gmap]; a Python [set] is a [gset].  A database session is
    a committed store together with the working copy of the open
    transaction. *)

From Stdlib Require Import String Ascii List ZArith QArith Lia Bool Arith.
From stdpp Require Import gmap strings sorting.

Close Scope Q_scope.
Local Open Scope string_scope.
Local Open Scope list_scope.
Local Open Scope nat_scope.

(* ================================================================== *)
(** * Part I: definitions                                              *)
(* ================================================================== *)

(** ** Python string primitives *)

Module PyStr.

Definition code (c : ascii) : N := N_of_ascii c.

Definition in_range (lo hi : N) (c : ascii) : bool :=
  ((lo <=? code c) && (code c <=? hi))%N.

Definition is_ascii_digit (c : ascii) : bool := in_range 48 57 c.
Definition is_ascii_upper (c : ascii) : bool := in_range 65 90 c.
Definition is_ascii_lower (c : ascii) : bool := in_range 97 122 c.
Definition is_underscore (c : ascii) : bool := (code c =? 95)%N.

(** The complement of the regex class [[^a-zA-Z0-9_]]. *)
Definition is_word_char (c : ascii) : bool :=
  is_ascii_lower c || is_ascii_upper c || is_ascii_digit c || is_underscore c.

(** [str.isdigit] on one code point: the ASCII digits and the
    superscripts two, three and one. *)
Definition isdigit (c : ascii) : bool :=
  is_ascii_digit c || (code c =? 178)%N || (code c =? 179)%N || (code c =? 185)%N.

(** [str.isspace] on one code point. *)
Definition isspace (c : ascii) : bool :=
  in_range 9 13 c || in_range 28 32 c || (code c =? 133)%N || (code c =? 160)%N.

(** [str.lower] on one code point: A-Z and the upper-case letters of the
    Latin-1 supplement (the multiplication sign excepted) move up by 32. *)
Definition lower_char (c : ascii) : ascii :=
  if is_ascii_upper c || (in_range 192 222 c && negb (code c =? 215)%N)
  then ascii_of_N (code c + 32) else c.

Fixpoint map_chars (f : ascii -> ascii) (s : string) : string :=
  match s with
  | EmptyString => EmptyString
  | String c s' => String (f c) (map_chars f s')
  end.

Fixpoint all_chars (p : ascii -> bool) (s : string) : bool :=
  match s with
  | EmptyString => true
  | String c s' => p c && all_chars p s'
  end.

Definition lower (s : string) : string := map_chars lower_char s.

Definition is_empty (s : string) : bool :=
  match s with EmptyString => true | _ => false end.

(** [s.lstrip(chars)], [s.rstrip(chars)] and [s.strip(chars)], the
    character set given as a predicate. *)
Fixpoint lstrip (p : ascii -> bool) (s : string) : string :=
  match s with
  | EmptyString => EmptyString
  | String c s' => if p c then lstrip p s' else s
  end.

Fixpoint rstrip (p : ascii -> bool) (s : string) : string :=
  match s with
  | EmptyString => EmptyString
  | String c s' =>
      let r := rstrip p s' in
      if p c && is_empty r then EmptyString else String c r
  end.

Definition strip (p : ascii -> bool) (s : string) : string :=
  rstrip p (lstrip p s).

(** [s.replace(pat, '')] for a non-empty [pat]: occurrences are removed
    left to right without overlap.  [skip] counts the characters of a
    matched occurrence still to be dropped. *)
Fixpoint remove_from (pat : string) (skip : nat) (s : string) : string :=
  match s with
  | EmptyString => EmptyString
  | String c s' =>
      match skip with
      | S k => remove_from pat k s'
      | O => if String.prefix pat s
             then remove_from pat (String.length pat - 1) s'
             else String c (remove_from pat 0 s')
      end
  end.

Definition remove_all (pat s : string) : string := remove_from pat 0 s.

(** [pat in s]. *)
Fixpoint contains (pat s : string) : bool :=
  String.prefix pat s ||
  match s with
  | EmptyString => false
  | String _ s' => contains pat s'
  end.

(** [s[:-n]] for [n > 0]. *)
Definition drop_last (n : nat) (s : string) : string :=
  String.substring 0 (String.length s - n) s.

(** [sep.join(parts)]. *)
Definition join (sep : string) (parts : list string) : string :=
  String.concat sep parts.

Definition dquote : string := String (ascii_of_nat 34) EmptyString.
Definition squote : string := String (ascii_of_nat 39) EmptyString.

(** Zero-padded decimal of fixed width, most significant digit first. *)
Definition digit_char (d : N) : ascii := ascii_of_N (48 + d).

Fixpoint zpad (w : nat) (n : N) : string :=
  match w with
  | O => EmptyString
  | S w' => String (digit_char ((n / 10 ^ N.of_nat w') mod 10)) (zpad w' n)
  end.

(** [not l] for a list. *)
Definition is_nil {A} (l : list A) : bool :=
  match l with [] => true | _ => false end.

(** Vocabulary for statements about strings: the first and the last
character, and the absence of two adjacent characters that both satisfy
[p]. *)
Definition first_char (s : string) : option ascii :=
  match s with
  | EmptyString => None
  | String c _ => Some c
  end.

Fixpoint last_char (s : string) : option ascii :=
  match s with
  | EmptyString => None
  | String c s' => if is_empty s' then Some c else last_char s'
  end.

Fixpoint no_double (p : ascii -> bool) (s : string) : bool :=
  match s with
  | EmptyString => true
  | String c s' =>
      match s' with
      | String d _ => negb (p c && p d)
      | EmptyString => true
      end && no_double p s'
  end.

(** [x in xs] for a list of strings. *)
Definition mem_str (x : string) (xs : list string) : bool :=
  existsb (String.eqb x) xs.

End PyStr.

(** ** Values, history records and the database session *)

Module Db.

(** A float. *)
Inductive fval := Fin (q : Q) | PInf | NInf | NaN.

(** A cell of a frame or of a row. *)
Inductive value :=
  | VNone
  | VStr (s : string)
  | VInt (z : Z)
  | VFloat (f : fval).

Inductive severity := RED | AMBER | GREEN.

Definition severity_eqb (a b : severity) : bool :=
  match a, b with
  | RED, RED | AMBER, AMBER | GREEN, GREEN => true
  | _, _ => false
  end.

Definition severity_name (s : severity) : string :=
  match s with RED => "RED" | AMBER => "AMBER" | GREEN => "GREEN" end.

(** [app.models.domain.AnomalyDetection], the fields the scorer sets.
    [batch_id] keeps the cell whose text the code stores. *)
Record AnomalyDetection := {
  batch_id : value;
  timestamp : Z;
  anomaly_score : fval;
  is_anomaly : bool;
  ad_severity : severity;
  ad_table_name : string;
  energy_kwh : fval;
  energy_per_kg : fval;
  yield_loss_pct : fval;
  co2_per_kg : fval;
  room_temp_c : fval }.

(** What a session can be asked to write.  [UpdateAlert t sev ids] stands
    for the text
    [UPDATE t SET anomaly_alert = 'sev' WHERE id IN (str(id), ...)]. *)
Inductive write :=
  | Sql (text : string)
  | UpdateAlert (table : string) (sev : severity) (ids : list value)
  | AddHistory (entry : AnomalyDetection).

(** A session: the writes already committed and those of the open
    transaction. *)
Record session := { committed : list write; pending : list write }.

Definition exec (w : write) (db : session) : session :=
  {| committed := committed db; pending := pending db ++ [w] |}.

Definition commit (db : session) : session :=
  {| committed := committed db ++ pending db; pending := [] |}.

Definition rollback (db : session) : session :=
  {| committed := committed db; pending := [] |}.

(** The session once the open transaction, extended with [ws], is
    committed. *)
Definition flushed (db : session) (ws : list write) : session :=
  {| committed := committed db ++ pending db ++ ws; pending := [] |}.

(** Issue the writes [ws] in order and then commit; [fault = Some k]
    makes the database call number [k] raise (the call after the last
    write is the commit).  The boolean tells whether all calls returned. *)
Fixpoint run_writes (fault : option nat) (ws : list write) (db : session)
  : bool * session :=
  match fault with
  | Some O => (false, db)
  | _ =>
      match ws with
      | [] => (true, commit db)
      | w :: ws' => run_writes (Nat.pred <$> fault) ws' (exec w db)
      end
  end.

End Db.

(** ** [app/services/data_processing.py] *)

Module DataProcessing.
Import PyStr Db.

(** [datetime.now()]. *)
Record datetime := {
  year : N; month : N; day : N;
  hour : N; minute : N; second : N; microsecond : N }.

Definition valid_datetime (t : datetime) : Prop :=
  (1000 <= year t <= 9999 /\ 1 <= month t <= 12 /\ 1 <= day t <= 31 /\
   hour t < 24 /\ minute t < 60 /\ second t < 60 /\ microsecond t < 1000000)%N.

(** [t.strftime('%Y%m%d_%H%M%S_%f')]. *)
Definition strftime_stamp (t : datetime) : string :=
  zpad 4 (year t) +:+ zpad 2 (month t) +:+ zpad 2 (day t) +:+ "_" +:+
  zpad 2 (hour t) +:+ zpad 2 (minute t) +:+ zpad 2 (second t) +:+ "_" +:+
  zpad 6 (microsecond t).

(** The stamp that is left of [strftime_stamp] once its last three
characters are cut: the microseconds are kept to the millisecond. *)
Definition millisecond_stamp (t : datetime) : string :=
  zpad 4 (year t) +:+ zpad 2 (month t) +:+ zpad 2 (day t) +:+ "_" +:+
  zpad 2 (hour t) +:+ zpad 2 (minute t) +:+ zpad 2 (second t) +:+ "_" +:+
  zpad 3 (microsecond t / 1000).

Definition millisecond_fields (t : datetime) : list N :=
  [year t; month t; day t; hour t; minute t; second t; (microsecond t / 1000)%N].

(** The characters of a finished name: [a-z0-9_]. *)
Definition is_name_char (c : ascii) : bool :=
  is_ascii_lower c || is_ascii_digit c || is_underscore c.

(** [re.sub(r'[^a-zA-Z0-9_]', '_', name)]. *)
Definition sub_nonword (s : string) : string :=
  map_chars (fun c => if is_word_char c then c else "_"%char) s.

(** [re.sub(r'_+', '_', name)]; [prev] tells that the previous character
    was an underscore already emitted. *)
Fixpoint collapse_from (prev : bool) (s : string) : string :=
  match s with
  | EmptyString => EmptyString
  | String c s' =>
      if is_underscore c
      then (if prev then collapse_from true s' else String c (collapse_from true s'))
      else String c (collapse_from false s')
  end.

Definition collapse_underscores (s : string) : string := collapse_from false s.

Definition starts_with_digit (s : string) : bool :=
  match s with
  | EmptyString => false
  | String c _ => isdigit c
  end.

(** The part of [sanitize_table_name] before the timestamp is read. *)
Definition clean_name (filename : string) : string :=
  let name := remove_all ".csv" filename in
  let name := sub_nonword name in
  let name := collapse_underscores name in
  let name := strip is_underscore name in
  if starts_with_digit name then "csv_" +:+ name else name.

(** [sanitize_table_name(filename)], the clock reading [now] made
    explicit. *)
Definition sanitize_table_name (filename : string) (now : datetime) : string :=
  let name := clean_name filename in
  let timestamp := drop_last 3 (strftime_stamp now) in
  lower ("csv_" +:+ name +:+ "_" +:+ timestamp).

(** *** Type inference *)

Inductive sql_type := INTEGER | FLOAT | BOOLEAN | TIMESTAMP | DATE | TEXT.

(** The strings [float] accepts, after its own stripping of white space:
    [[sign] (number [exponent] | inf | infinity | nan)], an underscore
    allowed between two digits only. *)
Fixpoint digits_tail (s : string) : string :=
  match s with
  | EmptyString => EmptyString
  | String c s' =>
      if is_ascii_digit c then digits_tail s'
      else if is_underscore c then
        match s' with
        | String d s'' => if is_ascii_digit d then digits_tail s'' else s
        | EmptyString => s
        end
      else s
  end.

Definition digitpart (s : string) : option string :=
  match s with
  | String c s' => if is_ascii_digit c then Some (digits_tail s') else None
  | EmptyString => None
  end.

Definition is_dot (c : ascii) : bool := (code c =? 46)%N.
Definition is_sign (c : ascii) : bool := (code c =? 43)%N || (code c =? 45)%N.
Definition is_exp_mark (c : ascii) : bool := (code c =? 101)%N || (code c =? 69)%N.

Definition skip_sign (s : string) : string :=
  match s with
  | String c s' => if is_sign c then s' else s
  | EmptyString => s
  end.

Definition float_number (s : string) : option string :=
  match digitpart s with
  | Some r =>
      match r with
      | String c r' =>
          if is_dot c
          then match digitpart r' with Some r'' => Some r'' | None => Some r' end
          else Some r
      | EmptyString => Some r
      end
  | None =>
      match s with
      | String c r' => if is_dot c then digitpart r' else None
      | EmptyString => None
      end
  end.

Definition float_exponent (s : string) : bool :=
  match s with
  | EmptyString => true
  | String c r =>
      is_exp_mark c &&
      match digitpart (skip_sign r) with
      | Some rest => is_empty rest
      | None => false
      end
  end.

(** [float(v)] returns (rather than raising [ValueError]). *)
Definition float_parses (v : string) : bool :=
  let body := skip_sign (strip isspace v) in
  mem_str (lower body) ["inf"; "infinity"; "nan"] ||
  match float_number body with
  | Some rest => float_exponent rest
  | None => false
  end.

Definition null_literals : list string := [""; "NULL"; "null"; "None"].
Definition bool_values : list string :=
  ["true"; "false"; "yes"; "no"; "1"; "0"; "y"; "n"].

(** [[v.strip() for v in sample_values
      if v and v.strip() not in ['', 'NULL', 'null', 'None']]]. *)
Definition clean_values (sample_values : list string) : list string :=
  map (strip isspace)
    (List.filter
       (fun v => negb (is_empty v) && negb (mem_str (strip isspace v) null_literals))
       sample_values).

Section Infer.
(** [dateutil.parser.parse(v)] returns (rather than raising); the
    library is outside the repository. *)
Variable dateutil_parses : string -> bool.

(** [infer_column_type(sample_values, col_name)].  The block headed
    "Check for Integer" evaluates a condition and then executes [pass]
    on either outcome, every exception swallowed; it has no effect on
    the result and is left out. *)
Definition infer_column_type (sample_values : list string) (col_name : string)
  : sql_type :=
  let col_lower := lower col_name in
  if contains "date" col_lower || contains "time" col_lower then TIMESTAMP
  else if is_nil sample_values then TEXT
  else
    let clean := clean_values sample_values in
    if is_nil clean then TEXT
    else if forallb (fun v => mem_str (lower v) bool_values) clean then BOOLEAN
    else if forallb float_parses clean then FLOAT
    else if forallb dateutil_parses (firstn 5 clean) then TIMESTAMP
    else TEXT.
End Infer.

(** *** Dynamic tables *)

Definition reserved_names : list string := ["id"; "upload_timestamp"].

(** The two lines that derive [safe_col] from [col_name], shared by
    [create_dynamic_table] and [create_unified_view]. *)
Definition safe_column_name (col_name : string) : string :=
  let safe_col := lower (sub_nonword col_name) in
  if mem_str (lower col_name) reserved_names then "csv_" +:+ safe_col else safe_col.

(** The SQL type declared for an inferred type; [TEXT] also stands for any
    type string outside the five the code names. *)
Definition sql_type_name (t : sql_type) : string :=
  match t with
  | INTEGER => "INTEGER"
  | FLOAT => "DOUBLE PRECISION"
  | BOOLEAN => "BOOLEAN"
  | TIMESTAMP => "TIMESTAMP"
  | DATE => "DATE"
  | TEXT => "TEXT"
  end.

Definition column_sql (col : string * sql_type) : string :=
  safe_column_name (fst col) +:+ " " +:+ sql_type_name (snd col).

Definition columns_sql (columns : list (string * sql_type)) : list string :=
  ["id SERIAL PRIMARY KEY"; "upload_timestamp TIMESTAMP DEFAULT CURRENT_TIMESTAMP"]
  ++ map column_sql columns
  ++ ["anomaly_alert TEXT DEFAULT NULL"].

(** The names of the columns of the created table, in order. *)
Definition table_column_names (columns : list (string * sql_type)) : list string :=
  ["id"; "upload_timestamp"] ++ map (fun c => safe_column_name (fst c)) columns
  ++ ["anomaly_alert"].

(** The text of the statement, the line breaks and indentation of the
f-string written as single spaces. *)
Definition create_table_sql (table_name : string) (columns : list (string * sql_type))
  : string :=
  "CREATE TABLE " +:+ table_name +:+ " (" +:+ join ", " (columns_sql columns) +:+ ")".

(** [create_dynamic_table(table_name, columns, db)]; [fault] as in
    [run_writes]. *)
Definition create_dynamic_table (fault : option nat) (table_name : string)
    (columns : list (string * sql_type)) (db : session) : bool * session :=
  match run_writes fault [Sql (create_table_sql table_name columns)] db with
  | (true, db') => (true, db')
  | (false, db') => (false, rollback db')
  end.

(** *** The unified view *)

Record CSVFileMetadata := {
  filename : string;
  table_name : string;
  upload_timestamp : string;
  record_count : nat;
  columns_info : string }.

Definition implicit_columns : list string := ["id"; "upload_timestamp"; "anomaly_alert"].

Definition numeric_patterns : list string :=
  ["kwh"; "energy"; "weight"; "temp"; "temperature";
   "kg"; "per_kg"; "loss"; "pct"; "percent"; "co2";
   "pressure"; "humidity"; "speed"; "rate"; "value";
   "count"; "score"; "factor"].

Definition quoted (col : string) : string := dquote +:+ col +:+ dquote.

(** One entry of [select_parts] for a column of [sorted_columns]. *)
Definition select_part (current_table_cols : gset string) (col : string) : string :=
  if decide (col ∈ current_table_cols) then
    let col_lower := lower col in
    if existsb (fun pattern => contains pattern col_lower) numeric_patterns
    then "CAST(" +:+ quoted col +:+ " AS DOUBLE PRECISION) as " +:+ quoted col
    else if contains "timestamp" col_lower || contains "date" col_lower
            || contains "time" col_lower
    then quoted col
    else quoted col
  else "NULL as " +:+ quoted col.

Definition provenance_parts (m : CSVFileMetadata) : list string :=
  [squote +:+ filename m +:+ squote +:+ "::text as source_filename";
   squote +:+ table_name m +:+ squote +:+ "::text as source_table";
   squote +:+ upload_timestamp m +:+ squote +:+ "::text as source_upload_time"].

Definition select_parts (m : CSVFileMetadata) (current_table_cols : gset string)
    (sorted_columns : list string) : list string :=
  provenance_parts m ++ map (select_part current_table_cols) sorted_columns.

Definition branch_query (m : CSVFileMetadata) (parts : list string) : string :=
  "SELECT " +:+ join ", " parts +:+ " FROM " +:+ table_name m.

(** The text of the view definition, its layout written as single
spaces. *)
Definition view_sql (union_queries : list string) : string :=
  "CREATE OR REPLACE VIEW csv_data_unified_view AS " +:+ join " UNION ALL " union_queries.

Section UnifiedView.
(** [json.loads(columns_info).keys()], in order; [None] when the body of
    the per-table [try] raises. *)
Variable json_keys : string -> option (list string).

Definition table_safe_cols (keys : list string) : list string :=
  map safe_column_name keys ++ implicit_columns.

(** One turn of the first loop over [metadata_list], on the pair
    [(all_columns, table_columns)]. *)
Definition collect_step (st : gset string * gmap string (gset string))
    (m : CSVFileMetadata) : gset string * gmap string (gset string) :=
  match json_keys (columns_info m) with
  | Some keys =>
      let safe_cols := table_safe_cols keys in
      (fst st ∪ list_to_set safe_cols,
       <[table_name m := list_to_set safe_cols]> (snd st))
  | None => st
  end.

Definition collect_columns (metadata_list : list CSVFileMetadata)
  : gset string * gmap string (gset string) :=
  fold_left collect_step metadata_list (∅, ∅).

(** [sorted(list(all_columns))]. *)
Definition sorted_columns (all_columns : gset string) : list string :=
  merge_sort String.le (elements all_columns).

(** The second loop: one query per table present in [table_columns]. *)
Definition union_queries (metadata_list : list CSVFileMetadata)
    (table_columns : gmap string (gset string)) (sorted : list string)
  : list string :=
  omap (fun m =>
          match table_columns !! table_name m with
          | Some current_table_cols =>
              Some (branch_query m (select_parts m current_table_cols sorted))
          | None => None
          end) metadata_list.



(** [create_unified_view(db)]; [metadata_list] is what the select on
    [CSVFileMetadata] returned and [fault] as in [run_writes], counted
    over the two statements and the commit. *)
Definition create_unified_view (fault : option nat)
    (metadata_list : list CSVFileMetadata) (db : session) : session :=
  if is_nil metadata_list then db
  else
    let '(all_columns, table_columns) := collect_columns metadata_list in
    if decide (all_columns = ∅) then db
    else
      let sorted := sorted_columns all_columns in
      let queries := union_queries metadata_list table_columns sorted in
      if is_nil queries then db
      else
        match run_writes fault
                [Sql "DROP VIEW IF EXISTS csv_data_unified_view";
                 Sql (view_sql queries)] db with
        | (true, db') => db'
        | (false, db') => rollback db'
        end.
End UnifiedView.

End DataProcessing.

(** ** [app/ml/feature_engineering.py] *)

Module FeatureEngineering.
Import PyStr Db.

(** A [pandas.Series] is the list of its cells, a [DataFrame] its row
    count and its labelled columns in order. *)
Definition series := list value.
Record frame := { nrows : nat; cols : list (string * series) }.

Definition columns (df : frame) : list string := map fst (cols df).

(** [c in df.columns]. *)
Definition has_col (c : string) (df : frame) : bool := mem_str c (columns df).

(** [df[c]], read only under a guard [c in df.columns]. *)
Definition get_col (c : string) (df : frame) : series :=
  match List.find (fun kv => String.eqb (fst kv) c) (cols df) with
  | Some kv => snd kv
  | None => []
  end.

Fixpoint assign (c : string) (v : series) (l : list (string * series))
  : list (string * series) :=
  match l with
  | [] => [(c, v)]
  | kv :: l' => if String.eqb (fst kv) c then (c, v) :: l' else kv :: assign c v l'
  end.

(** [df[c] = v]: an existing column is overwritten in place, a new one is
    appended. *)
Definition set_col (c : string) (v : series) (df : frame) : frame :=
  {| nrows := nrows df; cols := assign c v (cols df) |}.

(** [df.rename(columns={old: new})]. *)
Definition rename_col (old new : string) (df : frame) : frame :=
  {| nrows := nrows df;
     cols := map (fun kv => (if String.eqb (fst kv) old then new else fst kv, snd kv))
                 (cols df) |}.

(** [df[c] = scalar]. *)
Definition set_const (c : string) (v : value) (df : frame) : frame :=
  set_col c (repeat v (nrows df)) df.

Definition is_null (v : value) : bool :=
  match v with VNone | VFloat NaN => true | _ => false end.

(** [s.fillna(v)]. *)
Definition fillna (v : value) (s : series) : series :=
  map (fun x => if is_null x then v else x) s.

(** [df.replace([np.inf, -np.inf], np.nan)]. *)
Definition replace_inf_cell (v : value) : value :=
  match v with VFloat PInf | VFloat NInf => VFloat NaN | _ => v end.

Definition replace_inf (df : frame) : frame :=
  {| nrows := nrows df;
     cols := map (fun kv => (fst kv, map replace_inf_cell (snd kv))) (cols df) |}.

(** The pandas runtime, as far as the stages use it: float arithmetic on
    series, date handling, sorting, windows and group-wise counts; for
    each stage, whether its body raises on a given frame; and, for the
    rolling stage, whether its handler, which reads the columns again,
    raises as well. *)
Record pandas := {
  div : series -> series -> series;
  sub : series -> series -> series;
  mul : series -> series -> series;
  scale : series -> Q -> series;
  to_datetime : series -> series;
  dt_hour : series -> series;
  dt_dayofweek : series -> series;
  reorder : series -> series -> series;
  minutes_since_previous : series -> series;
  rolling_mean : nat -> series -> series;
  rolling_std : nat -> series -> series;
  cumcount : series -> series;
  group_max : series -> series -> series;
  basic_raises : frame -> bool;
  temporal_raises : frame -> bool;
  rolling_raises : frame -> bool;
  rolling_handler_raises : frame -> bool;
  equipment_raises : frame -> bool }.

Definition column_mapping : list (string * string) :=
  [("Energy Consumption (kWh)", "Energy_kWh");
   ("Energy_Consumption__kWh_", "Energy_kWh");
   ("energy_consumption__kwh_", "Energy_kWh");
   ("OutputWeight_kg", "OutputWeight_kg");
   ("outputweight_kg", "OutputWeight_kg");
   ("InputWeight_kg", "InputWeight_kg");
   ("inputweight_kg", "InputWeight_kg");
   ("RoomTemp_C", "RoomTemp_C");
   ("roomtemp_c", "RoomTemp_C");
   ("RoomTemperature_C", "RoomTemp_C");
   ("roomtemperature_c", "RoomTemp_C")].

Definition rename_step (df : frame) (m : string * string) : frame :=
  if has_col (fst m) df then rename_col (fst m) (snd m) df else df.

Definition standardize_columns (df : frame) : frame :=
  fold_left rename_step column_mapping df.

Definition rolling_window : nat := 10.

Section Stages.
Variable pd : pandas.

(** The four assignments of [calculate_basic_features] that follow the
renaming, one function per guarded statement. *)
Definition add_energy_per_kg (df : frame) : frame :=
  if has_col "Energy_kWh" df && has_col "OutputWeight_kg" df
  then set_col "Energy_per_kg"
         (div pd (get_col "Energy_kWh" df) (get_col "OutputWeight_kg" df)) df
  else df.

Definition add_yield_loss_pct (df : frame) : frame :=
  if has_col "InputWeight_kg" df && has_col "OutputWeight_kg" df
  then set_col "Yield_loss_pct"
         (scale pd
            (div pd (sub pd (get_col "InputWeight_kg" df) (get_col "OutputWeight_kg" df))
                 (get_col "InputWeight_kg" df))
            (100 # 1)) df
  else df.

Definition add_co2_per_kg (df : frame) : frame :=
  if has_col "Energy_kWh" df && has_col "OutputWeight_kg" df
  then
    if has_col "kg_co2_per_kwh" df
    then set_col "CO2_per_kg"
           (div pd (mul pd (get_col "Energy_kWh" df) (get_col "kg_co2_per_kwh" df))
                (get_col "OutputWeight_kg" df)) df
    else set_col "CO2_per_kg"
           (div pd (scale pd (get_col "Energy_kWh" df) (1 # 2))
                (get_col "OutputWeight_kg" df)) df
  else df.

Definition add_energy_x_temp (df : frame) : frame :=
  if has_col "Energy_kWh" df && has_col "RoomTemp_C" df
  then set_col "Energy_x_Temp"
         (mul pd (get_col "Energy_kWh" df) (get_col "RoomTemp_C" df)) df
  else df.

Definition basic_kpis (df : frame) : frame :=
  add_energy_x_temp (add_co2_per_kg (add_yield_loss_pct (add_energy_per_kg df))).

(** [calculate_basic_features]: no handler, an exception leaves the
    function ([None]). *)
Definition calculate_basic_features (df : frame) : option frame :=
  if basic_raises pd df then None
  else Some (basic_kpis (standardize_columns df)).

Definition timestamp_candidates : list string :=
  ["upload_timestamp"; "timestamp"; "BatchDate"; "date"; "Date"].

Definition temporal_defaults (df : frame) : frame :=
  set_const "Time_Since_Last_Batch" (VInt 60)
    (set_const "Batch_DayOfWeek" (VInt 2)
       (set_const "Batch_Hour" (VInt 12) df)).

(** [df.sort_values(timestamp_col)]. *)
Definition sort_values (c : string) (df : frame) : frame :=
  let key := get_col c df in
  {| nrows := nrows df;
     cols := map (fun kv => (fst kv, reorder pd key (snd kv))) (cols df) |}.

(** [calculate_temporal_features].  The handler assigns the same three
    columns as the body, in the same order, so the column index is the
    same wherever in the body the exception is raised; the frame handed
    to the handler is taken to be the one the stage received. *)
Definition calculate_temporal_features (df : frame) : frame :=
  if temporal_raises pd df then temporal_defaults df
  else
    match List.find (fun c => has_col c df) timestamp_candidates with
    | Some timestamp_col =>
        let df := set_col timestamp_col (to_datetime pd (get_col timestamp_col df)) df in
        let df := set_col "Batch_Hour" (dt_hour pd (get_col timestamp_col df)) df in
        let df := set_col "Batch_DayOfWeek" (dt_dayofweek pd (get_col timestamp_col df)) df in
        if 1 <? nrows df
        then
          let df := sort_values timestamp_col df in
          set_col "Time_Since_Last_Batch"
            (minutes_since_previous pd (get_col timestamp_col df)) df
        else set_const "Time_Since_Last_Batch" (VInt 0) df
    | None => temporal_defaults df
    end.

(** [calculate_rolling_features]: the body of the [try], then its
handler.  The handler assigns [df['Energy_kWh']] and
[df['Yield_loss_pct']] outside any [try]: when it raises too, the
exception leaves the function ([None]). *)
Definition rolling_body (df : frame) : frame :=
  let df :=
    if has_col "Energy_kWh" df
    then set_col "Energy_kWh_Rolling_Std"
           (fillna (VInt 0) (rolling_std pd rolling_window (get_col "Energy_kWh" df)))
           (set_col "Energy_kWh_Rolling_Mean"
              (rolling_mean pd rolling_window (get_col "Energy_kWh" df)) df)
    else df in
  if has_col "Yield_loss_pct" df
  then set_col "Yield_loss_pct_Rolling_Mean"
         (rolling_mean pd rolling_window (get_col "Yield_loss_pct" df)) df
  else df.

Definition rolling_fallback (df : frame) : frame :=
  let df :=
    if has_col "Energy_kWh" df
    then set_const "Energy_kWh_Rolling_Std" (VInt 0)
           (set_col "Energy_kWh_Rolling_Mean" (get_col "Energy_kWh" df) df)
    else df in
  if has_col "Yield_loss_pct" df
  then set_col "Yield_loss_pct_Rolling_Mean" (get_col "Yield_loss_pct" df) df
  else df.

Definition calculate_rolling_features (df : frame) : option frame :=
  if rolling_raises pd df
  then (if rolling_handler_raises pd df then None else Some (rolling_fallback df))
  else Some (rolling_body df).

Definition stage_mapping : list (string * Z) :=
  [("Mixing", 1%Z); ("Granulation", 2%Z); ("Drying", 3%Z);
   ("Compression", 4%Z); ("Coating", 5%Z); ("Packaging", 6%Z)].

(** [stage_mapping.get(v)]. *)
Definition stage_code (v : value) : option Z :=
  match v with
  | VStr s =>
      match List.find (fun kv => String.eqb (fst kv) s) stage_mapping with
      | Some kv => Some (snd kv)
      | None => None
      end
  | _ => None
  end.

(** [s.map(stage_mapping)]: a series of integers when every cell is a
    key of the mapping; a cell that is none gives NaN, and the series is
    then one of floats. *)
Definition map_stages (s : series) : series :=
  match mapM stage_code s with
  | Some codes => map VInt codes
  | None =>
      map (fun v => match stage_code v with
                    | Some z => VFloat (Fin (inject_Z z))
                    | None => VFloat NaN
                    end) s
  end.

Definition equipment_defaults (df : frame) : frame :=
  set_const "Machine_Utilization" (VInt 1)
    (set_const "ProductionStage_Encoded" (VInt 0)
       (set_const "Machine_Batch_Count" (VInt 1) df)).

(** [calculate_equipment_features]. *)
Definition calculate_equipment_features (df : frame) : frame :=
  if equipment_raises pd df then equipment_defaults df
  else
    let df :=
      if has_col "MachineName" df
      then set_col "Machine_Batch_Count" (cumcount pd (get_col "MachineName" df)) df
      else set_const "Machine_Batch_Count" (VInt 1) df in
    let df :=
      if has_col "ProductionStage" df
      then set_col "ProductionStage_Encoded"
             (* NaN is in a series of floats only: it is filled with 0.0 *)
             (fillna (VFloat (Fin 0)) (map_stages (get_col "ProductionStage" df))) df
      else set_const "ProductionStage_Encoded" (VInt 0) df in
    if has_col "MachineName" df
       && existsb (fun c => has_col c df) ["upload_timestamp"; "timestamp"; "BatchDate"]
    then set_col "Machine_Utilization"
           (group_max pd (get_col "MachineName" df) (get_col "Machine_Batch_Count" df)) df
    else set_const "Machine_Utilization" (VInt 1) df.

(** [engineer_features]; the three switches of [feature_config] are the
    constants [True] set by [__init__]. *)
Definition engineer_features (df : frame) : option frame :=
  df ← calculate_basic_features df;
  let df := calculate_temporal_features df in
  df ← calculate_rolling_features df;
  let df := calculate_equipment_features df in
  Some (replace_inf df).
End Stages.

(** The features of the two stages that fall back on constants: temporal
and equipment. *)
Definition defaulted_features : list string :=
  ["Batch_Hour"; "Batch_DayOfWeek"; "Time_Since_Last_Batch";
   "Machine_Batch_Count"; "ProductionStage_Encoded"; "Machine_Utilization"].

(** [get_feature_names()]. *)
Definition get_feature_names : list string :=
  ["Energy_kWh"; "Energy_per_kg"; "Yield_loss_pct"; "RoomTemp_C"; "CO2_per_kg";
   "Energy_x_Temp";
   "Batch_Hour"; "Batch_DayOfWeek"; "Time_Since_Last_Batch";
   "Energy_kWh_Rolling_Mean"; "Energy_kWh_Rolling_Std"; "Yield_loss_pct_Rolling_Mean";
   "Machine_Batch_Count"; "ProductionStage_Encoded"; "Machine_Utilization"].

(** A runtime whose operations return their first argument and never
    raise, for running the stages on concrete frames. *)
Definition quiet_pandas : pandas :=
  {| div := fun a _ => a; sub := fun a _ => a; mul := fun a _ => a;
     scale := fun a _ => a;
     to_datetime := fun a => a; dt_hour := fun a => a; dt_dayofweek := fun a => a;
     reorder := fun _ a => a; minutes_since_previous := fun a => a;
     rolling_mean := fun _ a => a; rolling_std := fun _ a => a;
     cumcount := fun a => a; group_max := fun _ a => a;
     basic_raises := fun _ => false; temporal_raises := fun _ => false;
     rolling_raises := fun _ => false; rolling_handler_raises := fun _ => false;
     equipment_raises := fun _ => false |}.

End FeatureEngineering.

(** ** [app/services/anomaly.py] *)

Module Anomaly.
Import PyStr Db FeatureEngineering.

(** A row as [iterrows] and [apply(axis=1)] hand it over: a series
    indexed by the column labels, NaN where a column is too short. *)
Definition row_at (df : frame) (i : nat) : gmap string value :=
  list_to_map (map (fun kv => (fst kv, nth i (snd kv) (VFloat NaN))) (cols df)).

Definition iterrows (df : frame) : list (gmap string value) :=
  map (row_at df) (seq 0 (nrows df)).

(** [v > threshold]; [None] is the [TypeError] of comparing [None] or a
    string with a number. *)
Definition gt (v : value) (threshold : Q) : option bool :=
  match v with
  | VInt z => Some (negb (Qle_bool (inject_Z z) threshold))
  | VFloat (Fin q) => Some (negb (Qle_bool q threshold))
  | VFloat PInf => Some true
  | VFloat NInf => Some false
  | VFloat NaN => Some false
  | VNone => None
  | VStr _ => None
  end.

(** [v == -1]. *)
Definition is_minus_one (v : option value) : bool :=
  match v with
  | Some (VInt z) => (z =? -1)%Z
  | Some (VFloat (Fin q)) => Qeq_bool q (-1 # 1)
  | _ => false
  end.

(** [row.get(key, 0)]. *)
Definition get0 (row : gmap string value) (key : string) : value :=
  default (VInt 0) (row !! key).

(** [determine_severity(row)]. *)
Definition determine_severity (row : gmap string value) : option severity :=
  energy_rule ← gt (get0 row "Energy_kWh") (1500 # 1);
  efficiency_rule ← gt (get0 row "Energy_per_kg") (15 # 1);
  yield_rule ← gt (get0 row "Yield_loss_pct") (10 # 1);
  co2_rule ← gt (get0 row "CO2_per_kg") (6 # 1);
  let is_model_anomaly := is_minus_one (row !! "anomaly_flag") in
  Some (if energy_rule || efficiency_rule || yield_rule || co2_rule then RED
        else if is_model_anomaly then AMBER
        else GREEN).

(** Vocabulary for the statements about [determine_severity]: the hard
    rules on four finite KPI readings, the KPI columns and the threshold
    each is compared with. *)
Definition hard_rule (e k y c : Q) : Prop :=
  (1500 # 1 < e \/ 15 # 1 < k \/ 10 # 1 < y \/ 6 # 1 < c)%Q.

Definition within_thresholds (e k y c : Q) : Prop :=
  (e <= 1500 # 1 /\ k <= 15 # 1 /\ y <= 10 # 1 /\ c <= 6 # 1)%Q.

Definition kpi_columns : list string :=
  ["Energy_kWh"; "Energy_per_kg"; "Yield_loss_pct"; "CO2_per_kg"].

Definition kpi_threshold (k : string) : Q :=
  if String.eqb k "Energy_kWh" then 1500 # 1
  else if String.eqb k "Energy_per_kg" then 15 # 1
  else if String.eqb k "Yield_loss_pct" then 10 # 1
  else 6 # 1.

Definition required_features : list string :=
  ["Energy_kWh"; "Energy_per_kg"; "Yield_loss_pct";
   "RoomTemp_C"; "CO2_per_kg"; "Energy_x_Temp"].

(** A cell of the float matrix [df_calc[required_features].values];
    [None] where [np.isnan] raises on a cell that is not a number. *)
Definition to_float (v : value) : option fval :=
  match v with
  | VInt z => Some (Fin (inject_Z z))
  | VFloat f => Some f
  | VNone => None
  | VStr _ => None
  end.

Definition feature_vector (row : gmap string value) : option (list fval) :=
  mapM (fun c => row !! c ≫= to_float) required_features.

Definition is_nan (f : fval) : bool :=
  match f with NaN => true | _ => false end.

(** One entry of [valid_mask]. *)
Definition valid (features : list fval) : bool := negb (existsb is_nan features).

(** The loaded estimator: [predict] and [decision_function] on the
    feature matrix, the latter [None] when it raises. *)
Record estimator := {
  predict : list (list fval) -> list Z;
  decision_function : list (list fval) -> option (list fval) }.

(** What [detect_and_update] hands back. *)
Inductive result :=
  | Skipped (reason : string) (missing : list string)
  | Failed
  | Success (anomalies : nat) (red amber green : nat).

Definition status (r : result) : string :=
  match r with
  | Skipped _ _ => "skipped"
  | Failed => "error"
  | Success _ _ _ _ => "success"
  end.

(** A call either returns a result or lets an exception escape. *)
Inductive outcome := Return (r : result) | Raise.

(** [bool(v)]. *)
Definition truthy (v : value) : bool :=
  match v with
  | VNone => false
  | VStr s => negb (is_empty s)
  | VInt z => negb (z =? 0)%Z
  | VFloat (Fin q) => negb (Qeq_bool q 0)
  | VFloat _ => true
  end.

(** [pd.notnull(v)]. *)
Definition notnull (v : option value) : bool :=
  match v with
  | Some v => negb (is_null v)
  | None => false
  end.

(** [float(row.get(k, 0.0)) if pd.notnull(row.get(k)) else 0.0]. *)
Definition kpi_snapshot (row : gmap string value) (k : string) : option fval :=
  if notnull (row !! k) then row !! k ≫= to_float else Some (Fin 0).

Definition is_alert (sev : severity) : bool :=
  match sev with RED | AMBER => true | GREEN => false end.

(** The ids appended to [updates[sev]], in row order. *)
Definition update_ids (sev : severity) (scored : list (gmap string value * severity))
  : list value :=
  omap (fun rs =>
          match fst rs !! "id" with
          | Some record_id =>
              if truthy record_id && severity_eqb (snd rs) sev then Some record_id else None
          | None => None
          end) scored.

(** The statements of the loop over [updates.items()]. *)
Definition alert_writes (table_name : string)
    (scored : list (gmap string value * severity)) : list write :=
  List.concat
    (map (fun sev =>
            let ids := update_ids sev scored in
            if is_nil ids then [] else [UpdateAlert table_name sev ids])
         [RED; AMBER; GREEN]).

Section Service.
(** [self.model] and [self.scaler]. *)
Variable model : option estimator.
Variable scaler : option (list (list fval) -> list (list fval)).
(** The pandas runtime, and whether the legacy feature path raises. *)
Variable pd : pandas.
Variable legacy_raises : frame -> bool.
(** [datetime.utcnow()] and [pd.to_datetime] on one cell ([None] when it
    raises). *)
Variable utcnow : Z.
Variable cell_to_datetime : value -> option Z.

(** [calculate_features(df)] with [USE_ENHANCED_FEATURES] set: the
    feature engineer, and the legacy computation of the six KPIs when
    it raises. *)
Definition calculate_features (df : frame) : option frame :=
  match engineer_features pd df with
  | Some df' => Some df'
  | None =>
      if legacy_raises df then None
      else Some (replace_inf (basic_kpis pd (standardize_columns df)))
  end.

(** The timestamp of a history entry; [None] when [pd.to_datetime]
    raises outside the inner handler. *)
Definition entry_timestamp (row : gmap string value) : option Z :=
  if notnull (row !! "upload_timestamp")
  then row !! "upload_timestamp" ≫= cell_to_datetime
  else if notnull (row !! "date")
  then Some (default utcnow (row !! "date" ≫= cell_to_datetime))
  else Some utcnow.

(** The [AnomalyDetection] built for one row of [anomalies]. *)
Definition history_entry (table_name : string) (rs : gmap string value * severity)
  : option AnomalyDetection :=
  let row := fst rs in
  ts ← entry_timestamp row;
  score ← to_float (default (VFloat (Fin 0)) (row !! "anomaly_score"));
  e ← kpi_snapshot row "Energy_kWh";
  epk ← kpi_snapshot row "Energy_per_kg";
  yl ← kpi_snapshot row "Yield_loss_pct";
  co2 ← kpi_snapshot row "CO2_per_kg";
  rt ← kpi_snapshot row "RoomTemp_C";
  Some {| batch_id := default (VStr "unknown") (row !! "batchid");
          timestamp := ts;
          anomaly_score := score;
          is_anomaly := true;
          ad_severity := snd rs;
          ad_table_name := table_name;
          energy_kwh := e;
          energy_per_kg := epk;
          yield_loss_pct := yl;
          co2_per_kg := co2;
          room_temp_c := rt |}.

(** The body of the inner [try]: one [db.add] per row of [anomalies],
    then [db.commit()]; [fault] as in [run_writes]. *)
Fixpoint save_history (fault : option nat) (table_name : string)
    (anomalies : list (gmap string value * severity)) (db : session)
  : bool * session :=
  match fault with
  | Some O => (false, db)
  | _ =>
      match anomalies with
      | [] => (true, commit db)
      | rs :: rest =>
          match history_entry table_name rs with
          | Some entry =>
              save_history (Nat.pred <$> fault) table_name rest (exec (AddHistory entry) db)
          | None => (false, db)
          end
      end
  end.

(** [df_valid] once [anomaly_flag], [anomaly_score] and [severity] are
    assigned: each valid row with its three new cells, paired with its
    severity.  [None] when [determine_severity] raises, or when the
    three lists differ in length. *)
Fixpoint score_rows (rows : list (gmap string value)) (flags : list Z)
    (scores : list value) : option (list (gmap string value * severity)) :=
  match rows, flags, scores with
  | [], [], [] => Some []
  | row :: rows', flag :: flags', score :: scores' =>
      let row := <["anomaly_score" := score]> (<["anomaly_flag" := VInt flag]> row) in
      sev ← determine_severity row;
      rest ← score_rows rows' flags' scores';
      Some ((<["severity" := VStr (severity_name sev)]> row, sev) :: rest)
  | _, _, _ => None
  end.

(** [rs] is the scored form of [row]: the row with its flag, score and
    severity cells, paired with the severity [determine_severity]
    gave it. *)
Definition scored_from (row : gmap string value) (rs : gmap string value * severity)
  : Prop :=
  exists flag score,
    let row' := <["anomaly_score" := score]> (<["anomaly_flag" := VInt flag]> row) in
    is_Some (to_float score) /\
    determine_severity row' = Some (snd rs) /\
    fst rs = <["severity" := VStr (severity_name (snd rs))]> row'.

(** The rows of [df_calc] that pass the NaN mask, in order. *)
Definition rows_valid (rows : list (gmap string value)) (features : list (list fval))
  : list (gmap string value) :=
  map fst (List.filter (fun rf => valid (snd rf)) (zip rows features)).

(** Masking, scaling, prediction and classification. *)
Inductive scoring :=
  | ScoringRaised
  | NoValidRows
  | Scored (scored : list (gmap string value * severity)).

Definition score_frame (m : estimator) (df_calc : frame) : scoring :=
  let rows := iterrows df_calc in
  match mapM feature_vector rows with
  | None => ScoringRaised
  | Some features =>
      let valid_mask := map valid features in
      if negb (existsb id valid_mask) then NoValidRows
      else
        let features_valid := List.filter valid features in
        let features_scaled :=
          match scaler with
          | Some transform => transform features_valid
          | None => features_valid
          end in
        let predictions := predict m features_scaled in
        let df_valid := rows_valid rows features in
        (* assigning a column of another length raises *)
        if negb (length predictions =? length df_valid) then ScoringRaised
        else
          let scores :=
            (* the assignment of the scores is inside the [try] *)
            match decision_function m features_scaled with
            | Some scores =>
                if length scores =? length df_valid then map VFloat scores
                else map VInt predictions
            | None => map VInt predictions
            end in
          match score_rows df_valid predictions scores with
          | None => ScoringRaised
          | Some scored => Scored scored
          end
  end.

(** The dictionary returned on success, from the lengths of the
    three [updates] lists. *)
Definition success_counts (scored : list (gmap string value * severity)) : result :=
  let n sev := length (update_ids sev scored) in
  Success (n RED + n AMBER) (n RED) (n AMBER) (n GREEN).

(** The two write phases, each with its own commit. *)
Definition persist (update_fault history_fault : option nat) (table_name : string)
    (scored : list (gmap string value * severity)) (db : session)
  : outcome * session :=
  match run_writes update_fault (alert_writes table_name scored) db with
  | (false, db') => (Return Failed, rollback db')
  | (true, db1) =>
      let anomalies := List.filter (fun rs => is_alert (snd rs)) scored in
      let db2 :=
        match save_history history_fault table_name anomalies db1 with
        | (true, db') => db'
        | (false, db') => rollback db'
        end in
      (Return (success_counts scored), db2)
  end.

Definition missing_features (df_calc : frame) : list string :=
  List.filter (fun c => negb (has_col c df_calc)) required_features.

(** [detect_and_update(table_name, db)].  [table] is what reading
    [SELECT * FROM table_name] into a frame gives ([None] when the read
    raises); [update_fault] and [history_fault] are the faults of the two
    write phases, as in [run_writes]. *)
Definition detect_and_update (table : option frame)
    (update_fault history_fault : option nat)
    (table_name : string) (db : session) : outcome * session :=
  match model with
  | None => (Return (Skipped "model_not_loaded" []), db)
  | Some m =>
      match table with
      | None => (Return Failed, db)
      | Some df =>
          if (nrows df =? 0)%nat then (Return (Skipped "no_data" []), db)
          else
            match calculate_features df with
            | None => (Raise, db)
            | Some df_calc =>
                let missing := missing_features df_calc in
                if negb (is_nil missing)
                then (Return (Skipped "missing_columns" missing), db)
                else
                  match score_frame m df_calc with
                  | ScoringRaised => (Raise, db)
                  | NoValidRows => (Return (Skipped "no_valid_data_rows" []), db)
                  | Scored scored =>
                      persist update_fault history_fault table_name scored db
                  end
            end
      end
  end.

(** The call gets as far as the write phases, with [scored] the
    classified rows of [df_calc]. *)
Definition reaches_persist (table : option frame) (df_calc : frame)
    (scored : list (gmap string value * severity)) : Prop :=
  exists m df,
    model = Some m /\ table = Some df /\ nrows df <> 0 /\
    calculate_features df = Some df_calc /\
    missing_features df_calc = [] /\
    score_frame m df_calc = Scored scored.

(** [row] is a row of [df_calc] that passes the NaN mask. *)
Definition survives (df_calc : frame) (row : gmap string value) : Prop :=
  exists features,
    In row (iterrows df_calc) /\ feature_vector row = Some features /\
    valid features = true.
End Service.

End Anomaly.

(** ** Sample data *)

Module Samples.
Import PyStr Db FeatureEngineering Anomaly.

Definition fresh_session : session := {| committed := []; pending := [] |}.

(** An estimator that flags a row when its first feature exceeds 3 and
    has no decision function. *)
Definition sample_estimator : estimator :=
  {| predict :=
       map (fun r => match r with
                     | Fin q :: _ => if Qle_bool q (3 # 1) then 1%Z else (-1)%Z
                     | _ => 1%Z
                     end);
     decision_function := fun _ => None |}.

Definition ints (l : list Z) : series := map VInt l.

(** Four batches: a quiet one, one the estimator flags, one above the
    energy threshold and one whose energy reading is NaN. *)
Definition sample_table : frame :=
  {| nrows := 4;
     cols := [("id", ints [1; 2; 3; 4]%Z);
              ("energy_consumption__kwh_",
               [VInt 2; VInt 5; VInt 1600; VFloat NaN]);
              ("outputweight_kg", ints [1; 1; 1; 1]%Z);
              ("inputweight_kg", ints [5; 5; 5; 5]%Z);
              ("roomtemp_c", ints [20; 20; 20; 20]%Z)] |}.

(** A table whose energy readings are all NaN. *)
Definition nan_table : frame :=
  {| nrows := 2;
     cols := [("id", ints [1; 2]%Z);
              ("energy_consumption__kwh_", [VFloat NaN; VFloat NaN]);
              ("outputweight_kg", ints [1; 1]%Z);
              ("inputweight_kg", ints [5; 5]%Z);
              ("roomtemp_c", ints [20; 20]%Z)] |}.

(** A table without weights. *)
Definition bare_table : frame :=
  {| nrows := 1; cols := [("id", ints [1]%Z)] |}.

(** Two clock readings of the same millisecond, and one a millisecond
later. *)
Definition sample_instant : DataProcessing.datetime :=
  {| DataProcessing.year := 2024; DataProcessing.month := 3; DataProcessing.day := 7;
     DataProcessing.hour := 9; DataProcessing.minute := 5; DataProcessing.second := 1;
     DataProcessing.microsecond := 123456 |}.

Definition same_millisecond : DataProcessing.datetime :=
  {| DataProcessing.year := 2024; DataProcessing.month := 3; DataProcessing.day := 7;
     DataProcessing.hour := 9; DataProcessing.minute := 5; DataProcessing.second := 1;
     DataProcessing.microsecond := 123999 |}.

Definition next_millisecond : DataProcessing.datetime :=
  {| DataProcessing.year := 2024; DataProcessing.month := 3; DataProcessing.day := 7;
     DataProcessing.hour := 9; DataProcessing.minute := 5; DataProcessing.second := 1;
     DataProcessing.microsecond := 124000 |}.

(** Two registered tables with different headers; [sample_keys] reads
the keys of their [columns_info]. *)
Definition table_a : DataProcessing.CSVFileMetadata :=
  {| DataProcessing.filename := "a.csv";
     DataProcessing.table_name := "csv_a_20240307_090501_123";
     DataProcessing.upload_timestamp := "2024-03-07 09:05:01";
     DataProcessing.record_count := 4;
     DataProcessing.columns_info := "a" |}.

Definition table_b : DataProcessing.CSVFileMetadata :=
  {| DataProcessing.filename := "b.csv";
     DataProcessing.table_name := "csv_b_20240307_090502_456";
     DataProcessing.upload_timestamp := "2024-03-07 09:05:02";
     DataProcessing.record_count := 2;
     DataProcessing.columns_info := "b" |}.

(** A second upload of the first file, a day later. *)
Definition table_a_again : DataProcessing.CSVFileMetadata :=
  {| DataProcessing.filename := "a.csv";
     DataProcessing.table_name := "csv_a_20240308_101500_000";
     DataProcessing.upload_timestamp := "2024-03-08 10:15:00";
     DataProcessing.record_count := 7;
     DataProcessing.columns_info := "a" |}.

Definition sample_keys (columns_info : string) : option (list string) :=
  if String.eqb columns_info "a" then Some ["Batch ID"; "Energy (kWh)"]
  else if String.eqb columns_info "b" then Some ["Notes"]
  else None.

Definition never_raises (_ : frame) : bool := false.
Definition sample_clock : Z := 1700000000%Z.
Definition no_datetime (_ : value) : option Z := None.

Definition calc_of (df : frame) : frame :=
  default df (calculate_features quiet_pandas never_raises df).

Definition sample_scored : list (gmap string value * severity) :=
  match score_frame None sample_estimator (calc_of sample_table) with
  | Scored scored => scored
  | _ => []
  end.

(** *** A runtime that computes

    Arithmetic cell by cell on finite numbers, exact on rationals: two
    integers give an integer under [-] and [*], any other pair of
    numbers a float, a division by zero an infinity or NaN.  A cell that
    is no finite number gives NaN.  The window operations take the cells
    up to the current one, [w] at most, and skip NaN; the mean of no
    cell and the deviation of fewer than two are NaN.  The deviation of
    a window of unequal readings is irrational and is left as NaN: the
    sample tables have equal energy readings.  The operations on dates
    and on groups are not computed and answer NaN, and sorting leaves
    the rows where they are: the sample tables have no timestamp and no
    machine column, so no run reaches them.  Nothing raises. *)
Definition finite (v : value) : option Q :=
  match to_float v with
  | Some (Fin q) => Some q
  | _ => None
  end.

Definition float_op (f : Q -> Q -> fval) (a b : value) : value :=
  match finite a, finite b with
  | Some x, Some y => VFloat (f x y)
  | _, _ => VFloat NaN
  end.

Definition number_op (fz : Z -> Z -> Z) (fq : Q -> Q -> Q) (a b : value) : value :=
  match a, b with
  | VInt x, VInt y => VInt (fz x y)
  | _, _ => float_op (fun x y => Fin (Qred (fq x y))) a b
  end.

Definition true_div (x y : Q) : fval :=
  if Qeq_bool y 0
  then (if Qeq_bool x 0 then NaN else if Qle_bool 0 x then PInf else NInf)
  else Fin (Qred (x / y)).

Definition window (w i : nat) (s : series) : list Q :=
  let seen := firstn (S i) s in
  omap finite (skipn (length seen - w) seen).

Definition mean (l : list Q) : value :=
  match l with
  | [] => VFloat NaN
  | _ => VFloat (Fin (Qred (fold_right Qplus 0%Q l / inject_Z (Z.of_nat (length l)))))
  end.

Definition deviation (l : list Q) : value :=
  match l with
  | x :: (_ :: _) as rest => if forallb (Qeq_bool x) rest then VFloat (Fin 0) else VFloat NaN
  | _ => VFloat NaN
  end.

Definition not_computed (s : series) : series := map (fun _ => VFloat NaN) s.

Definition exact_pandas : pandas :=
  {| div := zip_with (float_op true_div);
     sub := zip_with (number_op Z.sub Qminus);
     mul := zip_with (number_op Z.mul Qmult);
     scale := fun a q => map (fun v => float_op (fun x y => Fin (Qred (x * y))) v (VFloat (Fin q))) a;
     to_datetime := not_computed; dt_hour := not_computed; dt_dayofweek := not_computed;
     reorder := fun _ a => a; minutes_since_previous := not_computed;
     rolling_mean := fun w a => map (fun i => mean (window w i a)) (seq 0 (length a));
     rolling_std := fun w a => map (fun i => deviation (window w i a)) (seq 0 (length a));
     cumcount := not_computed; group_max := fun _ a => not_computed a;
     basic_raises := fun _ => false; temporal_raises := fun _ => false;
     rolling_raises := fun _ => false; rolling_handler_raises := fun _ => false;
     equipment_raises := fun _ => false |}.

(** An estimator that flags a batch made in a room above 25 degrees,
    the fourth feature, and scores it by the margin. *)
Definition room_temperature (features : list fval) : Q :=
  match nth 3 features NaN with
  | Fin q => q
  | _ => 0%Q
  end.

Definition temperature_estimator : estimator :=
  {| predict :=
       map (fun r => if Qle_bool (room_temperature r) 25 then 1%Z else (-1)%Z);
     decision_function :=
       fun rows => Some (map (fun r => Fin (Qred (25 - room_temperature r))) rows) |}.

Definition floats (l : list Q) : series := map (fun q => VFloat (Fin q)) l.

(** Three batches of 16 kWh: a quiet one, one made in a warm room, and
    one of a single kilogram, which takes 16 kWh per kg. *)
Definition mixed_table : frame :=
  {| nrows := 3;
     cols := [("id", ints [1; 2; 3]%Z);
              ("batchid", [VStr "B-1"; VStr "B-2"; VStr "B-3"]);
              ("energy_consumption__kwh_", floats [16; 16; 16]%Q);
              ("outputweight_kg", floats [16; 16; 1]%Q);
              ("inputweight_kg", floats [16; 16; 1]%Q);
              ("roomtemp_c", floats [20; 30; 20]%Q)] |}.

(** The history entries of the second and the third of them. *)
Definition warm_entry : AnomalyDetection :=
  {| batch_id := VStr "B-2"; timestamp := sample_clock;
     anomaly_score := Fin (-5); is_anomaly := true; ad_severity := AMBER;
     ad_table_name := "csv_batches";
     energy_kwh := Fin 16; energy_per_kg := Fin 1; yield_loss_pct := Fin 0;
     co2_per_kg := Fin (1 # 2); room_temp_c := Fin 30 |}.

Definition small_entry : AnomalyDetection :=
  {| batch_id := VStr "B-3"; timestamp := sample_clock;
     anomaly_score := Fin 5; is_anomaly := true; ad_severity := RED;
     ad_table_name := "csv_batches";
     energy_kwh := Fin 16; energy_per_kg := Fin 16; yield_loss_pct := Fin 0;
     co2_per_kg := Fin 8; room_temp_c := Fin 20 |}.

(** The frame computed from them and its scored rows. *)
Definition mixed_calc : frame :=
  default mixed_table (calculate_features exact_pandas never_raises mixed_table).

Definition mixed_scored : list (gmap string value * severity) :=
  match score_frame None temperature_estimator mixed_calc with
  | Scored scored => scored
  | _ => []
  end.

(** A table with a stage column: two known stages and one that is not in
    the mapping. *)
Definition stage_table : frame :=
  {| nrows := 3;
     cols := [("id", ints [1; 2; 3]%Z);
              ("ProductionStage", [VStr "Mixing"; VStr "Coating"; VStr "Rework"])] |}.

End Samples.

(** ** [app/services/data_processing.py]: the row loader *)

Module RowLoader.
Import PyStr Db DataProcessing.

(** A Python [dict] with string keys, as its items in insertion order:
    assigning to a key that is present overwrites in place. *)
Fixpoint dict_set {V} (k : string) (v : V) (d : list (string * V)) : list (string * V) :=
  match d with
  | [] => [(k, v)]
  | kv :: d' => if String.eqb (fst kv) k then (k, v) :: d' else kv :: dict_set k v d'
  end.

Definition dict_get {V} (k : string) (d : list (string * V)) : option V :=
  match List.find (fun kv => String.eqb (fst kv) k) d with
  | Some kv => Some (snd kv)
  | None => None
  end.

(** A row of [csv.DictReader]: a field is [None] where the line is
    shorter than the header. *)
Definition csv_row := gmap string (option string).

(** [row.get(col_name, '')]. *)
Definition row_get (row : csv_row) (col_name : string) : option string :=
  default (Some "") (row !! col_name).

(** [[row.get(col_name, '') for row in rows[:20]]].  A [None] cell fails
    the test [if v and ...] of [infer_column_type] as the empty string
    does, and is handed over as the empty string. *)
Definition sample_values (rows : list csv_row) (col_name : string) : list string :=
  map (fun row => default "" (row_get row col_name)) (firstn 20 rows).

Definition is_squote (c : ascii) : bool := (code c =? 39)%N.

(** [value.replace] of a single quote by two. *)
Fixpoint replace_quote (s : string) : string :=
  match s with
  | EmptyString => EmptyString
  | String c s' =>
      if is_squote c then String c (String c (replace_quote s'))
      else String c (replace_quote s')
  end.

(** Vocabulary for the statements on quoting: [no_quote] tells that a
    text has no single quote, [quotes_paired] that every quote of a
    literal's body is followed by a second one, and [sql_unescape] is
    the text such a body stands for. *)
Definition no_quote (s : string) : bool := all_chars (fun c => negb (is_squote c)) s.

Fixpoint quotes_paired (s : string) : bool :=
  match s with
  | EmptyString => true
  | String c s' =>
      if is_squote c then
        match s' with
        | String d s'' => is_squote d && quotes_paired s''
        | EmptyString => false
        end
      else quotes_paired s'
  end.

Fixpoint sql_unescape (s : string) : string :=
  match s with
  | EmptyString => EmptyString
  | String c s' =>
      if is_squote c then
        match s' with
        | String d s'' =>
            if is_squote d then String c (sql_unescape s'') else String c (sql_unescape s')
        | EmptyString => String c EmptyString
        end
      else String c (sql_unescape s')
  end.

(** The two branches of the loop over [columns]: the system column is
    named as it is, a header goes through the renaming of
    [create_dynamic_table]. *)
Definition insert_column (col : string) : string :=
  if mem_str col reserved_names then col
  else
    let safe_col := lower (sub_nonword col) in
    if mem_str (lower col) reserved_names then "csv_" +:+ safe_col else safe_col.

(** [safe_columns], from [['upload_timestamp'] + list(fieldnames)]. *)
Definition safe_columns (fieldnames : list string) : list string :=
  map insert_column ("upload_timestamp" :: fieldnames).

(** The text of the statement, its layout written as single spaces. *)
Definition insert_sql (table_name : string) (safe_columns values : list string) : string :=
  "INSERT INTO " +:+ table_name +:+ " (" +:+ join ", " safe_columns +:+ ") VALUES ("
  +:+ join ", " values +:+ ")".

(** A request ends in one of these. *)
Inductive upload_result :=
  | BadRequest (detail : string)
  | ServerError (detail : string)
  | Raised
  | Uploaded (metadata : CSVFileMetadata) (records_created : nat).

(** The database as the loader sees it: the session, and the rows of
    [CSVFileMetadata] that are committed. *)
Record store := { db : session; files : list CSVFileMetadata }.

Section Loader.
(** [dateutil.parser.parse(v)] returns; [parse(v).strftime('%Y-%m-%d
    %H:%M:%S')], [None] when the body of the [try] raises; [json.dumps]
    on [columns_info] and [json.loads(...).keys()]. *)
Variable dateutil_parses : string -> bool.
Variable formatted_date : string -> option string.
Variable json_dumps : list (string * sql_type) -> string.
Variable json_keys : string -> option (list string).

(** The loop that fills [columns_info]. *)
Definition infer_columns (fieldnames : list string) (rows : list csv_row)
  : list (string * sql_type) :=
  fold_left
    (fun columns_info col_name =>
       dict_set col_name
         (infer_column_type dateutil_parses (sample_values rows col_name) col_name)
         columns_info)
    fieldnames [].

(** The entry of [values] for one cell. *)
Definition sql_value (col_type : sql_type) (cell : string) : string :=
  let value := strip isspace cell in
  if mem_str value null_literals then "NULL"
  else
    let escaped_value := replace_quote value in
    match col_type with
    | TIMESTAMP | DATE =>
        match formatted_date value with
        | Some formatted => squote +:+ formatted +:+ squote
        | None => squote +:+ escaped_value +:+ squote
        end
    | INTEGER | FLOAT => escaped_value
    | BOOLEAN => escaped_value
    | TEXT => squote +:+ escaped_value +:+ squote
    end.

(** [values] for one row; [None] when a cell is [None] and [.strip()]
    raises. *)
Definition row_values (current_utc_str : string) (columns_info : list (string * sql_type))
    (fieldnames : list string) (row : csv_row) : option (list string) :=
  values ← mapM (fun col_name =>
                   cell ← row_get row col_name;
                   Some (sql_value (default TEXT (dict_get col_name columns_info)) cell))
                fieldnames;
  Some ((squote +:+ current_utc_str +:+ squote) :: values).

(** The loop over [rows] and the commit that follows it; [fault] as in
    [run_writes], counted over the inserts and the commit.  The count is
    [None] when an exception leaves the loop or the commit. *)
Fixpoint load_rows (fault : option nat) (table_name current_utc_str : string)
    (columns_info : list (string * sql_type)) (fieldnames : list string)
    (rows : list csv_row) (records_created : nat) (db : session)
  : option nat * session :=
  match rows with
  | [] =>
      match fault with
      | Some O => (None, db)
      | _ => (Some records_created, commit db)
      end
  | row :: rest =>
      match row_values current_utc_str columns_info fieldnames row with
      | None => (None, db)
      | Some values =>
          match fault with
          | Some O => (None, db)
          | _ =>
              load_rows (Nat.pred <$> fault) table_name current_utc_str columns_info
                fieldnames rest (S records_created)
                (exec (Sql (insert_sql table_name (safe_columns fieldnames) values)) db)
          end
      end
  end.

(** [stmt] is the INSERT written for [row]. *)
Definition insert_of (table_name current_utc_str : string)
    (columns_info : list (string * sql_type)) (fieldnames : list string)
    (row : csv_row) (stmt : string) : Prop :=
  exists values,
    row_values current_utc_str columns_info fieldnames row = Some values /\
    stmt = insert_sql table_name (safe_columns fieldnames) values.

(** [process_csv_upload(file, db)].  [parsed] is what decoding the file
    and reading it with [csv.DictReader] gives, the header and the rows
    ([None] when that raises); [now] is the clock reading of
    [sanitize_table_name], [current_utc_str] and [upload_time] the
    texts of the two readings of [datetime.utcnow()]; the three faults
    are those of [create_dynamic_table], of the loop with its commit,
    and of [create_unified_view]. *)
Definition process_csv_upload (parsed : option (list string * list csv_row))
    (file_name : string) (now : datetime) (current_utc_str upload_time : string)
    (create_fault insert_fault view_fault : option nat) (st : store)
  : upload_result * store :=
  match parsed with
  | None => (Raised, st)
  | Some (fieldnames, rows) =>
      if is_nil fieldnames then (BadRequest "CSV file has no columns", st)
      else if is_nil rows then (BadRequest "CSV file has no data rows", st)
      else
        let columns_info := infer_columns fieldnames rows in
        let table_name := sanitize_table_name file_name now in
        match create_dynamic_table create_fault table_name columns_info (db st) with
        | (false, db1) =>
            (ServerError "Failed to create table for CSV data",
             {| db := db1; files := files st |})
        | (true, db1) =>
            match load_rows insert_fault table_name current_utc_str columns_info
                    fieldnames rows 0 db1 with
            | (None, db2) => (Raised, {| db := db2; files := files st |})
            | (Some records_created, db2) =>
                let metadata :=
                  {| filename := file_name;
                     table_name := table_name;
                     upload_timestamp := upload_time;
                     record_count := records_created;
                     columns_info := json_dumps columns_info |} in
                let registered := files st ++ [metadata] in
                (Uploaded metadata records_created,
                 {| db := create_unified_view json_keys view_fault registered db2;
                    files := registered |})
            end
        end
  end.
End Loader.

End RowLoader.

(** ** [app/api/v1/upload.py] *)

Module UploadApi.
Import PyStr Db DataProcessing RowLoader.

(** [s.endswith(suffix)]. *)
Definition ends_with (suffix s : string) : bool :=
  (String.length suffix <=? String.length s) &&
  String.eqb
    (String.substring (String.length s - String.length suffix) (String.length suffix) s)
    suffix.

(** What a route answers: an [HTTPException], the [CSVUploadResponse] of
    an upload, or the message of a deletion with the count and the name
    it reports. *)
Inductive response :=
  | HTTPException (status_code : nat) (detail : string)
  | CSVUploadResponse (records_count : nat) (name table stamp : string)
  | Deleted (deleted_count : nat) (name : string).

Definition status_code_of (r : response) : nat :=
  match r with
  | HTTPException status_code _ => status_code
  | CSVUploadResponse _ _ _ _ => 200
  | Deleted _ _ => 200
  end.

(** [session.close()] at the end of [get_session]: the open transaction
    is dropped. *)
Definition close (st : store) : store :=
  {| db := rollback (db st); files := files st |}.

Section Route.
Variable dateutil_parses : string -> bool.
Variable formatted_date : string -> option string.
Variable json_dumps : list (string * sql_type) -> string.
Variable json_keys : string -> option (list string).

(** [upload_csv(background_tasks, file, db)]: the answer, the table for
    which [run_anomaly_detection] is scheduled, and the store once the
    session of the request is closed.  The detail of the last handler
    ends in the text of the exception, which is left out. *)
Definition upload_csv (parsed : option (list string * list csv_row))
    (file_name : string) (now : datetime) (current_utc_str upload_time : string)
    (create_fault insert_fault view_fault : option nat) (st : store)
  : response * option string * store :=
  if is_empty file_name || negb (ends_with ".csv" file_name)
  then (HTTPException 400 "File must be a CSV", None, close st)
  else
    match process_csv_upload dateutil_parses formatted_date json_dumps json_keys
            parsed file_name now current_utc_str upload_time
            create_fault insert_fault view_fault st with
    | (Uploaded metadata records_created, st') =>
        (CSVUploadResponse records_created file_name (table_name metadata)
           (upload_timestamp metadata),
         Some (table_name metadata), close st')
    | (BadRequest detail, st') => (HTTPException 400 detail, None, close st')
    | (ServerError detail, st') => (HTTPException 500 detail, None, close st')
    | (Raised, st') => (HTTPException 500 "Error processing CSV: ", None, close st')
    end.
(** The rows of [csv_files_metadata], each with its position in
    [files], which stands for its primary key. *)
Definition keyed (files : list CSVFileMetadata) : list (nat * CSVFileMetadata) :=
  combine (seq 0 (length files)) files.

(** [select(CSVFileMetadata).where(filename == name)]. *)
Definition named (name : string) (files : list CSVFileMetadata)
  : list (nat * CSVFileMetadata) :=
  List.filter (fun row => String.eqb (filename (snd row)) name) (keyed files).

(** [.first()] on that query.  It has no ORDER BY, so which of the rows
    of that name the database hands over first is its own choice:
    [choice] counts through them. *)
Definition first_named (choice : nat) (name : string) (files : list CSVFileMetadata)
  : option (nat * CSVFileMetadata) :=
  let rows := named name files in
  nth_error rows (choice mod length rows).

(** [db.delete(metadata)]: the row at that position goes. *)
Definition delete_row (i : nat) (files : list CSVFileMetadata) : list CSVFileMetadata :=
  firstn i files ++ skipn (S i) files.

(** [delete_csv_data(filename, db)], with the store once the session of
    the request is closed.  [select_raises] tells that the lookup of
    the metadata raises, [choice] is the choice of the database among
    the rows of that name, [fault] is counted over the DROP and the
    commit, as in [run_writes], and [view_fault] is the fault of
    [create_unified_view].  The detail of the last handler ends in the
    text of the exception, which is left out. *)
Definition delete_csv_data (select_raises : bool) (choice : nat)
    (fault view_fault : option nat) (name : string) (st : store) : response * store :=
  if select_raises
  then (HTTPException 500 "Error deleting data: ",
        close {| db := rollback (db st); files := files st |})
  else
    match first_named choice name (files st) with
    | None => (HTTPException 404 ("File " +:+ name +:+ " not found"), close st)
    | Some (i, metadata) =>
        match run_writes fault
                [Sql ("DROP TABLE IF EXISTS " +:+ table_name metadata +:+ " CASCADE")]
                (db st) with
        | (true, db1) =>
            let remaining := delete_row i (files st) in
            (Deleted (record_count metadata) name,
             close {| db := create_unified_view json_keys view_fault remaining db1;
                      files := remaining |})
        | (false, db1) =>
            (HTTPException 500 "Error deleting data: ",
             close {| db := rollback db1; files := files st |})
        end
    end.
End Route.

End UploadApi.

(** ** [app/ml/train_model.py]: feature preparation *)

Module Training.
Import PyStr Db FeatureEngineering Anomaly.

(** [[f for f in feature_names if f in df_processed.columns]]. *)
Definition available_features (df_processed : frame) : list string :=
  List.filter (fun f => has_col f df_processed) get_feature_names.

(** What [prepare_features] ends in: an exception of the feature
    engineer or of [np.isnan], the [ValueError] of the check on the
    number of features, or the cleaned matrix with its feature names and
    rows. *)
Inductive prepared :=
  | PrepareRaised
  | InsufficientFeatures (available : list string)
  | Prepared (features_clean : list (list fval)) (available : list string)
      (rows : list (gmap string value)).

Section Trainer.
Variable pd : pandas.

(** [prepare_features(df)]. *)
Definition prepare_features (df : frame) : prepared :=
  match engineer_features pd df with
  | None => PrepareRaised
  | Some df_processed =>
      let available := available_features df_processed in
      if length available <? 6 then InsufficientFeatures available
      else
        let rows := iterrows df_processed in
        match mapM (fun row => mapM (fun c => row !! c ≫= to_float) available) rows with
        | None => PrepareRaised
        | Some features =>
            Prepared (List.filter valid features) available (rows_valid rows features)
        end
  end.
End Trainer.

End Training.

(** ** Vocabulary for the statements on column labels *)

Module Labels.
Import PyStr Db FeatureEngineering.

(** The label a column has once the aliases of [column_mapping] are
    renamed. *)
Definition canonical_name (c : string) : string :=
  match List.find (fun m => String.eqb (fst m) c) column_mapping with
  | Some m => snd m
  | None => c
  end.

(** The targets of a table of renamings that are also keys of the table
    are renamed to themselves. *)
Definition stable_targets (l : list (string * string)) : bool :=
  forallb (fun m =>
             forallb (fun m' => implb (String.eqb (fst m') (snd m))
                                      (String.eqb (snd m') (snd m))) l) l.

(** [l'] is [l] with new, distinct labels appended. *)
Definition appends (l l' : list string) (new : list string) : Prop :=
  l' = l ++ new /\ List.NoDup new /\ forall x, In x new -> ~ In x l.

(** A scored row that the update loop files under its severity: its
    [id] is there and truthy. *)
Definition has_id (rs : gmap string value * severity) : bool :=
  match fst rs !! "id" with
  | Some record_id => Anomaly.truthy record_id
  | None => false
  end.

(** A cell other than plus or minus infinity. *)
Definition no_infinity (v : value) : bool :=
  match v with
  | VFloat PInf | VFloat NInf => false
  | _ => true
  end.

(** A cell that holds the whole number [z], as an integer or as a
    float; and one that holds a whole number between [lo] and [hi]. *)
Definition holds (z : Z) (v : value) : Prop :=
  v = VInt z \/ v = VFloat (Fin (inject_Z z)).

Definition whole_between (lo hi : Z) (v : value) : Prop :=
  exists z, holds z v /\ (lo <= z <= hi)%Z.

Definition is_int (v : value) : bool :=
  match v with VInt _ => true | _ => false end.

Definition is_float (v : value) : bool :=
  match v with VFloat _ => true | _ => false end.

End Labels.

(** ** Vocabulary for the statements on table names *)

Module Names.
Import PyStr.

(** An ASCII letter or digit. *)
Definition is_alnum (c : ascii) : bool :=
  is_ascii_lower c || is_ascii_upper c || is_ascii_digit c.

(** The pieces of [s] between the characters that satisfy [sep], in
    order, empty pieces included. *)
Fixpoint split_on (sep : ascii -> bool) (s : string) : list string :=
  match s with
  | EmptyString => [EmptyString]
  | String c s' =>
      if sep c then EmptyString :: split_on sep s'
      else
        match split_on sep s' with
        | piece :: pieces => String c piece :: pieces
        | [] => [String c EmptyString]
        end
  end.

(** The maximal runs of letters and digits of [s], in order. *)
Definition words (s : string) : list string :=
  List.filter (fun piece => negb (is_empty piece))
    (split_on (fun c => negb (is_alnum c)) s).

End Names.

(** ** More sample data *)

Module Cases.
Import PyStr Db DataProcessing RowLoader.

(** A file of two columns and two rows, and one whose second row is
    short. *)
Definition batch_rows : list csv_row :=
  [ {["Batch ID" := Some "B-1"; "Energy (kWh)" := Some " 12.5 "]};
    {["Batch ID" := Some "O'Hara"; "Energy (kWh)" := Some "NULL"]} ].

Definition short_rows : list csv_row :=
  [ {["Batch ID" := Some "B-1"; "Energy (kWh)" := Some "12.5"]};
    {["Batch ID" := Some "B-2"; "Energy (kWh)" := None]} ].

Definition batch_header : list string := ["Batch ID"; "Energy (kWh)"].

Definition no_dates (_ : string) : bool := false.
Definition no_formatted_date (_ : string) : option string := None.

(** A stand-in for [json.dumps] that writes the keys one per line, and
    the reader of its output. *)
Definition sample_dumps (columns_info : list (string * sql_type)) : string :=
  String.concat (String (ascii_of_nat 10) EmptyString) (map fst columns_info).

Definition sample_loads (columns_info : string) : option (list string) :=
  if String.eqb columns_info
       (sample_dumps [("Batch ID", TEXT); ("Energy (kWh)", FLOAT)])
  then Some batch_header
  else None.

Definition empty_store : store :=
  {| db := {| committed := []; pending := [] |}; files := [] |}.

End Cases.

(* ================================================================== *)
(** * Part II: properties                                              *)
(* ================================================================== *)

Import PyStr Db.

(** ** Severity classification *)

Section SeverityFacts.
Import FeatureEngineering Anomaly.

Lemma gt_finite (v : value) (q t : Q) :
  to_float v = Some (Fin q) -> gt v t = Some (negb (Qle_bool q t)).
Proof.
  destruct v as [| |z|f]; simpl; try discriminate.
  - intros [= <-]. reflexivity.
  - intros [= ->]. reflexivity.
Qed.

Lemma gt_true_iff (q t : Q) : negb (Qle_bool q t) = true <-> (t < q)%Q.
Proof.
  rewrite negb_true_iff. split.
  - intros H. apply Qnot_le_lt. intros Hle.
    apply Qle_bool_iff in Hle. congruence.
  - intros H. destruct (Qle_bool q t) eqn:E; [|reflexivity].
    apply Qle_bool_iff in E. exfalso. exact (Qlt_not_le _ _ H E).
Qed.

Lemma get0_float (row : gmap string value) (k : string) (q : Q) (t : Q) :
  row !! k ≫= to_float = Some (Fin q) ->
  gt (get0 row k) t = Some (negb (Qle_bool q t)).
Proof.
  unfold get0. destruct (row !! k) as [v|]; simpl; [|discriminate].
  apply gt_finite.
Qed.

Lemma hard_rule_bool (e k y c : Q) :
  negb (Qle_bool e (1500 # 1)) || negb (Qle_bool k (15 # 1))
  || negb (Qle_bool y (10 # 1)) || negb (Qle_bool c (6 # 1)) = true
  <-> hard_rule e k y c.
Proof.
  unfold hard_rule. rewrite !orb_true_iff, !gt_true_iff. tauto.
Qed.

Lemma within_not_hard (e k y c : Q) :
  within_thresholds e k y c <-> ~ hard_rule e k y c.
Proof.
  unfold within_thresholds, hard_rule. split.
  - intros (H1 & H2 & H3 & H4) [H|[H|[H|H]]];
      eapply Qlt_not_le; eauto.
  - intros H. repeat split; apply Qnot_lt_le; intros Hlt; apply H; tauto.
Qed.

(** C1.  A scored row has a finite float in each KPI column and an
    integer model flag.  [determine_severity] returns RED when a hard
    rule holds (Energy_kWh > 1500, Energy_per_kg > 15, Yield_loss_pct >
    10 or CO2_per_kg > 6.0), otherwise AMBER when the flag is -1, and
    otherwise GREEN; so Energy_kWh = 1600 gives RED whatever the rest,
    KPIs at or below the thresholds with an outlier flag give AMBER, and
    with a normal flag GREEN. *)
Theorem determine_severity_hybrid (row : gmap string value) (e k y c : Q) (flag : Z) :
  row !! "Energy_kWh" ≫= to_float = Some (Fin e) ->
  row !! "Energy_per_kg" ≫= to_float = Some (Fin k) ->
  row !! "Yield_loss_pct" ≫= to_float = Some (Fin y) ->
  row !! "CO2_per_kg" ≫= to_float = Some (Fin c) ->
  row !! "anomaly_flag" = Some (VInt flag) ->
  (hard_rule e k y c -> determine_severity row = Some RED) /\
  (within_thresholds e k y c -> flag = (-1)%Z -> determine_severity row = Some AMBER) /\
  (within_thresholds e k y c -> flag <> (-1)%Z -> determine_severity row = Some GREEN) /\
  ((e == 1600 # 1)%Q -> determine_severity row = Some RED).
Proof.
  intros He Hk Hy Hc Hf.
  assert (Hd : determine_severity row =
               Some (if negb (Qle_bool e (1500 # 1)) || negb (Qle_bool k (15 # 1))
                        || negb (Qle_bool y (10 # 1)) || negb (Qle_bool c (6 # 1))
                     then RED else if (flag =? -1)%Z then AMBER else GREEN)).
  { unfold determine_severity.
    rewrite (get0_float _ _ _ _ He), (get0_float _ _ _ _ Hk),
      (get0_float _ _ _ _ Hy), (get0_float _ _ _ _ Hc), Hf.
    reflexivity. }
  assert (Hred : hard_rule e k y c -> determine_severity row = Some RED).
  { intros H. apply hard_rule_bool in H. rewrite Hd, H. reflexivity. }
  repeat split.
  - exact Hred.
  - intros Hn%within_not_hard ->. rewrite Hd.
    destruct (_ || _) eqn:E; [apply hard_rule_bool in E; contradiction|].
    reflexivity.
  - intros Hn%within_not_hard Hflag. rewrite Hd.
    destruct (_ || _) eqn:E; [apply hard_rule_bool in E; contradiction|].
    destruct (Z.eqb_spec flag (-1)); [contradiction|reflexivity].
  - intros H1600. apply Hred. left. rewrite H1600. reflexivity.
Qed.

Lemma determine_severity_hybrid_witness :
  determine_severity
    (<["Energy_kWh" := VFloat (Fin (1600 # 1))]>
       (<["Energy_per_kg" := VFloat (Fin (15 # 1))]>
          (<["Yield_loss_pct" := VFloat (Fin (10 # 1))]>
             (<["CO2_per_kg" := VFloat (Fin (6 # 1))]>
                (<["anomaly_flag" := VInt 1]> ∅))))) = Some RED.
Proof.
  refine (proj1 (determine_severity_hybrid _ (1600 # 1) (15 # 1) (10 # 1) (6 # 1) 1
                   _ _ _ _ _) _).
  - reflexivity.
  - reflexivity.
  - reflexivity.
  - reflexivity.
  - reflexivity.
  - left. reflexivity.
Defined.

Lemma get0_absent (row : gmap string value) (k : string) :
  row !! k = None -> get0 row k = VInt 0.
Proof. unfold get0. intros ->. reflexivity. Qed.

Lemma get0_insert_ne (row : gmap string value) (k k' : string) (v : value) :
  k <> k' -> get0 (<[k := v]> row) k' = get0 row k'.
Proof. intros H. unfold get0. rewrite lookup_insert_ne by exact H. reflexivity. Qed.

Lemma get0_insert_zero (row : gmap string value) (k : string) :
  row !! k = None -> get0 (<[k := VInt 0]> row) k = get0 row k.
Proof.
  intros H. unfold get0. rewrite lookup_insert_eq, H. reflexivity.
Qed.

Lemma gt_zero_threshold (k : string) : gt (VInt 0) (kpi_threshold k) = Some false.
Proof.
  unfold kpi_threshold.
  repeat match goal with |- context [String.eqb ?a ?b] => destruct (String.eqb a b) end;
    reflexivity.
Qed.

Lemma gt_get0_true (row : gmap string value) (k : string) :
  gt (get0 row k) (kpi_threshold k) = Some true ->
  exists v, row !! k = Some v /\ gt v (kpi_threshold k) = Some true.
Proof.
  unfold get0. destruct (row !! k) as [v|] eqn:E.
  - intros H. exists v. split; [reflexivity|exact H].
  - intros H. change (gt (VInt 0) (kpi_threshold k) = Some true) in H.
    rewrite gt_zero_threshold in H. discriminate.
Qed.

Lemma determine_severity_red (row : gmap string value) :
  determine_severity row = Some RED ->
  exists k, In k kpi_columns /\ gt (get0 row k) (kpi_threshold k) = Some true.
Proof.
  unfold determine_severity.
  destruct (gt (get0 row "Energy_kWh") _) as [b1|] eqn:E1; simpl; [|discriminate].
  destruct (gt (get0 row "Energy_per_kg") _) as [b2|] eqn:E2; simpl; [|discriminate].
  destruct (gt (get0 row "Yield_loss_pct") _) as [b3|] eqn:E3; simpl; [|discriminate].
  destruct (gt (get0 row "CO2_per_kg") _) as [b4|] eqn:E4; simpl; [|discriminate].
  destruct b1.
  { intros _. exists "Energy_kWh". split; [simpl; tauto|exact E1]. }
  destruct b2.
  { intros _. exists "Energy_per_kg". split; [simpl; tauto|exact E2]. }
  destruct b3.
  { intros _. exists "Yield_loss_pct". split; [simpl; tauto|exact E3]. }
  destruct b4.
  { intros _. exists "CO2_per_kg". split; [simpl; tauto|exact E4]. }
  simpl. destruct (is_minus_one _); discriminate.
Qed.

(** C10.  A KPI absent from the row is compared as the value 0: the
    verdict is the one of the row with that KPI set to 0.  Hence whenever
    a row lacking a KPI is RED, another KPI, present in the row, exceeds
    its threshold; and a row lacking all four KPIs whose flag is not -1
    is GREEN. *)
Theorem absent_kpi_counts_as_zero (row : gmap string value) :
  (forall k, In k kpi_columns -> row !! k = None ->
     determine_severity row = determine_severity (<[k := VInt 0]> row)) /\
  (forall k, In k kpi_columns -> row !! k = None ->
     determine_severity row = Some RED ->
     exists k' v, k' <> k /\ In k' kpi_columns /\ row !! k' = Some v /\
                  gt v (kpi_threshold k') = Some true) /\
  ((forall k, In k kpi_columns -> row !! k = None) ->
     is_minus_one (row !! "anomaly_flag") = false ->
     determine_severity row = Some GREEN).
Proof.
  split; [|split].
  - intros k Hin Hk. unfold determine_severity.
    simpl in Hin.
    destruct Hin as [<-|[<-|[<-|[<-|[]]]]];
      rewrite ?get0_insert_zero by exact Hk;
      rewrite ?get0_insert_ne by discriminate;
      rewrite lookup_insert_ne by discriminate; reflexivity.
  - intros k Hin Hk Hred.
    destruct (determine_severity_red row Hred) as (k' & Hin' & Hgt).
    destruct (gt_get0_true row k' Hgt) as (v & Hv & Hgv).
    exists k', v. repeat split; auto.
    intros ->. congruence.
  - intros Hall Hflag. unfold determine_severity.
    rewrite !get0_absent by (apply Hall; simpl; tauto).
    simpl. rewrite Hflag. reflexivity.
Qed.

Lemma absent_kpi_counts_as_zero_witness :
  determine_severity (<["anomaly_flag" := VInt 1]> ∅) = Some GREEN.
Proof.
  refine (proj2 (proj2 (absent_kpi_counts_as_zero (<["anomaly_flag" := VInt 1]> ∅))) _ _).
  - intros k Hin. simpl in Hin.
    destruct Hin as [<-|[<-|[<-|[<-|[]]]]]; reflexivity.
  - reflexivity.
Defined.

End SeverityFacts.

(** ** Sessions *)

Section SessionFacts.

Lemma run_writes_ok (fault : option nat) (ws : list write) (db db' : session) :
  run_writes fault ws db = (true, db') -> db' = flushed db ws.
Proof.
  revert fault db. induction ws as [|w ws IH]; intros fault db H.
  - destruct fault as [[|n]|]; simpl in H; inversion H; subst;
      unfold flushed, commit; rewrite app_nil_r; reflexivity.
  - destruct fault as [[|n]|]; simpl in H; try discriminate;
      apply IH in H; subst db'; unfold flushed, exec; simpl;
      rewrite <- app_assoc; reflexivity.
Qed.

Lemma run_writes_failed (fault : option nat) (ws : list write) (db db' : session) :
  run_writes fault ws db = (false, db') -> committed db' = committed db.
Proof.
  revert fault db. induction ws as [|w ws IH]; intros fault db H.
  - destruct fault as [[|n]|]; simpl in H; inversion H; subst; reflexivity.
  - destruct fault as [[|n]|]; simpl in H.
    + inversion H; subst; reflexivity.
    + apply IH in H. exact H.
    + apply IH in H. exact H.
Qed.

Lemma run_writes_no_fault (ws : list write) (db : session) :
  run_writes None ws db = (true, flushed db ws).
Proof.
  destruct (run_writes None ws db) as [[|] db'] eqn:E.
  - apply run_writes_ok in E. subst. reflexivity.
  - exfalso. revert db E. induction ws as [|w ws IH]; intros db E; simpl in E.
    + discriminate.
    + apply IH in E. exact E.
Qed.

Lemma rollback_committed (db db' : session) :
  committed db' = committed db -> rollback db' = rollback db.
Proof. unfold rollback. intros ->. reflexivity. Qed.

End SessionFacts.

(** ** [detect_and_update] *)

Section DetectFacts.
Import FeatureEngineering Anomaly.

Variable model : option estimator.
Variable scaler : option (list (list fval) -> list (list fval)).
Variable pd : pandas.
Variable legacy_raises : frame -> bool.
Variable utcnow : Z.
Variable cell_to_datetime : value -> option Z.

Local Abbreviation detect := (detect_and_update model scaler pd legacy_raises utcnow cell_to_datetime).
Local Abbreviation entry_of := (history_entry utcnow cell_to_datetime).

Lemma save_history_ok (fault : option nat) (t : string)
    (rows : list (gmap string value * severity)) (db db' : session) :
  save_history utcnow cell_to_datetime fault t rows db = (true, db') ->
  exists es, Forall2 (fun rs e => entry_of t rs = Some e) rows es /\
             db' = flushed db (map AddHistory es).
Proof.
  revert fault db. induction rows as [|rs rows IH]; intros fault db H.
  - exists []. split; [constructor|].
    destruct fault as [[|n]|]; simpl in H; inversion H; subst;
      unfold flushed, commit; simpl; rewrite ?app_nil_r; reflexivity.
  - assert (Hstep : exists e fault',
               entry_of t rs = Some e /\
               save_history utcnow cell_to_datetime fault' t rows (exec (AddHistory e) db)
               = (true, db')).
    { destruct fault as [[|n]|]; simpl in H; try discriminate;
        destruct (entry_of t rs) as [e|]; try discriminate; eauto. }
    destruct Hstep as (e & fault' & He & Hrest).
    destruct (IH _ _ Hrest) as (es & Hes & ->).
    exists (e :: es). split; [constructor; assumption|].
    unfold flushed, exec; simpl. rewrite <- app_assoc. reflexivity.
Qed.

Lemma save_history_failed (fault : option nat) (t : string)
    (rows : list (gmap string value * severity)) (db db' : session) :
  save_history utcnow cell_to_datetime fault t rows db = (false, db') ->
  committed db' = committed db.
Proof.
  revert fault db. induction rows as [|rs rows IH]; intros fault db H.
  - destruct fault as [[|n]|]; simpl in H; inversion H; subst; reflexivity.
  - destruct fault as [[|n]|]; simpl in H;
      try (inversion H; subst; reflexivity);
      destruct (entry_of t rs) as [e|];
      try (inversion H; subst; reflexivity);
      apply IH in H; exact H.
Qed.

Lemma save_history_no_fault (t : string)
    (rows : list (gmap string value * severity)) (es : list AnomalyDetection)
    (db : session) :
  Forall2 (fun rs e => entry_of t rs = Some e) rows es ->
  save_history utcnow cell_to_datetime None t rows db = (true, flushed db (map AddHistory es)).
Proof.
  intros H. revert db. induction H as [|rs e rows es He _ IH]; intros db.
  - simpl. unfold flushed, commit. simpl. rewrite app_nil_r. reflexivity.
  - simpl. rewrite He, IH. unfold flushed, exec. simpl.
    rewrite <- app_assoc. reflexivity.
Qed.

Lemma save_history_faulty (k : nat) (t : string)
    (rows : list (gmap string value * severity)) (db : session) :
  k <= length rows ->
  fst (save_history utcnow cell_to_datetime (Some k) t rows db) = false.
Proof.
  revert k db. induction rows as [|rs rows IH]; intros k db Hk.
  - simpl in Hk. assert (k = 0) as -> by lia. reflexivity.
  - destruct k as [|k]; [reflexivity|]. simpl.
    destruct (entry_of t rs) as [e|]; [|reflexivity].
    apply IH. simpl in Hk. lia.
Qed.

(** What [persist] leaves behind, whatever the faults. *)
Lemma persist_cases (uf hf : option nat) (t : string)
    (scored : list (gmap string value * severity)) (db : session) :
  let r := persist utcnow cell_to_datetime uf hf t scored db in
  (fst r = Return Failed /\ snd r = rollback db) \/
  (fst r = Return (success_counts scored) /\
   exists hist,
     snd r = flushed db (alert_writes t scored ++ map AddHistory hist) /\
     (hist = [] \/
      Forall2 (fun rs e => entry_of t rs = Some e)
              (List.filter (fun rs => is_alert (snd rs)) scored) hist)).
Proof.
  unfold persist.
  destruct (run_writes uf (alert_writes t scored) db) as [[|] db1] eqn:E1; simpl.
  - right. split; [reflexivity|].
    apply run_writes_ok in E1. subst db1.
    destruct (save_history _ _ hf t _ _) as [[|] db2] eqn:E2.
    + destruct (save_history_ok _ _ _ _ _ E2) as (es & Hes & ->).
      exists es. split; [|right; exact Hes].
      unfold flushed; simpl. rewrite <- !app_assoc. reflexivity.
    + exists []. split; [|left; reflexivity].
      apply save_history_failed in E2.
      unfold rollback, flushed in *. simpl in *. rewrite E2, !app_nil_r. reflexivity.
  - left. split; [reflexivity|].
    apply rollback_committed. eapply run_writes_failed; eauto.
Qed.

Lemma detect_persist (table : option frame) (df_calc : frame)
    (scored : list (gmap string value * severity)) (uf hf : option nat)
    (t : string) (db : session) :
  reaches_persist model scaler pd legacy_raises table df_calc scored ->
  detect table uf hf t db = persist utcnow cell_to_datetime uf hf t scored db.
Proof.
  intros (m & df & -> & -> & Hn & Hcalc & Hmiss & Hscore).
  unfold detect_and_update.
  apply Nat.eqb_neq in Hn. rewrite Hn, Hcalc, Hmiss. simpl. rewrite Hscore.
  reflexivity.
Qed.

Lemma Forall2_In_r {A B} (P : A -> B -> Prop) (l : list A) (k : list B) (y : B) :
  Forall2 P l k -> In y k -> exists x, In x l /\ P x y.
Proof.
  induction 1 as [|x y' l k Hxy _ IH]; simpl; [tauto|].
  intros [<-|Hin]; [exists x; tauto|].
  destruct (IH Hin) as (x' & ? & ?). exists x'. tauto.
Qed.

Lemma score_rows_scored (rows : list (gmap string value)) (flags : list Z)
    (scores : list value) (scored : list (gmap string value * severity)) :
  Forall (fun s => is_Some (to_float s)) scores ->
  score_rows rows flags scores = Some scored ->
  Forall2 scored_from rows scored.
Proof.
  revert flags scores scored.
  induction rows as [|row rows IH]; intros [|f flags] [|s scores] scored Hs H;
    simpl in H; try discriminate.
  - inversion H. constructor.
  - inversion Hs; subst. destruct (determine_severity _) as [sev|] eqn:Hsev; simpl in H; [|discriminate].
    destruct (score_rows rows flags scores) as [rest|] eqn:Hrest; simpl in H;
      [|discriminate].
    inversion H; subst. constructor; [|eapply IH; eauto].
    exists f, s. simpl. split; [assumption|split; [exact Hsev|reflexivity]].
Qed.

Lemma rows_valid_survive (rows : list (gmap string value))
    (features : list (list fval)) (row : gmap string value) :
  Forall2 (fun r f => feature_vector r = Some f) rows features ->
  In row (rows_valid rows features) ->
  exists f, In row rows /\ feature_vector row = Some f /\ valid f = true.
Proof.
  intros H. unfold rows_valid.
  induction H as [|r f rows features Hrf _ IH]; simpl; [tauto|].
  destruct (valid f) eqn:Hv; simpl.
  - intros [<-|Hin]; [exists f; tauto|].
    destruct (IH Hin) as (f' & ? & ? & ?). exists f'. tauto.
  - intros Hin. destruct (IH Hin) as (f' & ? & ? & ?). exists f'. tauto.
Qed.

Lemma score_frame_scored (m : estimator) (df_calc : frame)
    (scored : list (gmap string value * severity)) :
  score_frame scaler m df_calc = Scored scored ->
  forall rs, In rs scored ->
  exists row, survives df_calc row /\ scored_from row rs.
Proof.
  unfold score_frame.
  destruct (mapM feature_vector (iterrows df_calc)) as [features|] eqn:Hf;
    [|discriminate].
  apply mapM_Some in Hf.
  destruct (negb (existsb id (map valid features))); [discriminate|].
  match goal with
  | |- context [negb (length (predict m ?x) =? ?n)] =>
      destruct (negb (length (predict m x) =? n)); [discriminate|]
  end.
  destruct (score_rows _ _ _) as [sc|] eqn:Hsc; [|discriminate].
  intros [= <-] rs Hrs.
  apply score_rows_scored in Hsc;
    [|destruct (decision_function m _); [destruct (length _ =? length _)|];
      apply List.Forall_forall; intros x (y & <- & _)%in_map_iff; simpl; eauto].
  destruct (Forall2_In_r _ _ _ _ Hsc Hrs) as (row & Hrow & Hfrom).
  exists row. split; [|exact Hfrom].
  destruct (rows_valid_survive _ _ _ Hf Hrow) as (f & ? & ? & ?).
  exists f. tauto.
Qed.

Lemma update_ids_In (sev : severity) (scored : list (gmap string value * severity))
    (record_id : value) :
  In record_id (update_ids sev scored) ->
  exists rs, In rs scored /\ fst rs !! "id" = Some record_id /\ snd rs = sev.
Proof.
  unfold update_ids. intros H. apply list_elem_of_In, list_elem_of_omap in H.
  destruct H as (rs & Hrs%list_elem_of_In & H). exists rs.
  destruct (fst rs !! "id") as [v|]; [|discriminate].
  destruct (truthy v); simpl in H; [|discriminate].
  destruct (severity_eqb (snd rs) sev) eqn:E; [|discriminate].
  inversion H; subst. repeat split; auto.
  destruct (snd rs), sev; simpl in E; congruence.
Qed.

Lemma alert_writes_In (t : string) (scored : list (gmap string value * severity))
    (w : write) :
  In w (alert_writes t scored) ->
  exists sev, w = UpdateAlert t sev (update_ids sev scored) /\
              update_ids sev scored <> [].
Proof.
  unfold alert_writes. simpl. rewrite !in_app_iff.
  intros [H|[H|[H|[]]]];
    [exists RED|exists AMBER|exists GREEN];
    destruct (update_ids _ scored) eqn:E; simpl in H; try tauto;
    destruct H as [<-|[]]; split; congruence.
Qed.

Lemma scored_from_id (row : gmap string value) (rs : gmap string value * severity) :
  scored_from row rs -> fst rs !! "id" = row !! "id".
Proof.
  intros (flag & score & _ & _ & ->).
  rewrite !lookup_insert_ne by discriminate. reflexivity.
Qed.

Lemma persist_not_skipped (uf hf : option nat) (t : string)
    (scored : list (gmap string value * severity)) (db : session)
    (reason : string) (missing : list string) :
  fst (persist utcnow cell_to_datetime uf hf t scored db) <> Return (Skipped reason missing).
Proof.
  destruct (persist_cases uf hf t scored db) as [[H _]|[H _]];
    rewrite H; discriminate.
Qed.

Lemma missing_features_spec (df_calc : frame) (c : string) :
  In c (missing_features df_calc) <->
  In c required_features /\ ~ In c (columns df_calc).
Proof.
  unfold missing_features. rewrite filter_In, negb_true_iff.
  unfold has_col, mem_str. split; intros [H1 H2]; split; auto.
  - intros Hin. apply not_true_iff_false in H2. apply H2.
    apply existsb_exists. exists c. split; [exact Hin|apply String.eqb_refl].
  - apply not_true_iff_false. intros (x & Hx & Heq)%existsb_exists.
    apply String.eqb_eq in Heq. subst x. contradiction.
Qed.

(** C9.  Skip conditions are results of their own, not errors.  With no
    model loaded the call returns skipped/model_not_loaded; on an empty
    table skipped/no_data.  With a model and a table that has rows, once
    the features are computed: when one of the six required feature
    columns is absent from the computed frame the call returns
    skipped/missing_columns with the list of the required columns that
    are absent, in the order of the required features, that column among
    them; and when none is absent the call does not return
    skipped/missing_columns.  Whenever the result is a skip its status
    is "skipped", not "error", and the session is the one received. *)
Theorem skips_are_not_errors (table : option frame) (uf hf : option nat)
    (t : string) (db : session) :
  (model = None ->
     detect table uf hf t db = (Return (Skipped "model_not_loaded" []), db)) /\
  (forall m df, model = Some m -> table = Some df -> nrows df = 0 ->
     detect table uf hf t db = (Return (Skipped "no_data" []), db)) /\
  (forall m df df_calc c,
     model = Some m -> table = Some df -> nrows df <> 0 ->
     calculate_features pd legacy_raises df = Some df_calc ->
     In c required_features -> ~ In c (columns df_calc) ->
     let missing :=
       List.filter (fun c' => negb (existsb (String.eqb c') (columns df_calc)))
         ["Energy_kWh"; "Energy_per_kg"; "Yield_loss_pct";
          "RoomTemp_C"; "CO2_per_kg"; "Energy_x_Temp"] in
     detect table uf hf t db = (Return (Skipped "missing_columns" missing), db) /\
     In c missing /\
     (forall c', In c' missing <->
                 In c' required_features /\ ~ In c' (columns df_calc))) /\
  (forall m df df_calc missing,
     model = Some m -> table = Some df -> nrows df <> 0 ->
     calculate_features pd legacy_raises df = Some df_calc ->
     (forall c, In c required_features -> In c (columns df_calc)) ->
     fst (detect table uf hf t db) <> Return (Skipped "missing_columns" missing)) /\
  (forall reason missing,
     fst (detect table uf hf t db) = Return (Skipped reason missing) ->
     snd (detect table uf hf t db) = db /\
     status (Skipped reason missing) = "skipped" /\
     status (Skipped reason missing) <> "error").
Proof.
  split; [|split; [|split; [|split]]].
  - intros Hm. unfold detect_and_update. rewrite Hm. reflexivity.
  - intros m df Hm Ht Hn. unfold detect_and_update. rewrite Hm, Ht, Hn. reflexivity.
  - intros m df df_calc c Hm Ht Hn Hcalc Hreq Habs missing.
    assert (Hmissing : missing = missing_features df_calc) by reflexivity.
    clearbody missing. subst missing.
    assert (Hin : In c (missing_features df_calc))
      by (apply missing_features_spec; split; assumption).
    split; [|split; [exact Hin|apply missing_features_spec]].
    unfold detect_and_update. rewrite Hm, Ht.
    apply Nat.eqb_neq in Hn. rewrite Hn, Hcalc.
    destruct (missing_features df_calc); [destruct Hin|reflexivity].
  - intros m df df_calc missing Hm Ht Hn Hcalc Hall.
    assert (Hnone : missing_features df_calc = []).
    { destruct (missing_features df_calc) as [|c l] eqn:E; [reflexivity|].
      assert (Hc : In c (missing_features df_calc)) by (rewrite E; left; reflexivity).
      apply missing_features_spec in Hc as [Hreq Habs].
      destruct (Habs (Hall c Hreq)). }
    unfold detect_and_update. rewrite Hm, Ht.
    apply Nat.eqb_neq in Hn. rewrite Hn, Hcalc, Hnone. cbn [is_nil negb].
    destruct (score_frame _ _ _) as [| |scored]; cbn [fst]; try discriminate.
    intros H. eapply persist_not_skipped; eauto.
  - intros reason missing H. split; [|split; [reflexivity|discriminate]].
    revert H. unfold detect_and_update.
    destruct model as [m|]; [|reflexivity].
    destruct table as [df|]; [|reflexivity].
    destruct (nrows df =? 0); [reflexivity|].
    destruct (calculate_features _ _ _) as [df_calc|]; [|reflexivity].
    destruct (negb (is_nil _)); [reflexivity|].
    destruct (score_frame _ _ _) as [| |scored]; try reflexivity.
    intros H. exfalso. eapply persist_not_skipped; eauto.
Qed.

(** C5.  Only rows that pass the NaN mask are written about.  Every
    write the call adds to the session is an alert update whose ids are
    ids of surviving rows, or a history entry built from the scored form
    of a surviving row; so a row with NaN in a required feature, whose id
    no surviving row shares, occurs in no added alert update.  When no
    row survives the call returns skipped/no_valid_data_rows and the
    session is the one received. *)
Theorem nan_rows_never_written (table : option frame) (uf hf : option nat)
    (t : string) (db : session) (m : estimator) (df df_calc : frame) :
  model = Some m -> table = Some df -> nrows df <> 0 ->
  calculate_features pd legacy_raises df = Some df_calc ->
  let db' := snd (detect table uf hf t db) in
  (forall w, In w (committed db' ++ pending db') ->
     In w (committed db ++ pending db) \/
     (exists sev ids, w = UpdateAlert t sev ids /\
        forall record_id, In record_id ids ->
          exists row, survives df_calc row /\ row !! "id" = Some record_id) \/
     (exists entry rs row, w = AddHistory entry /\
        entry_of t rs = Some entry /\ is_alert (snd rs) = true /\
        survives df_calc row /\ scored_from row rs)) /\
  (forall row features record_id sev ids,
     In row (iterrows df_calc) -> feature_vector row = Some features ->
     valid features = false -> row !! "id" = Some record_id ->
     (forall row', survives df_calc row' -> row' !! "id" = Some record_id -> row' = row) ->
     In (UpdateAlert t sev ids) (committed db' ++ pending db') ->
     ~ In (UpdateAlert t sev ids) (committed db ++ pending db) ->
     ~ In record_id ids) /\
  (missing_features df_calc = [] ->
   forall features, mapM feature_vector (iterrows df_calc) = Some features ->
     Forall (fun f => valid f = false) features ->
     detect table uf hf t db = (Return (Skipped "no_valid_data_rows" []), db)).
Proof.
  intros Hm Ht Hn Hcalc db'.
  assert (Hwrites : forall w, In w (committed db' ++ pending db') ->
     In w (committed db ++ pending db) \/
     (exists sev ids, w = UpdateAlert t sev ids /\
        forall record_id, In record_id ids ->
          exists row, survives df_calc row /\ row !! "id" = Some record_id) \/
     (exists entry rs row, w = AddHistory entry /\
        entry_of t rs = Some entry /\ is_alert (snd rs) = true /\
        survives df_calc row /\ scored_from row rs)).
  { subst db'. unfold detect_and_update. rewrite Hm, Ht.
    apply Nat.eqb_neq in Hn. rewrite Hn, Hcalc.
    destruct (negb (is_nil _)); [simpl; tauto|].
    destruct (score_frame scaler m df_calc) as [| |scored] eqn:Hscore;
      [simpl; tauto|simpl; tauto|].
    pose proof (score_frame_scored _ _ _ Hscore) as Hsc.
    destruct (persist_cases uf hf t scored db) as [[_ Hdb]|[_ (hist & Hdb & Hhist)]];
      rewrite Hdb; simpl; intros w Hw.
    - left. rewrite app_nil_r in Hw. apply in_app_iff. tauto.
    - rewrite app_nil_r in Hw. rewrite !in_app_iff in Hw. rewrite in_app_iff.
      destruct Hw as [Hw|[Hw|[Hw|Hw]]]; [tauto|tauto| |].
      + right. left. destruct (alert_writes_In _ _ _ Hw) as (sev & -> & _).
        exists sev, (update_ids sev scored). split; [reflexivity|].
        intros record_id Hid.
        destruct (update_ids_In _ _ _ Hid) as (rs & Hrs & Hlook & _).
        destruct (Hsc rs Hrs) as (row & Hsurv & Hfrom).
        exists row. split; [exact Hsurv|].
        rewrite <- Hlook. symmetry. apply scored_from_id. exact Hfrom.
      + right. right. apply in_map_iff in Hw. destruct Hw as (entry & <- & Hentry).
        destruct Hhist as [->|Hhist]; [destruct Hentry|].
        destruct (Forall2_In_r _ _ _ _ Hhist Hentry) as (rs & Hrs & He).
        apply filter_In in Hrs. destruct Hrs as [Hrs Halert].
        destruct (Hsc rs Hrs) as (row & Hsurv & Hfrom).
        exists entry, rs, row. tauto. }
  split; [exact Hwrites|split].
  - intros row features record_id sev ids Hrow Hfeat Hinvalid Hid Huniq Hnew Hold Hin.
    destruct (Hwrites _ Hnew) as [H|[(sev' & ids' & Heq & Hids)|(e & rs & r & Heq & _)]];
      [contradiction| |discriminate].
    inversion Heq; subst sev' ids'.
    destruct (Hids _ Hin) as (row' & Hsurv & Hid').
    pose proof (Huniq _ Hsurv Hid') as ->.
    destruct Hsurv as (f & _ & Hf & Hv). congruence.
  - intros Hmiss features Hfeat Hall.
    unfold detect_and_update. rewrite Hm, Ht.
    apply Nat.eqb_neq in Hn. rewrite Hn, Hcalc, Hmiss. simpl.
    unfold score_frame. rewrite Hfeat.
    assert (existsb id (map valid features) = false) as ->; [|reflexivity].
    clear Hfeat. induction Hall as [|f fs Hf _ IH]; simpl; [reflexivity|].
    rewrite Hf, IH. reflexivity.
Qed.

Lemma feature_vector_cell (row : gmap string value) (features : list fval) (k : string) :
  feature_vector row = Some features -> In k required_features ->
  exists v f, row !! k = Some v /\ to_float v = Some f.
Proof.
  unfold feature_vector. intros H%mapM_Some Hk.
  assert (Hall : forall l fs,
             Forall2 (fun c f => row !! c ≫= to_float = Some f) l fs ->
             In k l -> exists v f, row !! k = Some v /\ to_float v = Some f).
  { induction 1 as [|c f l fs Hcf _ IH]; simpl; [tauto|].
    intros [->|Hin]; [|auto].
    destruct (row !! k) as [v|]; simpl in Hcf; [|discriminate]. eauto. }
  eauto.
Qed.

Lemma kpi_snapshot_scored (row : gmap string value)
    (rs : gmap string value * severity) (features : list fval) (k : string) :
  feature_vector row = Some features -> scored_from row rs ->
  In k required_features ->
  is_Some (kpi_snapshot (fst rs) k).
Proof.
  intros Hf (flag & score & _ & _ & ->) Hk.
  destruct (feature_vector_cell _ _ _ Hf Hk) as (v & f & Hv & Hvf).
  unfold kpi_snapshot.
  assert (Hlook : forall A B C : value,
             <["severity" := A]> (<["anomaly_score" := B]> (<["anomaly_flag" := C]> row)) !! k
             = Some v).
  { intros A B C. simpl in Hk.
    destruct Hk as [<-|[<-|[<-|[<-|[<-|[<-|[]]]]]]];
      rewrite !lookup_insert_ne by discriminate; exact Hv. }
  rewrite Hlook. simpl. rewrite Hvf. destruct (negb (is_null v)); eauto.
Qed.

(** A history entry is built for every scored row whose timestamp
    converts. *)
Lemma history_entry_scored (t : string) (df_calc : frame) (row : gmap string value)
    (rs : gmap string value * severity) :
  survives df_calc row -> scored_from row rs ->
  is_Some (entry_timestamp utcnow cell_to_datetime (fst rs)) ->
  is_Some (entry_of t rs).
Proof.
  intros (features & _ & Hf & _) Hfrom [ts Hts].
  assert (Hk : forall k, In k required_features -> is_Some (kpi_snapshot (fst rs) k))
    by (intros k Hk; eapply kpi_snapshot_scored; eauto).
  destruct (Hk "Energy_kWh") as [e He]; [simpl; tauto|].
  destruct (Hk "Energy_per_kg") as [epk Hepk]; [simpl; tauto|].
  destruct (Hk "Yield_loss_pct") as [yl Hyl]; [simpl; tauto|].
  destruct (Hk "CO2_per_kg") as [co2 Hco2]; [simpl; tauto|].
  destruct (Hk "RoomTemp_C") as [rt Hrt]; [simpl; tauto|].
  destruct Hfrom as (flag & score & [sc Hsc] & _ & Hrow).
  unfold history_entry. rewrite Hts, He, Hepk, Hyl, Hco2, Hrt. simpl.
  assert (fst rs !! "anomaly_score" = Some score) as ->.
  { rewrite Hrow, lookup_insert_ne by discriminate. apply lookup_insert_eq. }
  simpl. rewrite Hsc. simpl. eauto.
Qed.

Lemma Forall_is_Some_Forall2 {A B} (f : A -> option B) (l : list A) :
  Forall (fun x => is_Some (f x)) l -> exists k, Forall2 (fun x y => f x = Some y) l k.
Proof.
  induction 1 as [|x l [y Hy] _ [k IH]]; [exists []; constructor|].
  exists (y :: k). constructor; assumption.
Qed.

Lemma Forall2_length_eq {A B} (P : A -> B -> Prop) (l : list A) (k : list B) :
  Forall2 P l k -> length l = length k.
Proof. induction 1; simpl; congruence. Qed.

Lemma history_entry_severity (t : string) (rs : gmap string value * severity)
    (e : AnomalyDetection) :
  entry_of t rs = Some e ->
  ad_severity e = snd rs /\ ad_table_name e = t /\ is_anomaly e = true.
Proof.
  unfold history_entry. intros H.
  repeat match type of H with
         | context [mbind _ ?o] => destruct o; simpl in H; [|discriminate]
         end.
  inversion H; subst; simpl. auto.
Qed.

(** C6.  Once the call reaches the write phases, let the historized
    rows be the scored rows classified RED or AMBER, in row order.
    With no fault, whenever an entry is built for each historized row
    the call returns success and the session gains the alert updates
    and then exactly these entries: one per RED or AMBER row, in row
    order, each with the severity of its row, and none for a GREEN row;
    the entries are built whenever the timestamps of the historized rows
    convert.  When the history phase fails after the alert updates were
    committed, be it at the k-th of its writes or for another reason,
    the call still reports success and the session holds the alert
    updates and no new history entry.  In every run a history entry
    added by the call is the entry of a scored row that is RED or
    AMBER. *)
Theorem history_is_isolated (table : option frame) (uf hf : option nat)
    (t : string) (db : session) (df_calc : frame)
    (scored : list (gmap string value * severity)) :
  reaches_persist model scaler pd legacy_raises table df_calc scored ->
  let historized :=
    List.filter (fun rs => match snd rs with RED | AMBER => true | GREEN => false end)
      scored in
  let r := detect table uf hf t db in
  (forall rs, In rs historized <-> In rs scored /\ (snd rs = RED \/ snd rs = AMBER)) /\
  (forall entries, uf = None -> hf = None ->
   Forall2 (fun rs e => entry_of t rs = Some e) historized entries ->
   r = (Return (success_counts scored),
        flushed db (alert_writes t scored ++ map AddHistory entries)) /\
   length entries = length historized /\
   Forall2 (fun rs e => ad_severity e = snd rs) historized entries /\
   Forall (fun e => ad_severity e = RED \/ ad_severity e = AMBER) entries) /\
  (Forall (fun rs => is_Some (entry_timestamp utcnow cell_to_datetime (fst rs)))
     historized ->
   exists entries, Forall2 (fun rs e => entry_of t rs = Some e) historized entries) /\
  (uf = None ->
   fst (save_history utcnow cell_to_datetime hf t historized
          (flushed db (alert_writes t scored))) = false ->
   r = (Return (success_counts scored), flushed db (alert_writes t scored))) /\
  (forall k, uf = None -> hf = Some k -> k <= length historized ->
   r = (Return (success_counts scored), flushed db (alert_writes t scored))) /\
  (forall e, In (AddHistory e) (committed (snd r) ++ pending (snd r)) ->
     In (AddHistory e) (committed db ++ pending db) \/
     exists rs, In rs scored /\ (snd rs = RED \/ snd rs = AMBER) /\
                entry_of t rs = Some e /\ ad_severity e = snd rs).
Proof.
  intros Hreach historized r.
  assert (Hhist : historized = List.filter (fun rs => is_alert (snd rs)) scored)
    by reflexivity.
  assert (Hr : r = persist utcnow cell_to_datetime uf hf t scored db)
    by (apply detect_persist with (df_calc := df_calc); exact Hreach).
  assert (Hin : forall rs, In rs historized <->
                           In rs scored /\ (snd rs = RED \/ snd rs = AMBER)).
  { intros rs. subst historized. rewrite filter_In.
    destruct (snd rs); intuition discriminate. }
  assert (Hfail : uf = None ->
            fst (save_history utcnow cell_to_datetime hf t historized
                   (flushed db (alert_writes t scored))) = false ->
            r = (Return (success_counts scored), flushed db (alert_writes t scored))).
  { intros -> Hf. rewrite Hr. unfold persist. rewrite run_writes_no_fault.
    rewrite <- Hhist.
    destruct (save_history _ _ hf t historized _) as [[|] db2] eqn:E; [discriminate|].
    apply save_history_failed in E. f_equal.
    unfold rollback, flushed in *. simpl in *. rewrite E. reflexivity. }
  assert (Hsev : forall rs e, In rs historized -> entry_of t rs = Some e ->
                   In rs scored /\ (snd rs = RED \/ snd rs = AMBER) /\
                   ad_severity e = snd rs).
  { intros rs e Hrs He. apply Hin in Hrs as [Hrs Hsev].
    apply history_entry_severity in He. destruct He as (He & _).
    split; [exact Hrs|split; [exact Hsev|exact He]]. }
  clearbody historized.
  split; [exact Hin|split; [|split; [|split; [|split]]]].
  - intros entries -> -> Hent. split; [|split; [|split]].
    + rewrite Hr. unfold persist. rewrite run_writes_no_fault. rewrite <- Hhist.
      rewrite (save_history_no_fault _ _ _ _ Hent). f_equal.
      unfold flushed. simpl. rewrite <- !app_assoc. reflexivity.
    + symmetry. eapply Forall2_length_eq; eauto.
    + eapply Forall2_impl; [exact Hent|]. intros rs e He.
      apply history_entry_severity in He. tauto.
    + apply List.Forall_forall. intros e He.
      destruct (Forall2_In_r _ _ _ _ Hent He) as (rs & Hrs & Hrse).
      destruct (Hsev rs e Hrs Hrse) as (_ & Hs & ->). exact Hs.
  - intros Hts.
    assert (Hsome : Forall (fun rs => is_Some (entry_of t rs)) historized).
    { destruct Hreach as (m & df & _ & _ & _ & _ & _ & Hscore).
      apply List.Forall_forall. intros rs Hrs.
      pose proof (proj1 (List.Forall_forall _ _) Hts rs Hrs) as Hrts.
      apply Hin in Hrs. destruct Hrs as [Hrs _].
      destruct (score_frame_scored _ _ _ Hscore rs Hrs) as (row & Hsurv & Hfrom).
      eapply history_entry_scored; eauto. }
    apply (Forall_is_Some_Forall2 _ _ Hsome).
  - exact Hfail.
  - intros k Hu -> Hk. apply Hfail; [exact Hu|].
    apply save_history_faulty. exact Hk.
  - intros e. rewrite Hr.
    destruct (persist_cases uf hf t scored db) as [[_ Hdb]|[_ (hist & Hdb & Hh)]];
      rewrite Hdb; simpl; rewrite ?app_nil_r, !in_app_iff.
    + tauto.
    + intros [H|[H|[H|H]]]; [tauto|tauto| |].
      * apply alert_writes_In in H. destruct H as (sev & H & _). discriminate.
      * right. apply in_map_iff in H. destruct H as (e' & [= ->] & He).
        destruct Hh as [->|Hh]; [destruct He|].
        rewrite <- Hhist in Hh.
        destruct (Forall2_In_r _ _ _ _ Hh He) as (rs & Hrs & Hrse).
        exists rs. destruct (Hsev rs e Hrs Hrse) as (H1 & H2 & H3). tauto.
Qed.

End DetectFacts.

Section DetectWitnesses.
Import FeatureEngineering Anomaly Samples.

Lemma skips_are_not_errors_witness :
  detect_and_update (Some temperature_estimator) None exact_pandas never_raises
    sample_clock no_datetime (Some stage_table) None None "csv_batches" fresh_session
  = (Return (Skipped "missing_columns"
               ["Energy_kWh"; "Energy_per_kg"; "Yield_loss_pct";
                "RoomTemp_C"; "CO2_per_kg"; "Energy_x_Temp"]),
     fresh_session).
Proof.
  refine (proj1 (proj1 (proj2 (proj2
            (skips_are_not_errors (Some temperature_estimator) None exact_pandas
               never_raises sample_clock no_datetime (Some stage_table) None None
               "csv_batches" fresh_session)))
            temperature_estimator stage_table
            (default stage_table
               (calculate_features exact_pandas never_raises stage_table))
            "RoomTemp_C" _ _ _ _ _ _)).
  - reflexivity.
  - reflexivity.
  - simpl. lia.
  - reflexivity.
  - simpl. tauto.
  - vm_compute. intros H.
    repeat (destruct H as [H|H]; [discriminate H|]). exact H.
Defined.

Lemma nan_rows_never_written_witness :
  detect_and_update (Some sample_estimator) None quiet_pandas never_raises
    sample_clock no_datetime (Some nan_table) None None "csv_batches" fresh_session
  = (Return (Skipped "no_valid_data_rows" []), fresh_session).
Proof.
  refine (proj2 (proj2 (nan_rows_never_written (Some sample_estimator) None quiet_pandas
                          never_raises sample_clock no_datetime (Some nan_table)
                          None None "csv_batches" fresh_session
                          sample_estimator nan_table (calc_of nan_table) _ _ _ _))
            _ [[NaN; NaN; Fin 5; Fin 20; NaN; NaN]; [NaN; NaN; Fin 5; Fin 20; NaN; NaN]] _ _).
  - reflexivity.
  - reflexivity.
  - simpl. lia.
  - vm_compute. reflexivity.
  - vm_compute. reflexivity.
  - vm_compute. reflexivity.
  - repeat constructor.
Defined.

(** The three batches of [mixed_table] are GREEN, AMBER and RED: the
    run writes three alert updates and the entries of the second and
    the third batch. *)
Lemma history_is_isolated_witness :
  detect_and_update (Some temperature_estimator) None exact_pandas never_raises
    sample_clock no_datetime (Some mixed_table) None None "csv_batches" fresh_session
  = (Return (Success 2 1 1 1),
     flushed fresh_session
       [UpdateAlert "csv_batches" RED [VInt 3];
        UpdateAlert "csv_batches" AMBER [VInt 2];
        UpdateAlert "csv_batches" GREEN [VInt 1];
        AddHistory warm_entry; AddHistory small_entry]).
Proof.
  refine (eq_trans
            (proj1 (proj1 (proj2
               (history_is_isolated (Some temperature_estimator) None exact_pandas
                  never_raises sample_clock no_datetime (Some mixed_table) None None
                  "csv_batches" fresh_session mixed_calc mixed_scored _))
               [warm_entry; small_entry] _ _ _)) _).
  - exists temperature_estimator, mixed_table.
    split; [reflexivity|]. split; [reflexivity|]. split; [simpl; lia|].
    split; [vm_compute; reflexivity|]. split; vm_compute; reflexivity.
  - reflexivity.
  - reflexivity.
  - apply mapM_Some. vm_compute. reflexivity.
  - vm_compute. reflexivity.
Defined.

End DetectWitnesses.

(** ** Feature engineering: the column index *)

Section FeatureFacts.
Import FeatureEngineering.

Lemma has_col_In (c : string) (df : frame) :
  has_col c df = true <-> In c (columns df).
Proof.
  unfold has_col, mem_str. rewrite existsb_exists. split.
  - intros (x & Hx & ->%String.eqb_eq). exact Hx.
  - intros H. exists c. split; [exact H|apply String.eqb_refl].
Qed.

Lemma has_col_not_In (c : string) (df : frame) :
  has_col c df = false <-> ~ In c (columns df).
Proof. rewrite <- has_col_In. destruct (has_col c df); intuition congruence. Qed.

Lemma In_assign (x c : string) (v : series) (l : list (string * series)) :
  In x (map fst (assign c v l)) <-> x = c \/ In x (map fst l).
Proof.
  induction l as [|kv l IH]; simpl.
  - intuition.
  - destruct (String.eqb_spec (fst kv) c) as [->|Hne]; simpl.
    + intuition.
    + rewrite IH. intuition.
Qed.

Lemma In_set_col (x c : string) (v : series) (df : frame) :
  In x (columns (set_col c v df)) <-> x = c \/ In x (columns df).
Proof. apply In_assign. Qed.

Lemma In_set_const (x c : string) (v : value) (df : frame) :
  In x (columns (set_const c v df)) <-> x = c \/ In x (columns df).
Proof. apply In_assign. Qed.

Lemma columns_relabel (g : string * series -> series) (l : list (string * series)) :
  map fst (map (fun kv => (fst kv, g kv)) l) = map fst l.
Proof. induction l as [|kv l IH]; simpl; congruence. Qed.

Lemma columns_sort_values (pd : pandas) (c : string) (df : frame) :
  columns (sort_values pd c df) = columns df.
Proof. unfold columns, sort_values. simpl. apply columns_relabel. Qed.

Lemma columns_replace_inf (df : frame) : columns (replace_inf df) = columns df.
Proof. unfold columns, replace_inf. simpl. apply columns_relabel. Qed.

Lemma has_col_set_col (x c : string) (v : series) (df : frame) :
  has_col x (set_col c v df) = String.eqb x c || has_col x df.
Proof.
  apply eq_true_iff_eq. rewrite orb_true_iff, !has_col_In, In_set_col, String.eqb_eq.
  reflexivity.
Qed.

Lemma has_col_set_const (x c : string) (v : value) (df : frame) :
  has_col x (set_const c v df) = String.eqb x c || has_col x df.
Proof. apply has_col_set_col. Qed.

Lemma has_col_sort_values (pd : pandas) (x c : string) (df : frame) :
  has_col x (sort_values pd c df) = has_col x df.
Proof. unfold has_col. rewrite columns_sort_values. reflexivity. Qed.

(** Turn every guard into a fact about the column index and decide. *)
Ltac guard_step :=
  first
    [ rewrite has_col_set_col
    | rewrite has_col_set_const
    | rewrite has_col_sort_values
    | match goal with
      | |- context [String.eqb ?a ?b] =>
          let r := eval vm_compute in (String.eqb a b) in
          change (String.eqb a b) with r
      end
    | progress cbn [orb andb negb]
    | match goal with
      | |- context [has_col ?c ?d] =>
          is_var d;
          let E := fresh "E" in
          destruct (has_col c d) eqn:E;
          [apply has_col_In in E | apply has_col_not_In in E]
      end
    | progress cbv beta iota zeta ].

Ltac guards :=
  repeat guard_step;
  repeat (rewrite In_set_col in * || rewrite In_set_const in *
          || rewrite columns_sort_values in * );
  intuition (try discriminate; try congruence).

Lemma In_add_energy_per_kg (pd : pandas) (x : string) (df : frame) :
  In x (columns (add_energy_per_kg pd df)) <->
  In x (columns df) \/
  (x = "Energy_per_kg" /\ In "Energy_kWh" (columns df) /\ In "OutputWeight_kg" (columns df)).
Proof. unfold add_energy_per_kg. guards. Qed.

Lemma In_add_yield_loss_pct (pd : pandas) (x : string) (df : frame) :
  In x (columns (add_yield_loss_pct pd df)) <->
  In x (columns df) \/
  (x = "Yield_loss_pct" /\
     In "InputWeight_kg" (columns df) /\ In "OutputWeight_kg" (columns df)).
Proof. unfold add_yield_loss_pct. guards. Qed.

Lemma In_add_co2_per_kg (pd : pandas) (x : string) (df : frame) :
  In x (columns (add_co2_per_kg pd df)) <->
  In x (columns df) \/
  (x = "CO2_per_kg" /\ In "Energy_kWh" (columns df) /\ In "OutputWeight_kg" (columns df)).
Proof. unfold add_co2_per_kg. guards. Qed.

Lemma In_add_energy_x_temp (pd : pandas) (x : string) (df : frame) :
  In x (columns (add_energy_x_temp pd df)) <->
  In x (columns df) \/
  (x = "Energy_x_Temp" /\ In "Energy_kWh" (columns df) /\ In "RoomTemp_C" (columns df)).
Proof. unfold add_energy_x_temp. guards. Qed.

(** A source column is not touched by the stages before it is read. *)
Ltac source_column :=
  split; [|tauto];
  repeat match goal with
         | |- _ \/ _ -> _ => intros [?|?]
         | |- _ /\ _ -> _ => intros [? ?]
         | |- In _ _ -> _ => intros ?
         | |- _ = _ -> _ => intros ?
         | H : _ \/ _ |- _ => destruct H
         | H : _ /\ _ |- _ => destruct H
         end; try discriminate; try assumption.

Lemma In_basic_kpis (pd : pandas) (x : string) (df : frame) :
  In x (columns (basic_kpis pd df)) <->
  In x (columns df) \/
  ((x = "Energy_per_kg" \/ x = "CO2_per_kg") /\
     In "Energy_kWh" (columns df) /\ In "OutputWeight_kg" (columns df)) \/
  (x = "Yield_loss_pct" /\
     In "InputWeight_kg" (columns df) /\ In "OutputWeight_kg" (columns df)) \/
  (x = "Energy_x_Temp" /\
     In "Energy_kWh" (columns df) /\ In "RoomTemp_C" (columns df)).
Proof.
  unfold basic_kpis.
  assert (HE : forall d, In "Energy_kWh" (columns (add_energy_per_kg pd d)) <->
                         In "Energy_kWh" (columns d))
    by (intros d; rewrite In_add_energy_per_kg; source_column).
  assert (HO : forall d, In "OutputWeight_kg" (columns (add_energy_per_kg pd d)) <->
                         In "OutputWeight_kg" (columns d))
    by (intros d; rewrite In_add_energy_per_kg; source_column).
  assert (HI : forall d, In "InputWeight_kg" (columns (add_energy_per_kg pd d)) <->
                         In "InputWeight_kg" (columns d))
    by (intros d; rewrite In_add_energy_per_kg; source_column).
  assert (HT : forall d, In "RoomTemp_C" (columns (add_energy_per_kg pd d)) <->
                         In "RoomTemp_C" (columns d))
    by (intros d; rewrite In_add_energy_per_kg; source_column).
  assert (HE2 : forall d, In "Energy_kWh" (columns (add_yield_loss_pct pd d)) <->
                          In "Energy_kWh" (columns d))
    by (intros d; rewrite In_add_yield_loss_pct; source_column).
  assert (HO2 : forall d, In "OutputWeight_kg" (columns (add_yield_loss_pct pd d)) <->
                          In "OutputWeight_kg" (columns d))
    by (intros d; rewrite In_add_yield_loss_pct; source_column).
  assert (HT2 : forall d, In "RoomTemp_C" (columns (add_yield_loss_pct pd d)) <->
                          In "RoomTemp_C" (columns d))
    by (intros d; rewrite In_add_yield_loss_pct; source_column).
  assert (HE3 : forall d, In "Energy_kWh" (columns (add_co2_per_kg pd d)) <->
                          In "Energy_kWh" (columns d))
    by (intros d; rewrite In_add_co2_per_kg; source_column).
  assert (HT3 : forall d, In "RoomTemp_C" (columns (add_co2_per_kg pd d)) <->
                          In "RoomTemp_C" (columns d))
    by (intros d; rewrite In_add_co2_per_kg; source_column).
  rewrite In_add_energy_x_temp, HE3, HT3, HE2, HT2, HE, HT.
  rewrite In_add_co2_per_kg, HE2, HO2, HE, HO.
  rewrite In_add_yield_loss_pct, HI, HO.
  rewrite In_add_energy_per_kg.
  tauto.
Qed.

Lemma In_temporal (pd : pandas) (x : string) (df : frame) :
  In x (columns (calculate_temporal_features pd df)) <->
  In x (columns df) \/
  x = "Batch_Hour" \/ x = "Batch_DayOfWeek" \/ x = "Time_Since_Last_Batch".
Proof.
  unfold calculate_temporal_features, temporal_defaults.
  destruct (temporal_raises pd df); [guards|].
  destruct (List.find _ timestamp_candidates) as [tc|] eqn:Hfind; [|guards].
  apply find_some in Hfind. destruct Hfind as [_ Htc%has_col_In].
  destruct (1 <? _); guards; subst; assumption.
Qed.

(** The rolling stage returns what its body or its handler built. *)
Lemma rolling_cases (pd : pandas) (df df2 : frame) :
  calculate_rolling_features pd df = Some df2 ->
  df2 = rolling_fallback df \/ df2 = rolling_body pd df.
Proof.
  unfold calculate_rolling_features.
  destruct (rolling_raises pd df); [destruct (rolling_handler_raises pd df)|];
    intros H; [discriminate H|left|right]; injection H as <-; reflexivity.
Qed.

Lemma In_rolling (pd : pandas) (x : string) (df df2 : frame) :
  calculate_rolling_features pd df = Some df2 ->
  In x (columns df2) <->
  In x (columns df) \/
  ((x = "Energy_kWh_Rolling_Mean" \/ x = "Energy_kWh_Rolling_Std") /\
     In "Energy_kWh" (columns df)) \/
  (x = "Yield_loss_pct_Rolling_Mean" /\ In "Yield_loss_pct" (columns df)).
Proof.
  intros H. destruct (rolling_cases pd df df2 H) as [-> | ->];
    unfold rolling_fallback, rolling_body; guards.
Qed.

(** [engineer_features] stage by stage, once it returns. *)
Lemma engineer_features_returns (pd : pandas) (df df' : frame) :
  engineer_features pd df = Some df' ->
  basic_raises pd df = false /\
  exists rolled,
    calculate_rolling_features pd
      (calculate_temporal_features pd (basic_kpis pd (standardize_columns df)))
    = Some rolled /\
    df' = replace_inf (calculate_equipment_features pd rolled).
Proof.
  unfold engineer_features, calculate_basic_features.
  destruct (basic_raises pd df); [discriminate|]. cbn [mbind option_bind]. cbv zeta.
  destruct (calculate_rolling_features pd _) as [rolled|]; [|discriminate].
  cbn [mbind option_bind]. intros [= <-]. split; [reflexivity|].
  exists rolled. split; reflexivity.
Qed.

Lemma In_equipment (pd : pandas) (x : string) (df : frame) :
  In x (columns (calculate_equipment_features pd df)) <->
  In x (columns df) \/
  x = "Machine_Batch_Count" \/ x = "ProductionStage_Encoded" \/ x = "Machine_Utilization".
Proof.
  unfold calculate_equipment_features, equipment_defaults.
  destruct (equipment_raises pd df); [guards|].
  cbn [existsb]. guards.
Qed.

Lemma energy_after_temporal (pd : pandas) (df : frame) :
  In "Energy_kWh" (columns (calculate_temporal_features pd (basic_kpis pd df))) <->
  In "Energy_kWh" (columns df).
Proof.
  rewrite In_temporal, In_basic_kpis.
  split; [|tauto].
  intros [[H|[[[H|H] _]|[[H _]|[H _]]]]|[H|[H|H]]]; try discriminate H. exact H.
Qed.

Lemma yield_after_temporal (pd : pandas) (df : frame) :
  In "Yield_loss_pct" (columns (calculate_temporal_features pd (basic_kpis pd df))) <->
  In "Yield_loss_pct" (columns df) \/
  In "InputWeight_kg" (columns df) /\ In "OutputWeight_kg" (columns df).
Proof.
  rewrite In_temporal, In_basic_kpis.
  split.
  - intros [[H|[[[H|H] _]|[[_ H]|[H _]]]]|[H|[H|H]]]; try discriminate H; tauto.
  - intros [H|H]; [tauto|]. left. right. right. left. tauto.
Qed.

Lemma In_engineer_features (pd : pandas) (df df' : frame) (x : string) :
  engineer_features pd df = Some df' ->
  let src := columns (standardize_columns df) in
  In x (columns df') <->
  In x src \/ In x defaulted_features \/
  ((x = "Energy_per_kg" \/ x = "CO2_per_kg") /\
     In "Energy_kWh" src /\ In "OutputWeight_kg" src) \/
  (x = "Yield_loss_pct" /\ In "InputWeight_kg" src /\ In "OutputWeight_kg" src) \/
  (x = "Energy_x_Temp" /\ In "Energy_kWh" src /\ In "RoomTemp_C" src) \/
  ((x = "Energy_kWh_Rolling_Mean" \/ x = "Energy_kWh_Rolling_Std") /\
     In "Energy_kWh" src) \/
  (x = "Yield_loss_pct_Rolling_Mean" /\
     (In "Yield_loss_pct" src \/ In "InputWeight_kg" src /\ In "OutputWeight_kg" src)).
Proof.
  intros H src. subst src.
  apply engineer_features_returns in H. destruct H as (_ & rolled & Hr & ->).
  rewrite columns_replace_inf, In_equipment, (In_rolling pd x _ rolled Hr),
    energy_after_temporal, yield_after_temporal, In_temporal, In_basic_kpis.
  assert (Hd : In x defaulted_features <->
               (x = "Batch_Hour" \/ x = "Batch_DayOfWeek" \/ x = "Time_Since_Last_Batch") \/
               (x = "Machine_Batch_Count" \/ x = "ProductionStage_Encoded"
                \/ x = "Machine_Utilization")).
  { unfold defaulted_features. simpl.
    split.
    - intros H. repeat (destruct H as [<-|H]; [tauto|]). destruct H.
    - intros [[-> | [-> | ->]] | [-> | [-> | ->]]]; tauto. }
  rewrite Hd. generalize (In x (columns (standardize_columns df))).
  generalize (In "Energy_kWh" (columns (standardize_columns df))).
  generalize (In "OutputWeight_kg" (columns (standardize_columns df))).
  generalize (In "InputWeight_kg" (columns (standardize_columns df))).
  generalize (In "RoomTemp_C" (columns (standardize_columns df))).
  generalize (In "Yield_loss_pct" (columns (standardize_columns df))).
  generalize (x = "Batch_Hour") (x = "Batch_DayOfWeek") (x = "Time_Since_Last_Batch")
    (x = "Machine_Batch_Count") (x = "ProductionStage_Encoded") (x = "Machine_Utilization")
    (x = "Energy_per_kg") (x = "CO2_per_kg") (x = "Yield_loss_pct") (x = "Energy_x_Temp")
    (x = "Energy_kWh_Rolling_Mean") (x = "Energy_kWh_Rolling_Std")
    (x = "Yield_loss_pct_Rolling_Mean").
  intros. tauto.
Qed.

(** C2, as the code has it.  [engineer_features] returns a frame
    exactly when the basic stage does not raise and the rolling stage
    does not raise out of its handler, which happens when its body
    raises and the handler, reading the same columns, raises again; the
    temporal and the equipment stage never let an exception out.  The
    returned frame always has the three temporal and the three equipment
    features, constants standing in when their sources are absent.  The
    basic and rolling stages have no defaults: Energy_kWh is in the
    result only if it is a column of the renamed input, and all 15
    features are present when the renamed input has Energy_kWh,
    OutputWeight_kg, InputWeight_kg and RoomTemp_C. *)
Theorem engineer_features_columns (pd : pandas) (df : frame) :
  (let at_rolling :=
     calculate_temporal_features pd (basic_kpis pd (standardize_columns df)) in
   (exists df', engineer_features pd df = Some df') <->
   basic_raises pd df = false /\
   (rolling_raises pd at_rolling = true -> rolling_handler_raises pd at_rolling = false)) /\
  (forall df', engineer_features pd df = Some df' ->
     let src := columns (standardize_columns df) in
     (forall f, In f defaulted_features -> In f (columns df')) /\
     (In "Energy_kWh" (columns df') <-> In "Energy_kWh" src) /\
     (In "Energy_kWh" src -> In "OutputWeight_kg" src ->
      In "InputWeight_kg" src -> In "RoomTemp_C" src ->
      forall f, In f get_feature_names -> In f (columns df'))).
Proof.
  split.
  - intros at_rolling. unfold engineer_features, calculate_basic_features.
    destruct (basic_raises pd df); cbn [mbind option_bind]; cbv zeta.
    + split; [intros [df' H]; discriminate H|intros [H _]; discriminate H].
    + fold at_rolling. unfold calculate_rolling_features.
      destruct (rolling_raises pd at_rolling);
        [destruct (rolling_handler_raises pd at_rolling)|]; cbn [mbind option_bind].
      * split; [intros [df' H]; discriminate H|].
        intros [_ H]. specialize (H eq_refl). discriminate H.
      * split; [intros _; split; [reflexivity|intros _; reflexivity]|].
        intros _. eexists. reflexivity.
      * split; [intros _; split; [reflexivity|intros H; discriminate H]|].
        intros _. eexists. reflexivity.
  - intros df' H.
    pose proof (fun x => In_engineer_features pd df df' x H) as Hchar.
    cbv zeta in Hchar. cbv zeta.
    set (src := columns (standardize_columns df)) in *. clearbody src.
    assert (Hd : forall f, In f defaulted_features -> In f (columns df'))
      by (intros f Hf; apply Hchar; tauto).
    split; [exact Hd|split].
    + rewrite Hchar. split; [|tauto].
      unfold defaulted_features. cbn [In].
      intros [Hs|[Hx|[[[Hx|Hx] _]|[[Hx _]|[[Hx _]|[[[Hx|Hx] _]|[Hx _]]]]]]];
        try discriminate Hx; [exact Hs|].
      repeat (destruct Hx as [Hx|Hx]; [discriminate Hx|]). destruct Hx.
    + intros HE HO HI HT f Hf.
      unfold get_feature_names in Hf. cbn [In] in Hf.
      repeat (destruct Hf as [<-|Hf];
              [first [apply Hd; unfold defaulted_features; cbn [In]; tauto
                     |apply Hchar; tauto]|]).
      destruct Hf.
Qed.

(** The three batches of [mixed_table] have the four sources under
    their lower-case aliases: all 15 features are computed. *)
Lemma engineer_features_columns_witness :
  Forall (fun f => In f (columns Samples.mixed_calc)) get_feature_names.
Proof.
  apply List.Forall_forall.
  refine (proj2 (proj2 (proj2 (engineer_features_columns Samples.exact_pandas
                                 Samples.mixed_table)
                          Samples.mixed_calc _))
            _ _ _ _).
  - vm_compute. reflexivity.
  - vm_compute. tauto.
  - vm_compute. tauto.
  - vm_compute. tauto.
  - vm_compute. tauto.
Defined.

(** C2, as stated, fails on a table that has only an [id] column: the
    call returns, and the frame it returns has the six defaulted features
    but none of the basic or rolling ones. *)
Lemma engineer_features_without_sources :
  columns <$> engineer_features quiet_pandas Samples.bare_table
  = Some ["id"; "Batch_Hour"; "Batch_DayOfWeek"; "Time_Since_Last_Batch";
          "Machine_Batch_Count"; "ProductionStage_Encoded"; "Machine_Utilization"] /\
  ~ (forall df', engineer_features quiet_pandas Samples.bare_table = Some df' ->
       forall f, In f get_feature_names -> In f (columns df')).
Proof.
  split; [reflexivity|].
  intros H.
  assert (HE : In "Energy_kWh" get_feature_names) by (left; reflexivity).
  apply (H _ eq_refl) in HE. vm_compute in HE.
  repeat (destruct HE as [HE|HE]; [discriminate HE|]). destruct HE.
Qed.

End FeatureFacts.

(** ** Column type inference *)

Section InferFacts.
Import DataProcessing.

Lemma mem_str_In (x : string) (l : list string) : mem_str x l = true <-> In x l.
Proof.
  unfold mem_str. rewrite existsb_exists. split.
  - intros (y & Hy & ->%String.eqb_eq). exact Hy.
  - intros H. exists x. split; [exact H|apply String.eqb_refl].
Qed.

Lemma kept_sample (s : string) :
  negb (is_empty s) && negb (mem_str (strip isspace s) null_literals) = true <->
  ~ In (strip isspace s) null_literals.
Proof.
  rewrite andb_true_iff, !negb_true_iff, <- mem_str_In.
  split.
  - intros [_ H]. congruence.
  - intros H. split; [|destruct (mem_str _ _); congruence].
    destruct s; [|reflexivity]. exfalso. apply H. reflexivity.
Qed.

Lemma In_clean_values (sample_values : list string) (v : string) :
  In v (clean_values sample_values) <->
  exists s, In s sample_values /\ v = strip isspace s /\ ~ In v null_literals.
Proof.
  unfold clean_values. rewrite in_map_iff. split.
  - intros (s & <- & Hs). apply filter_In in Hs. destruct Hs as [Hs Hk].
    apply kept_sample in Hk. eauto.
  - intros (s & Hs & -> & Hk). exists s. split; [reflexivity|].
    apply filter_In. split; [exact Hs|]. apply kept_sample. exact Hk.
Qed.

Variable dateutil_parses : string -> bool.

Local Abbreviation infer := (infer_column_type dateutil_parses).

(** C4.  [infer_column_type] is a function of the column name and the
    samples (and of the date parser it calls), applying the first rule
    that matches: a name containing "date" or "time" in any case gives
    TIMESTAMP whatever the samples; otherwise, with the samples stripped
    and the empty, NULL, null and None ones dropped, nothing left gives
    TEXT, all boolean literals give BOOLEAN, all accepted by [float] give
    FLOAT, and else TIMESTAMP if the first five parse as dates and TEXT if
    not.  INTEGER is never inferred.  BatchDate gives TIMESTAMP, Count
    with 1, 2, 3 FLOAT, Flag with yes, no, yes BOOLEAN, and Notes with ok,
    n/a TEXT, the date parser rejecting "ok". *)
Theorem infer_column_type_policy (sample_values : list string) (col_name : string) :
  let clean := clean_values sample_values in
  let temporal_name :=
    contains "date" (lower col_name) || contains "time" (lower col_name) in
  let all_bool := forallb (fun v => mem_str (lower v) bool_values) clean in
  let all_float := forallb float_parses clean in
  (temporal_name = true -> infer sample_values col_name = TIMESTAMP) /\
  (forall v, In v clean <->
     exists s, In s sample_values /\ v = strip isspace s /\ ~ In v null_literals) /\
  (temporal_name = false -> clean = [] -> infer sample_values col_name = TEXT) /\
  (temporal_name = false -> clean <> [] -> all_bool = true ->
     infer sample_values col_name = BOOLEAN) /\
  (temporal_name = false -> clean <> [] -> all_bool = false -> all_float = true ->
     infer sample_values col_name = FLOAT) /\
  (temporal_name = false -> clean <> [] -> all_bool = false -> all_float = false ->
     infer sample_values col_name
     = if forallb dateutil_parses (firstn 5 clean) then TIMESTAMP else TEXT) /\
  infer sample_values col_name <> INTEGER /\
  infer ["2024-01-01"; "2024-01-02"] "BatchDate" = TIMESTAMP /\
  infer ["1"; "2"; "3"] "Count" = FLOAT /\
  infer ["yes"; "no"; "yes"] "Flag" = BOOLEAN /\
  (dateutil_parses "ok" = false -> infer ["ok"; "n/a"] "Notes" = TEXT).
Proof.
  intros clean temporal_name all_bool all_float.
  assert (Hclean : sample_values = [] -> clean = []) by (intros ->; reflexivity).
  assert (Hunfold : temporal_name = false -> clean <> [] ->
            infer sample_values col_name
            = if all_bool then BOOLEAN
              else if all_float then FLOAT
              else if forallb dateutil_parses (firstn 5 clean) then TIMESTAMP else TEXT).
  { intros Ht Hc. unfold infer_column_type. fold temporal_name. rewrite Ht.
    destruct sample_values as [|s0 ss]; [exfalso; apply Hc; reflexivity|].
    cbn [is_nil]. fold clean. destruct clean; [contradiction|]. reflexivity. }
  split; [|split; [|split; [|split; [|split; [|split; [|split]]]]]].
  - intros Ht. unfold infer_column_type. fold temporal_name. rewrite Ht. reflexivity.
  - apply In_clean_values.
  - intros Ht Hc. unfold infer_column_type. fold temporal_name. rewrite Ht.
    destruct sample_values; [reflexivity|]. cbn [is_nil]. fold clean. rewrite Hc.
    reflexivity.
  - intros Ht Hc Hb. rewrite Hunfold, Hb by assumption. reflexivity.
  - intros Ht Hc Hb Hf. rewrite Hunfold, Hb, Hf by assumption. reflexivity.
  - intros Ht Hc Hb Hf. rewrite Hunfold, Hb, Hf by assumption. reflexivity.
  - unfold infer_column_type.
    repeat match goal with |- context [if ?b then _ else _] => destruct b end;
      discriminate.
  - split; [reflexivity|]. split; [reflexivity|]. split; [reflexivity|].
    intros Hok. unfold infer_column_type.
    change (forallb dateutil_parses (firstn 5 (clean_values ["ok"; "n/a"])))
      with (dateutil_parses "ok" && (dateutil_parses "n/a" && true)).
    rewrite Hok. reflexivity.
Qed.

End InferFacts.

Lemma infer_column_type_policy_witness :
  DataProcessing.infer_column_type (fun _ => false) ["ok"; "n/a"] "Notes"
  = DataProcessing.TEXT.
Proof.
  refine (proj2 (proj2 (proj2 (proj2 (proj2 (proj2 (proj2 (proj2 (proj2 (proj2
            (infer_column_type_policy (fun _ => false) [] "")))))))))) _).
  reflexivity.
Defined.

(** ** Table and column names *)

Section NameFacts.
Import DataProcessing.

Lemma str_app_cons (c : ascii) (a b : string) :
  String c a +:+ b = String c (a +:+ b).
Proof. reflexivity. Qed.

Lemma str_app_assoc (a b c : string) : (a +:+ b) +:+ c = a +:+ (b +:+ c).
Proof.
  induction a as [|x a IH]; [reflexivity|].
  rewrite !str_app_cons, IH. reflexivity.
Qed.

Lemma str_length_app (a b : string) :
  String.length (a +:+ b) = String.length a + String.length b.
Proof.
  induction a as [|x a IH]; [reflexivity|].
  rewrite str_app_cons. cbn [String.length]. rewrite IH. reflexivity.
Qed.

Lemma str_app_inv (a a' b b' : string) :
  String.length a = String.length a' -> a +:+ b = a' +:+ b' -> a = a' /\ b = b'.
Proof.
  revert a'. induction a as [|x a IH]; intros [|x' a'] Hlen H; try discriminate Hlen.
  - split; [reflexivity|exact H].
  - rewrite !str_app_cons in H. injection H as -> H.
    cbn [String.length] in Hlen. injection Hlen as Hlen.
    destruct (IH _ Hlen H) as [-> ->]. split; reflexivity.
Qed.

Lemma map_chars_app (f : ascii -> ascii) (a b : string) :
  map_chars f (a +:+ b) = map_chars f a +:+ map_chars f b.
Proof.
  induction a as [|x a IH]; [reflexivity|].
  rewrite str_app_cons. cbn [map_chars]. rewrite IH, str_app_cons. reflexivity.
Qed.

Lemma all_chars_app (p : ascii -> bool) (a b : string) :
  all_chars p (a +:+ b) = all_chars p a && all_chars p b.
Proof.
  induction a as [|x a IH]; [reflexivity|].
  rewrite str_app_cons. cbn [all_chars]. rewrite IH, andb_assoc. reflexivity.
Qed.

Lemma all_chars_map (p q : ascii -> bool) (f : ascii -> ascii) (s : string) :
  (forall c, p c = true -> q (f c) = true) ->
  all_chars p s = true -> all_chars q (map_chars f s) = true.
Proof.
  intros Hpq. induction s as [|x s IH]; [reflexivity|].
  cbn [all_chars map_chars]. rewrite !andb_true_iff. intros [Hx Hs].
  split; [apply Hpq; exact Hx|apply IH; exact Hs].
Qed.

Lemma map_chars_fixed (p : ascii -> bool) (f : ascii -> ascii) (s : string) :
  (forall c, p c = true -> f c = c) ->
  all_chars p s = true -> map_chars f s = s.
Proof.
  intros Hp. induction s as [|x s IH]; [reflexivity|].
  cbn [all_chars map_chars]. rewrite andb_true_iff. intros [Hx Hs].
  rewrite (Hp _ Hx), (IH Hs). reflexivity.
Qed.

Lemma all_chars_weaken (p q : ascii -> bool) (s : string) :
  (forall c, p c = true -> q c = true) ->
  all_chars p s = true -> all_chars q s = true.
Proof.
  intros Hpq. induction s as [|x s IH]; [reflexivity|].
  cbn [all_chars]. rewrite !andb_true_iff. intros [Hx Hs]. auto.
Qed.

Lemma substring_prefix (a b : string) :
  String.substring 0 (String.length a) (a +:+ b) = a.
Proof.
  induction a as [|x a IH].
  - destruct b; reflexivity.
  - rewrite str_app_cons. cbn [String.length String.substring]. rewrite IH. reflexivity.
Qed.

Lemma drop_last_app (a b : string) : drop_last (String.length b) (a +:+ b) = a.
Proof.
  unfold drop_last. rewrite str_length_app.
  replace (String.length a + String.length b - String.length b) with (String.length a)
    by lia.
  apply substring_prefix.
Qed.

(** Every character, by cases on its eight bits. *)
Ltac each_char c :=
  destruct c as [[|] [|] [|] [|] [|] [|] [|] [|]]; vm_compute; try reflexivity;
  try discriminate; try tauto.

Lemma lower_char_name (c : ascii) :
  is_word_char c = true -> is_name_char (lower_char c) = true.
Proof. each_char c. Qed.

Lemma lower_char_fixed (c : ascii) : is_name_char c = true -> lower_char c = c.
Proof. each_char c. Qed.

Lemma sub_nonword_word (c : ascii) :
  is_word_char (if is_word_char c then c else "_"%char) = true.
Proof. destruct (is_word_char c) eqn:E; [exact E|reflexivity]. Qed.

Lemma digit_is_name_char (c : ascii) : is_ascii_digit c = true -> is_name_char c = true.
Proof. each_char c. Qed.

Lemma underscore_not_digit (c : ascii) : is_underscore c = true -> isdigit c = false.
Proof. each_char c. Qed.

(** *** Fixed-width decimals *)

Lemma digit_char_digit (d : N) : (d < 10)%N -> is_ascii_digit (digit_char d) = true.
Proof.
  intros H.
  assert (Hd : (d = 0 \/ d = 1 \/ d = 2 \/ d = 3 \/ d = 4 \/ d = 5 \/ d = 6 \/ d = 7
                \/ d = 8 \/ d = 9)%N) by lia.
  repeat (destruct Hd as [-> | Hd]; [reflexivity|]). subst d. reflexivity.
Qed.

Lemma digit_char_inj (a b : N) :
  (a < 10)%N -> (b < 10)%N -> digit_char a = digit_char b -> a = b.
Proof.
  intros Ha Hb H. unfold digit_char in H.
  apply (f_equal N_of_ascii) in H.
  rewrite !N_ascii_embedding in H by lia. lia.
Qed.

Lemma mod_10_lt (n : N) : (n mod 10 < 10)%N.
Proof. apply N.mod_lt. discriminate. Qed.

Lemma zpad_length (w : nat) (n : N) : String.length (zpad w n) = w.
Proof. induction w as [|w IH]; [reflexivity|]. cbn [zpad String.length]. congruence. Qed.

Lemma zpad_digits (w : nat) (n : N) : all_chars is_ascii_digit (zpad w n) = true.
Proof.
  induction w as [|w IH]; [reflexivity|].
  cbn [zpad all_chars]. rewrite IH, digit_char_digit by apply mod_10_lt. reflexivity.
Qed.

Lemma pow10_succ (w : nat) : (10 ^ N.of_nat (S w) = 10 ^ N.of_nat w * 10)%N.
Proof. rewrite Nat2N.inj_succ, N.pow_succ_r'. lia. Qed.

Lemma zpad_inj (w : nat) (n m : N) :
  zpad w n = zpad w m -> (n mod 10 ^ N.of_nat w = m mod 10 ^ N.of_nat w)%N.
Proof.
  induction w as [|w IH]; intros H.
  - change (10 ^ N.of_nat 0)%N with 1%N. rewrite !N.mod_1_r. reflexivity.
  - cbn [zpad] in H. injection H as Hd Hrest.
    apply digit_char_inj in Hd; try apply mod_10_lt.
    apply IH in Hrest.
    rewrite pow10_succ, !N.Div0.mod_mul_r, Hd, Hrest. reflexivity.
Qed.

Lemma zpad_inj_small (w : nat) (n m : N) :
  (n < 10 ^ N.of_nat w)%N -> (m < 10 ^ N.of_nat w)%N -> zpad w n = zpad w m -> n = m.
Proof.
  intros Hn Hm H. apply zpad_inj in H.
  rewrite !N.mod_small in H by assumption. exact H.
Qed.

Lemma zpad_split (a b : nat) (n : N) :
  zpad (a + b) n = zpad a (n / 10 ^ N.of_nat b) +:+ zpad b n.
Proof.
  induction a as [|a IH]; [reflexivity|].
  cbn [Nat.add zpad]. rewrite str_app_cons, IH. f_equal. f_equal.
  rewrite N.Div0.div_div, <- N.pow_add_r, <- Nat2N.inj_add.
  replace (b + a) with (a + b) by lia. reflexivity.
Qed.

Lemma strftime_cut (t : datetime) :
  drop_last 3 (strftime_stamp t) = millisecond_stamp t.
Proof.
  unfold strftime_stamp, millisecond_stamp.
  change (zpad 6 (microsecond t)) with (zpad (3 + 3) (microsecond t)).
  rewrite (zpad_split 3 3 (microsecond t)).
  change (10 ^ N.of_nat 3)%N with 1000%N.
  rewrite <- !str_app_assoc.
  change 3 with (String.length (zpad 3 (microsecond t))) at 1.
  apply drop_last_app.
Qed.

Lemma millisecond_stamp_name_chars (t : datetime) :
  all_chars is_name_char (millisecond_stamp t) = true.
Proof.
  unfold millisecond_stamp. rewrite !all_chars_app.
  rewrite !(all_chars_weaken _ _ _ digit_is_name_char (zpad_digits _ _)).
  reflexivity.
Qed.

Lemma millisecond_stamp_inj (t1 t2 : datetime) :
  valid_datetime t1 -> valid_datetime t2 ->
  millisecond_stamp t1 = millisecond_stamp t2 ->
  millisecond_fields t1 = millisecond_fields t2.
Proof.
  intros (Hy1 & Hm1 & Hd1 & Hh1 & Hi1 & Hs1 & Hu1) (Hy2 & Hm2 & Hd2 & Hh2 & Hi2 & Hs2 & Hu2).
  unfold millisecond_stamp, millisecond_fields. intros H.
  apply str_app_inv in H; [|rewrite !zpad_length; reflexivity]. destruct H as [Hy H].
  apply str_app_inv in H; [|rewrite !zpad_length; reflexivity]. destruct H as [Hm H].
  apply str_app_inv in H; [|rewrite !zpad_length; reflexivity]. destruct H as [Hd H].
  apply str_app_inv in H; [|reflexivity]. destruct H as [_ H].
  apply str_app_inv in H; [|rewrite !zpad_length; reflexivity]. destruct H as [Hh H].
  apply str_app_inv in H; [|rewrite !zpad_length; reflexivity]. destruct H as [Hi H].
  apply str_app_inv in H; [|rewrite !zpad_length; reflexivity]. destruct H as [Hs H].
  apply str_app_inv in H; [|reflexivity]. destruct H as [_ Hu].
  assert ((microsecond t1 / 1000 < 1000 /\ microsecond t2 / 1000 < 1000)%N) as [Hq1 Hq2].
  { split; apply N.Div0.div_lt_upper_bound; lia. }
  apply zpad_inj_small in Hy; [|change (10 ^ N.of_nat 4)%N with 10000%N; lia|change (10 ^ N.of_nat 4)%N with 10000%N; lia].
  apply zpad_inj_small in Hm; [|change (10 ^ N.of_nat 2)%N with 100%N; lia|change (10 ^ N.of_nat 2)%N with 100%N; lia].
  apply zpad_inj_small in Hd; [|change (10 ^ N.of_nat 2)%N with 100%N; lia|change (10 ^ N.of_nat 2)%N with 100%N; lia].
  apply zpad_inj_small in Hh; [|change (10 ^ N.of_nat 2)%N with 100%N; lia|change (10 ^ N.of_nat 2)%N with 100%N; lia].
  apply zpad_inj_small in Hi; [|change (10 ^ N.of_nat 2)%N with 100%N; lia|change (10 ^ N.of_nat 2)%N with 100%N; lia].
  apply zpad_inj_small in Hs; [|change (10 ^ N.of_nat 2)%N with 100%N; lia|change (10 ^ N.of_nat 2)%N with 100%N; lia].
  apply zpad_inj_small in Hu; [|change (10 ^ N.of_nat 3)%N with 1000%N; lia|change (10 ^ N.of_nat 3)%N with 1000%N; lia].
  congruence.
Qed.

(** *** Cleaning a file name *)

Lemma all_chars_collapse (p : ascii -> bool) (prev : bool) (s : string) :
  all_chars p s = true -> all_chars p (collapse_from prev s) = true.
Proof.
  revert prev. induction s as [|c s IH]; intros prev; [reflexivity|].
  cbn [all_chars collapse_from]. rewrite andb_true_iff. intros [Hc Hs].
  destruct (is_underscore c); [destruct prev|]; cbn [all_chars];
    rewrite ?Hc; cbn [andb]; apply IH; exact Hs.
Qed.

Lemma collapse_no_double (prev : bool) (s : string) :
  no_double is_underscore (collapse_from prev s) = true /\
  (prev = true ->
   forall c, first_char (collapse_from prev s) = Some c -> is_underscore c = false).
Proof.
  revert prev. induction s as [|c s IH]; intros prev.
  - split; [reflexivity|]. intros _ c H. discriminate H.
  - cbn [collapse_from]. destruct (is_underscore c) eqn:Hc.
    + destruct prev; [apply IH|].
      split; [|discriminate].
      destruct (IH true) as [Hnd Hfirst]. cbn [no_double]. rewrite Hnd, andb_true_r.
      destruct (collapse_from true s) as [|d r] eqn:E; [reflexivity|].
      rewrite Hc, (Hfirst eq_refl d eq_refl). reflexivity.
    + destruct (IH false) as [Hnd _]. split.
      * cbn [no_double]. rewrite Hnd, Hc, andb_true_r.
        destruct (collapse_from false s); reflexivity.
      * intros _ d [= <-]. exact Hc.
Qed.

Lemma all_chars_lstrip (p q : ascii -> bool) (s : string) :
  all_chars p s = true -> all_chars p (lstrip q s) = true.
Proof.
  induction s as [|c s IH]; [reflexivity|].
  intros H. cbn [lstrip]. destruct (q c); [|exact H].
  cbn [all_chars] in H. apply andb_true_iff in H. apply IH, H.
Qed.

Lemma no_double_lstrip (p q : ascii -> bool) (s : string) :
  no_double p s = true -> no_double p (lstrip q s) = true.
Proof.
  induction s as [|c s IH]; [reflexivity|].
  intros H. cbn [lstrip]. destruct (q c); [|exact H].
  cbn [no_double] in H. apply andb_true_iff in H. apply IH, H.
Qed.

Lemma lstrip_head (q : ascii -> bool) (s : string) (c : ascii) :
  first_char (lstrip q s) = Some c -> q c = false.
Proof.
  induction s as [|d s IH]; [discriminate|].
  cbn [lstrip]. destruct (q d) eqn:Hd; [exact IH|].
  intros [= <-]. exact Hd.
Qed.

Lemma rstrip_head (q : ascii -> bool) (s : string) :
  rstrip q s = "" \/ first_char (rstrip q s) = first_char s.
Proof.
  destruct s as [|c s]; [left; reflexivity|].
  cbn [rstrip]. destruct (q c && is_empty (rstrip q s)); [left|right]; reflexivity.
Qed.

Lemma all_chars_rstrip (p q : ascii -> bool) (s : string) :
  all_chars p s = true -> all_chars p (rstrip q s) = true.
Proof.
  induction s as [|c s IH]; [reflexivity|].
  cbn [all_chars rstrip]. rewrite andb_true_iff. intros [Hc Hs].
  destruct (q c && is_empty (rstrip q s)); [reflexivity|].
  cbn [all_chars]. rewrite Hc, (IH Hs). reflexivity.
Qed.

Lemma no_double_rstrip (p q : ascii -> bool) (s : string) :
  no_double p s = true -> no_double p (rstrip q s) = true.
Proof.
  induction s as [|c s IH]; [reflexivity|].
  cbn [no_double rstrip]. rewrite andb_true_iff. intros [Hc Hs].
  destruct (q c && is_empty (rstrip q s)); [reflexivity|].
  cbn [no_double]. rewrite (IH Hs), andb_true_r.
  destruct (rstrip_head q s) as [->|Hh]; [reflexivity|].
  destruct (rstrip q s) as [|d r]; [reflexivity|].
  destruct s as [|d' s']; [discriminate Hh|].
  cbn [first_char] in Hh. injection Hh as ->. exact Hc.
Qed.

Lemma rstrip_last (q : ascii -> bool) (s : string) (c : ascii) :
  last_char (rstrip q s) = Some c -> q c = false.
Proof.
  induction s as [|d s IH]; [discriminate|].
  cbn [rstrip]. destruct (q d) eqn:Hd; cbn [andb].
  - destruct (is_empty (rstrip q s)) eqn:He; [discriminate|].
    cbn [last_char]. rewrite He. exact IH.
  - cbn [last_char]. destruct (is_empty (rstrip q s)) eqn:He; [|exact IH].
    intros [= <-]. exact Hd.
Qed.

Lemma all_chars_sub_nonword (s : string) : all_chars is_word_char (sub_nonword s) = true.
Proof.
  induction s as [|c s IH]; [reflexivity|].
  unfold sub_nonword in *. cbn [map_chars all_chars].
  rewrite sub_nonword_word, IH. reflexivity.
Qed.

(** The name between the two underscores that frame it in the table
    name, before a leading digit is dealt with. *)
Lemma stripped_name (filename : string) :
  let name := strip is_underscore
                (collapse_underscores (sub_nonword (remove_all ".csv" filename))) in
  all_chars is_word_char name = true /\
  no_double is_underscore name = true /\
  (forall c, first_char name = Some c -> is_underscore c = false) /\
  (forall c, last_char name = Some c -> is_underscore c = false).
Proof.
  intros name. subst name. unfold strip, collapse_underscores.
  set (raw := sub_nonword (remove_all ".csv" filename)).
  split; [|split; [|split]].
  - apply all_chars_rstrip, all_chars_lstrip, all_chars_collapse, all_chars_sub_nonword.
  - apply no_double_rstrip, no_double_lstrip. apply (collapse_no_double false raw).
  - intros c Hc.
    destruct (rstrip_head is_underscore (lstrip is_underscore (collapse_from false raw)))
      as [He|Hh].
    + rewrite He in Hc. discriminate Hc.
    + rewrite Hh in Hc. eapply lstrip_head; eauto.
  - intros c. apply rstrip_last.
Qed.

Lemma last_char_cons (c : ascii) (s : string) :
  s <> "" -> last_char (String c s) = last_char s.
Proof. destruct s; [congruence|reflexivity]. Qed.

Lemma clean_name_shape (filename : string) :
  let name := clean_name filename in
  all_chars is_word_char name = true /\
  no_double is_underscore name = true /\
  (forall c, first_char name = Some c -> is_underscore c = false /\ isdigit c = false) /\
  (forall c, last_char name = Some c -> is_underscore c = false).
Proof.
  intros name. subst name. unfold clean_name.
  destruct (stripped_name filename) as (Hw & Hnd & Hfirst & Hlast).
  set (name := strip is_underscore _) in *. clearbody name.
  destruct (starts_with_digit name) eqn:Hdig.
  - destruct name as [|d r]; [discriminate|]. cbn [starts_with_digit] in Hdig.
    change ("csv_" +:+ String d r)
      with (String "c" (String "s" (String "v" (String "_" (String d r))))).
    split; [|split; [|split]].
    + cbn [all_chars] in Hw |- *. rewrite Hw. reflexivity.
    + cbn [no_double] in Hnd |- *. rewrite Hnd.
      destruct (is_underscore d) eqn:Hd;
        [apply underscore_not_digit in Hd; congruence|reflexivity].
    + intros c [= <-]. split; reflexivity.
    + intros c. rewrite !last_char_cons by discriminate. apply Hlast.
  - split; [exact Hw|split; [exact Hnd|split; [|exact Hlast]]].
    intros c Hc. split; [apply Hfirst; exact Hc|].
    destruct name; [discriminate|]. injection Hc as <-. exact Hdig.
Qed.

Lemma sanitize_table_name_eq (filename : string) (now : datetime) :
  sanitize_table_name filename now
  = "csv_" +:+ lower (clean_name filename) +:+ "_" +:+ millisecond_stamp now.
Proof.
  unfold sanitize_table_name. rewrite strftime_cut. unfold lower.
  rewrite !map_chars_app.
  rewrite (map_chars_fixed is_name_char lower_char (millisecond_stamp now)
             lower_char_fixed (millisecond_stamp_name_chars now)).
  reflexivity.
Qed.

(** *** The cleaned name, word by word *)

Lemma str_app_empty (s : string) : s +:+ "" = s.
Proof. induction s as [|c s IH]; [reflexivity|]. rewrite str_app_cons, IH. reflexivity. Qed.

Lemma sub_char_sep (c : ascii) :
  is_underscore (if is_word_char c then c else "_"%char) = negb (Names.is_alnum c).
Proof. each_char c. Qed.

Lemma sub_char_alnum (c : ascii) :
  Names.is_alnum c = true -> (if is_word_char c then c else "_"%char) = c.
Proof.
  destruct c as [[|] [|] [|] [|] [|] [|] [|] [|]]; vm_compute; intros H;
    first [reflexivity | discriminate H].
Qed.

Lemma sub_char_other (c : ascii) :
  Names.is_alnum c = false -> (if is_word_char c then c else "_"%char) = "_"%char.
Proof.
  destruct c as [[|] [|] [|] [|] [|] [|] [|] [|]]; vm_compute; intros H;
    first [reflexivity | discriminate H].
Qed.

Lemma lstrip_collapse (prev : bool) (u : string) :
  lstrip is_underscore (collapse_from prev u) = collapse_from true u.
Proof.
  revert prev. induction u as [|c u IH]; intros prev; [reflexivity|].
  cbn [collapse_from]. destruct (is_underscore c) eqn:Hc.
  - destruct prev; [apply IH|]. cbn [lstrip]. rewrite Hc. apply IH.
  - cbn [lstrip]. rewrite Hc. reflexivity.
Qed.

Lemma concat_nonempty (x : string) (l : list string) :
  is_empty x = false -> is_empty (String.concat "_" (x :: l)) = false.
Proof.
  destruct x as [|c x]; [discriminate|]. intros _.
  destruct l; cbn [String.concat]; [reflexivity|]. rewrite str_app_cons. reflexivity.
Qed.

(** What is left of the cleaned text after a separator and inside a
    word, in terms of the pieces between the separators. *)
Lemma collapse_words (s : string) :
  rstrip is_underscore (collapse_from true (sub_nonword s))
  = String.concat "_"
      (List.filter (fun piece => negb (is_empty piece))
         (Names.split_on (fun c => negb (Names.is_alnum c)) s)) /\
  rstrip is_underscore (collapse_from false (sub_nonword s))
  = match Names.split_on (fun c => negb (Names.is_alnum c)) s with
    | piece :: pieces =>
        piece +:+ match List.filter (fun piece => negb (is_empty piece)) pieces with
                  | [] => ""
                  | l => "_" +:+ String.concat "_" l
                  end
    | [] => ""
    end.
Proof.
  induction s as [|c s [IH1 IH2]]; [split; reflexivity|].
  unfold sub_nonword in *. cbn [map_chars Names.split_on].
  pose proof (sub_char_sep c) as Hsep.
  destruct (Names.is_alnum c) eqn:Ha; cbn [negb] in *.
  - rewrite (sub_char_alnum c Ha) in *. cbn [collapse_from]. rewrite Hsep.
    cbn [rstrip]. rewrite Hsep. cbn [andb]. rewrite IH2. clear IH1 IH2.
    destruct (Names.split_on _ s) as [|piece pieces].
    + split; reflexivity.
    + cbn [List.filter is_empty negb].
      split; [|reflexivity].
      destruct (List.filter _ pieces) as [|x l].
      * rewrite str_app_empty. reflexivity.
      * reflexivity.
  - rewrite (sub_char_other c Ha) in *. cbn [collapse_from]. rewrite Hsep.
    cbn [rstrip]. rewrite Hsep. cbn [andb List.filter is_empty negb].
    rewrite IH1. clear IH1 IH2. split; [reflexivity|].
    destruct (List.filter _ (Names.split_on _ s)) as [|x l] eqn:E.
    + reflexivity.
    + assert (Hx : is_empty x = false).
      { assert (Hin : In x (List.filter (fun piece => negb (is_empty piece))
                              (Names.split_on (fun c => negb (Names.is_alnum c)) s)))
          by (rewrite E; left; reflexivity).
        apply filter_In in Hin as [_ Hin]. apply negb_true_iff in Hin. exact Hin. }
      rewrite (concat_nonempty x l Hx). reflexivity.
Qed.

Lemma stripped_words (s : string) :
  strip is_underscore (collapse_underscores (sub_nonword s))
  = String.concat "_" (Names.words s).
Proof.
  unfold strip, collapse_underscores. rewrite lstrip_collapse.
  apply (proj1 (collapse_words s)).
Qed.

(** *** Removing the extension *)

Lemma prefix_empty (s : string) : String.prefix "" s = true.
Proof. destruct s; reflexivity. Qed.

Lemma remove_absent (s : string) :
  contains ".csv" s = false -> remove_all ".csv" s = s.
Proof.
  unfold remove_all. induction s as [|c s IH]; [reflexivity|].
  cbn [contains]. intros H. apply orb_false_iff in H as [Hp Hc].
  cbn [remove_from]. rewrite Hp, (IH Hc). reflexivity.
Qed.

Lemma prefix_cut (x b : string) :
  x <> "" ->
  String.prefix ".csv" (x +:+ ".cs") = false ->
  String.prefix ".csv" (x +:+ ".csv" +:+ b) = false.
Proof.
  destruct x as [|c1 [|c2 [|c3 [|c4 r]]]]; [congruence|..]; intros _;
    rewrite !str_app_cons; cbn [String.prefix];
    repeat match goal with
           | |- context [ascii_dec ?a ?b] => destruct (ascii_dec a b)
           end;
    first [ intros _; reflexivity | intros H; exact H | congruence | idtac ].
  all: rewrite ?prefix_empty; intros H; try discriminate H; try reflexivity.
Qed.

Lemma remove_first (a b : string) :
  contains ".csv" (a +:+ ".cs") = false ->
  remove_all ".csv" (a +:+ ".csv" +:+ b) = a +:+ remove_all ".csv" b.
Proof.
  unfold remove_all. induction a as [|c a IH]; intros H.
  - change ("" +:+ ".csv" +:+ b)
      with (String "." (String "c" (String "s" (String "v" b)))).
    cbn [remove_from String.prefix String.length Nat.sub].
    destruct (ascii_dec "." "."); [|congruence].
    destruct (ascii_dec "c" "c"); [|congruence].
    destruct (ascii_dec "s" "s"); [|congruence].
    destruct (ascii_dec "v" "v"); [|congruence].
    rewrite prefix_empty. reflexivity.
  - rewrite (str_app_cons c a ".cs") in H. cbn [contains] in H.
    apply orb_false_iff in H as [Hp Hc].
    assert (Hcut : String.prefix ".csv" (String c a +:+ ".csv" +:+ b) = false).
    { apply prefix_cut; [discriminate|]. rewrite (str_app_cons c a ".cs"). exact Hp. }
    rewrite (str_app_cons c a (".csv" +:+ b)) in Hcut |- *.
    rewrite (str_app_cons c a (remove_from ".csv" 0 b)).
    cbn [remove_from]. rewrite Hcut, (IH Hc). reflexivity.
Qed.

Lemma clean_name_words (filename : string) :
  let core := String.concat "_" (Names.words (remove_all ".csv" filename)) in
  clean_name filename = if starts_with_digit core then "csv_" +:+ core else core.
Proof. intros core. unfold clean_name. cbv zeta. rewrite stripped_words. reflexivity. Qed.

(** C7, as the code has it.  From the file name every ".csv" is removed,
    the leftmost first: a name without one is left as it is, and a name
    whose first ".csv" follows [a] loses it and what is removed from the
    rest.  The cleaned name is what is left, taken as its maximal runs
    of ASCII letters and digits joined by single underscores, with csv_
    put in front when that starts with a digit.  So it consists of
    [a-zA-Z0-9_], has no two underscores in a row, neither starts nor
    ends with an underscore and does not start with a digit.  The table
    name is csv_, the cleaned name in lower case, an underscore and a
    stamp of the clock.  The stamp keeps the clock to the millisecond, so
    two uploads of one file name get the same table name exactly when
    their clock readings agree down to the millisecond. *)
Theorem table_name_shape (filename : string) :
  let name := clean_name filename in
  let body := remove_all ".csv" filename in
  let core := String.concat "_" (Names.words body) in
  (contains ".csv" filename = false -> body = filename) /\
  (forall a b, filename = a +:+ ".csv" +:+ b -> contains ".csv" (a +:+ ".cs") = false ->
     body = a +:+ remove_all ".csv" b) /\
  name = (if starts_with_digit core then "csv_" +:+ core else core) /\
  (forall now,
     sanitize_table_name filename now
     = "csv_" +:+ lower name +:+ "_" +:+ millisecond_stamp now /\
     all_chars is_name_char (sanitize_table_name filename now) = true) /\
  all_chars is_word_char name = true /\
  no_double is_underscore name = true /\
  (forall c, first_char name = Some c -> is_underscore c = false /\ isdigit c = false) /\
  (forall c, last_char name = Some c -> is_underscore c = false) /\
  (forall t1 t2, valid_datetime t1 -> valid_datetime t2 ->
     (sanitize_table_name filename t1 = sanitize_table_name filename t2 <->
      millisecond_fields t1 = millisecond_fields t2)).
Proof.
  intros name body core.
  destruct (clean_name_shape filename) as (Hw & Hnd & Hfirst & Hlast). fold name in Hw, Hnd, Hfirst, Hlast.
  split; [exact (remove_absent filename)|].
  split; [intros a b -> Ha; exact (remove_first a b Ha)|].
  split; [exact (clean_name_words filename)|].
  split; [|split; [exact Hw|split; [exact Hnd|split; [exact Hfirst|split; [exact Hlast|]]]]].
  - intros now. split; [apply sanitize_table_name_eq|].
    rewrite sanitize_table_name_eq, !all_chars_app, millisecond_stamp_name_chars.
    fold name. unfold lower.
    rewrite (all_chars_map is_word_char is_name_char lower_char name lower_char_name Hw).
    reflexivity.
  - intros t1 t2 Hv1 Hv2. rewrite !sanitize_table_name_eq. split.
    + intros H. apply millisecond_stamp_inj; try assumption.
      apply String.app_inj in H. apply String.app_inj in H. apply String.app_inj in H.
      exact H.
    + intros H. unfold millisecond_fields in H. unfold millisecond_stamp.
      injection H as -> -> -> -> -> -> ->. reflexivity.
Qed.

(** The upload of "Batch Records.csv" at 09:05:01.123456 on 7 March
    2024, and a second one a millisecond later. *)
Lemma table_name_shape_witness :
  remove_all ".csv" "Batch Records.csv" = "Batch Records" /\
  sanitize_table_name "Batch Records.csv" Samples.sample_instant
  = "csv_batch_records_20240307_090501_123" /\
  (sanitize_table_name "Batch Records.csv" Samples.sample_instant
   = sanitize_table_name "Batch Records.csv" Samples.next_millisecond <->
   millisecond_fields Samples.sample_instant = millisecond_fields Samples.next_millisecond).
Proof.
  pose proof (table_name_shape "Batch Records.csv") as H. cbv zeta in H.
  destruct H as (_ & Hbody & _ & Hname & _ & _ & _ & _ & Hstamp).
  split; [|split].
  - exact (Hbody "Batch Records" "" eq_refl eq_refl).
  - exact (eq_trans (proj1 (Hname Samples.sample_instant)) eq_refl).
  - apply (Hstamp Samples.sample_instant Samples.next_millisecond).
    + unfold valid_datetime. simpl. lia.
    + unfold valid_datetime. simpl. lia.
Defined.

(** C7, as stated, fails twice on the file name "data.csv": the name
    "data" does not start with a digit and yet the table name starts with
    csv_; and two different clock readings within one millisecond give the
    same table name. *)
Lemma table_name_collision :
  clean_name "data.csv" = "data" /\
  String.prefix "csv_" (sanitize_table_name "data.csv" Samples.sample_instant) = true /\
  valid_datetime Samples.sample_instant /\ valid_datetime Samples.same_millisecond /\
  Samples.sample_instant <> Samples.same_millisecond /\
  sanitize_table_name "data.csv" Samples.sample_instant
  = sanitize_table_name "data.csv" Samples.same_millisecond.
Proof.
  split; [reflexivity|]. split; [reflexivity|].
  split; [unfold valid_datetime; simpl; lia|].
  split; [unfold valid_datetime; simpl; lia|].
  split; [discriminate|reflexivity].
Qed.

(** *** Column names *)

Lemma map_chars_length (f : ascii -> ascii) (s : string) :
  String.length (map_chars f s) = String.length s.
Proof. induction s as [|c s IH]; [reflexivity|]. cbn [map_chars String.length]. congruence. Qed.

Lemma plain_column_name_chars (col_name : string) :
  all_chars is_name_char (lower (sub_nonword col_name)) = true.
Proof.
  unfold lower. apply (all_chars_map is_word_char); [exact lower_char_name|].
  apply all_chars_sub_nonword.
Qed.

Lemma lower_sub_char (c x : ascii) :
  is_ascii_lower x = true ->
  lower_char (if is_word_char c then c else "_"%char) = x -> lower_char c = x.
Proof.
  intros Hx H. subst x. revert Hx.
  destruct c as [[|] [|] [|] [|] [|] [|] [|] [|]]; vm_compute; intros H;
    first [reflexivity | discriminate H].
Qed.

Lemma plain_id (col_name : string) :
  lower (sub_nonword col_name) = "id" -> lower col_name = "id".
Proof.
  destruct col_name as [|c1 [|c2 [|c3 r]]]; try discriminate.
  unfold lower, sub_nonword. cbn [map_chars]. intros [= H1 H2].
  apply lower_sub_char in H1; [|reflexivity].
  apply lower_sub_char in H2; [|reflexivity].
  rewrite H1, H2. reflexivity.
Qed.

(** C8, as the code has it.  A CSV column name is sanitised by putting an
    underscore for every character outside [a-zA-Z0-9_] and lower-casing,
    character by character: runs are not collapsed and nothing is trimmed.
    The result consists of [a-z0-9_]; it gets the csv_ prefix exactly when
    the lower-cased original name is id or upload_timestamp; it is never
    id; and it is the name under which the column is declared in the
    table. *)
Theorem column_name_shape (col_name : string) :
  let safe := safe_column_name col_name in
  let plain := lower (sub_nonword col_name) in
  all_chars is_name_char safe = true /\
  String.length plain = String.length col_name /\
  (In (lower col_name) reserved_names -> safe = "csv_" +:+ plain) /\
  (~ In (lower col_name) reserved_names -> safe = plain) /\
  safe <> "id" /\
  (forall columns t, In (col_name, t) columns ->
     In (safe +:+ " " +:+ sql_type_name t) (columns_sql columns) /\
     In safe (table_column_names columns)).
Proof.
  intros safe plain. subst safe plain. unfold safe_column_name.
  split; [|split; [|split; [|split; [|split]]]].
  - destruct (mem_str _ _); [rewrite all_chars_app|];
      rewrite plain_column_name_chars; reflexivity.
  - unfold lower, sub_nonword. rewrite !map_chars_length. reflexivity.
  - intros H%mem_str_In. rewrite H. reflexivity.
  - intros H. destruct (mem_str _ _) eqn:E; [apply mem_str_In in E; contradiction|].
    reflexivity.
  - destruct (mem_str _ _) eqn:E.
    + destruct (lower (sub_nonword col_name)); discriminate.
    + intros H%plain_id. rewrite H in E. discriminate E.
  - intros columns t Hin. split.
    + unfold columns_sql. apply in_app_iff. right. apply in_app_iff. left.
      apply in_map_iff. exists (col_name, t). split; [reflexivity|exact Hin].
    + unfold table_column_names. apply in_app_iff. right. apply in_app_iff. left.
      apply in_map_iff. exists (col_name, t). split; [reflexivity|exact Hin].
Qed.

Lemma column_name_shape_witness : safe_column_name "ID" = "csv_id".
Proof.
  refine (proj1 (proj2 (proj2 (column_name_shape "ID"))) _).
  left. reflexivity.
Defined.

(** C8, as stated, fails: a CSV column called anomaly_alert keeps its
    name and is declared next to the system column of that name; and the
    rule is not the one of table names, which collapses the two
    underscores of "Batch  No". *)
Lemma column_name_shadows_system_column :
  safe_column_name "anomaly_alert" = "anomaly_alert" /\
  table_column_names [("anomaly_alert", TEXT)]
  = ["id"; "upload_timestamp"; "anomaly_alert"; "anomaly_alert"] /\
  safe_column_name "Batch  No" = "batch__no" /\
  lower (clean_name "Batch  No") = "batch_no".
Proof. repeat split; reflexivity. Qed.

End NameFacts.

(** ** The unified view *)

Section ViewFacts.
Import DataProcessing.

Variable json_keys : string -> option (list string).

Local Abbreviation step := (collect_step json_keys).










End ViewFacts.


(* ================================================================== *)
(** * Part III: further properties                                     *)
(* ================================================================== *)

(** ** Type inference, continued *)

Section InferMore.
Import DataProcessing.
Variable dateutil_parses : string -> bool.

Local Abbreviation infer := (infer_column_type dateutil_parses).

Lemma rstrip_idem (p : ascii -> bool) (s : string) : rstrip p (rstrip p s) = rstrip p s.
Proof.
  induction s as [|c s IH]; [reflexivity|].
  cbn [rstrip]. destruct (p c && is_empty (rstrip p s)) eqn:E; [reflexivity|].
  cbn [rstrip]. rewrite IH, E. reflexivity.
Qed.

Lemma lstrip_fixed (p : ascii -> bool) (s : string) :
  (forall c, first_char s = Some c -> p c = false) -> lstrip p s = s.
Proof.
  destruct s as [|c s]; [reflexivity|]. intros H. cbn [lstrip].
  rewrite (H c eq_refl). reflexivity.
Qed.

Lemma strip_idem (p : ascii -> bool) (s : string) : strip p (strip p s) = strip p s.
Proof.
  unfold strip. rewrite (lstrip_fixed p (rstrip p (lstrip p s))).
  - apply rstrip_idem.
  - intros c Hc. destruct (rstrip_head p (lstrip p s)) as [E|E].
    + rewrite E in Hc. discriminate.
    + rewrite E in Hc. apply (lstrip_head p s c Hc).
Qed.

(** The test of the comprehension in [clean_values]. *)
Lemma kept_iff (v : string) :
  negb (is_empty v) && negb (mem_str (strip isspace v) null_literals)
  = negb (mem_str (strip isspace v) null_literals).
Proof.
  destruct v as [|c v]; [reflexivity|]. reflexivity.
Qed.

Lemma clean_values_eq (sample_values : list string) :
  clean_values sample_values
  = List.filter (fun v => negb (mem_str v null_literals))
      (map (strip isspace) sample_values).
Proof.
  unfold clean_values. induction sample_values as [|v l IH]; [reflexivity|].
  cbn [List.filter map]. rewrite kept_iff.
  destruct (mem_str (strip isspace v) null_literals); cbn [negb map]; rewrite IH; reflexivity.
Qed.

Lemma infer_by_clean (s1 s2 : list string) (col_name : string) :
  clean_values s1 = clean_values s2 -> infer s1 col_name = infer s2 col_name.
Proof.
  intros E. unfold infer_column_type.
  destruct (contains "date" (lower col_name) || contains "time" (lower col_name));
    [reflexivity|].
  rewrite <- E.
  destruct s1 as [|a s1], s2 as [|b s2]; cbn [is_nil]; try reflexivity.
  rewrite E. reflexivity.
Qed.

(** X1.  [infer_column_type] looks at the stripped, non-null cells only:
    cells that strip to the empty string, NULL, null or None can be
    removed from the sample, and white space around the cells can be
    stripped, without changing the inferred type; two samples with the
    same cleaned values get the same type. *)
Theorem infer_ignores_blank_cells (sample_values : list string) (col_name : string) :
  (forall other, clean_values other = clean_values sample_values ->
     infer other col_name = infer sample_values col_name) /\
  infer (List.filter (fun v => negb (mem_str (strip isspace v) null_literals)) sample_values)
        col_name
  = infer sample_values col_name /\
  infer (map (strip isspace) sample_values) col_name = infer sample_values col_name /\
  (forall blanks, Forall (fun v => In (strip isspace v) null_literals) blanks ->
     infer (sample_values ++ blanks) col_name = infer sample_values col_name /\
     infer (blanks ++ sample_values) col_name = infer sample_values col_name).
Proof.
  split; [intros other E; apply infer_by_clean; exact E|].
  split.
  { apply infer_by_clean. rewrite !clean_values_eq.
    induction sample_values as [|v l IH]; [reflexivity|].
    cbn [List.filter map].
    destruct (mem_str (strip isspace v) null_literals) eqn:E; cbn [negb].
    - exact IH.
    - cbn [map List.filter]. rewrite E. cbn [negb]. rewrite IH. reflexivity. }
  split.
  { apply infer_by_clean. rewrite !clean_values_eq. rewrite map_map.
    f_equal. apply map_ext. intros v. apply strip_idem. }
  intros blanks Hb.
  assert (Hnil : clean_values blanks = []).
  { rewrite clean_values_eq. induction Hb as [|v l Hv _ IH]; [reflexivity|].
    cbn [map List.filter]. apply mem_str_In in Hv. rewrite Hv. exact IH. }
  split; apply infer_by_clean; rewrite !clean_values_eq, map_app, List.filter_app,
    <- !clean_values_eq, Hnil.
  - apply app_nil_r.
  - reflexivity.
Qed.

End InferMore.

(** X1, on a sample with a blank and a padded cell. *)
Lemma infer_ignores_blank_cells_witness :
  DataProcessing.infer_column_type (fun _ => false) (["1.5"; "2"] ++ [" NULL "; ""]) "Load"
  = DataProcessing.infer_column_type (fun _ => false) ["1.5"; "2"] "Load".
Proof.
  apply (infer_ignores_blank_cells (fun _ => false) ["1.5"; "2"] "Load").
  repeat constructor; vm_compute; tauto.
Defined.

(** ** Schema statements *)

Section SchemaFacts.
Import DataProcessing.

Lemma run_writes_faulty (k : nat) (ws : list write) (db : session) :
  k <= length ws -> fst (run_writes (Some k) ws db) = false.
Proof.
  revert k db. induction ws as [|w ws IH]; intros k db Hk.
  - cbn in Hk. assert (k = 0) by lia. subst. reflexivity.
  - destruct k as [|k]; [reflexivity|]. cbn [run_writes fmap option_fmap option_map Nat.pred].
    apply IH. cbn in Hk. lia.
Qed.

Lemma run_writes_late (k : nat) (ws : list write) (db : session) :
  length ws < k -> run_writes (Some k) ws db = (true, flushed db ws).
Proof.
  revert k db. induction ws as [|w ws IH]; intros k db Hk.
  - destruct k; [cbn in Hk; lia|]. cbn. unfold commit, flushed. rewrite app_nil_r. reflexivity.
  - destruct k as [|k]; [cbn in Hk; lia|].
    cbn [run_writes fmap option_fmap option_map Nat.pred].
    rewrite IH by (cbn in Hk; lia). unfold flushed, exec. cbn [committed pending].
    rewrite <- !app_assoc. reflexivity.
Qed.

(** Every outcome of a block of writes that rolls back on failure. *)
Lemma run_writes_atomic (fault : option nat) (ws : list write) (db : session) :
  let r := run_writes fault ws db in
  (fst r = true /\ snd r = flushed db ws) \/
  (fst r = false /\ rollback (snd r) = rollback db).
Proof.
  intros r. destruct r as [[|] db'] eqn:E.
  - left. split; [reflexivity|]. apply (run_writes_ok fault ws db db' E).
  - right. split; [reflexivity|]. apply rollback_committed.
    apply (run_writes_failed fault ws db db' E).
Qed.

Lemma create_dynamic_table_cases (fault : option nat) (name : string)
    (columns : list (string * sql_type)) (db : session) :
  let r := create_dynamic_table fault name columns db in
  (fst r = true /\ snd r = flushed db [Sql (create_table_sql name columns)]) \/
  (fst r = false /\ snd r = rollback db).
Proof.
  intros r. subst r. unfold create_dynamic_table.
  pose proof (run_writes_atomic fault [Sql (create_table_sql name columns)] db) as H.
  cbv zeta in H.
  destruct (run_writes fault [Sql (create_table_sql name columns)] db) as [[|] db'].
  - left. destruct H as [[_ H]|[H _]]; [|discriminate]. split; [reflexivity|exact H].
  - right. destruct H as [[H _]|[_ H]]; [discriminate|]. split; [reflexivity|exact H].
Qed.

(** X2.  [create_dynamic_table] is all or nothing: it returns [True]
    with the statement committed (together with what the transaction
    held), or [False] with the transaction rolled back and nothing
    committed; it fails exactly when the statement or the commit raises.
    The statement declares three columns more than the header has. *)
Theorem create_dynamic_table_atomic (fault : option nat) (name : string)
    (columns : list (string * sql_type)) (db : session) :
  let r := create_dynamic_table fault name columns db in
  ((fst r = true /\ snd r = flushed db [Sql (create_table_sql name columns)]) \/
   (fst r = false /\ snd r = rollback db)) /\
  (fst r = false <-> fault = Some 0 \/ fault = Some 1) /\
  length (columns_sql columns) = length columns + 3 /\
  length (table_column_names columns) = length (columns_sql columns).
Proof.
  intros r. subst r.
  split; [apply create_dynamic_table_cases|split; [|split]].
  - unfold create_dynamic_table.
    destruct fault as [[|[|k]]|]; cbn; split; intros H; try reflexivity;
      try discriminate; try (destruct H; discriminate); auto.
  - unfold columns_sql. rewrite !length_app, length_map. cbn. lia.
  - unfold columns_sql, table_column_names. rewrite !length_app, !length_map. cbn. lia.
Qed.

End SchemaFacts.

(** ** The unified view, continued *)

Section ViewMore.
Import DataProcessing.
Variable json_keys : string -> option (list string).

Lemma collect_unparsed (ml : list CSVFileMetadata)
    (st : gset string * gmap string (gset string)) :
  (forall m, In m ml -> json_keys (columns_info m) = None) ->
  fold_left (collect_step json_keys) ml st = st.
Proof.
  revert st. induction ml as [|m ml IH]; intros st H; [reflexivity|].
  cbn [fold_left]. unfold collect_step at 2. rewrite (H m (or_introl eq_refl)).
  apply IH. intros m' Hm'. apply H. right. exact Hm'.
Qed.

Lemma view_refresh_cases (fault : option nat)
    (metadata_list : list CSVFileMetadata) (db : session) :
  let db' := create_unified_view json_keys fault metadata_list db in
  db' = db \/ db' = rollback db \/
  exists queries, queries <> [] /\
    db' = flushed db [Sql "DROP VIEW IF EXISTS csv_data_unified_view";
                      Sql (view_sql queries)].
Proof.
  intros db'. subst db'. unfold create_unified_view.
  destruct (is_nil metadata_list) eqn:Hnil; [left; reflexivity|].
  destruct (collect_columns json_keys metadata_list) as [all_columns table_columns] eqn:Hc.
  destruct (decide (all_columns = ∅)); [left; reflexivity|].
  set (queries := union_queries metadata_list table_columns (sorted_columns all_columns)).
  destruct (is_nil queries) eqn:Hq; [left; reflexivity|].
  pose proof (run_writes_atomic fault
                [Sql "DROP VIEW IF EXISTS csv_data_unified_view"; Sql (view_sql queries)]
                db) as H.
  cbv zeta in H.
  destruct (run_writes fault _ db) as [[|] db'].
  - right. right. exists queries. split.
    + intros E. rewrite E in Hq. discriminate.
    + destruct H as [[_ H]|[H _]]; [exact H|discriminate].
  - right. left. destruct H as [[H _]|[_ H]]; [discriminate|exact H].
Qed.

(** X3.  [create_unified_view] either leaves the session as it is,
    rolls the transaction back, or commits the DROP and the CREATE of
    the view together: a refresh that fails commits neither, and when no
    registered table has readable metadata nothing is executed. *)
Theorem create_unified_view_atomic (fault : option nat)
    (metadata_list : list CSVFileMetadata) (db : session) :
  let db' := create_unified_view json_keys fault metadata_list db in
  (db' = db \/ db' = rollback db \/
   exists queries, queries <> [] /\
     db' = flushed db [Sql "DROP VIEW IF EXISTS csv_data_unified_view";
                       Sql (view_sql queries)]) /\
  (forall k, fault = Some k -> k <= 2 -> committed db' = committed db) /\
  ((forall m, In m metadata_list -> json_keys (columns_info m) = None) -> db' = db).
Proof.
  intros db'. subst db'.
  split; [apply view_refresh_cases|]. unfold create_unified_view.
  destruct (is_nil metadata_list) eqn:Hnil.
  { split; reflexivity. }
  destruct (collect_columns json_keys metadata_list) as [all_columns table_columns] eqn:Hc.
  split.
  - intros k -> Hk.
    destruct (decide (all_columns = ∅)); [reflexivity|].
    set (queries := union_queries metadata_list table_columns (sorted_columns all_columns)).
    destruct (is_nil queries) eqn:Hq; [reflexivity|].
    pose proof (run_writes_faulty k
                  [Sql "DROP VIEW IF EXISTS csv_data_unified_view"; Sql (view_sql queries)]
                  db Hk) as H.
    destruct (run_writes (Some k) _ db) as [[|] db'] eqn:E; [discriminate|].
    cbn [committed rollback]. apply (run_writes_failed _ _ _ _ E).
  - intros Hnone. unfold collect_columns in Hc.
    rewrite (collect_unparsed metadata_list _ Hnone) in Hc.
    injection Hc as <- <-.
    destruct (decide ((∅ : gset string) = ∅)) as [_|n]; [reflexivity|].
    exfalso. apply n. reflexivity.
Qed.


End ViewMore.


(** ** The row loader *)

Section QuoteFacts.
Import DataProcessing RowLoader.

Ltac by_char c :=
  destruct c as [[|] [|] [|] [|] [|] [|] [|] [|]]; vm_compute; try reflexivity;
  try discriminate; try tauto.

Lemma replace_quote_paired (v : string) : quotes_paired (replace_quote v) = true.
Proof.
  induction v as [|c v IH]; [reflexivity|].
  cbn [replace_quote]. destruct (is_squote c) eqn:E.
  - cbn [quotes_paired]. rewrite E. exact IH.
  - cbn [quotes_paired]. rewrite E. exact IH.
Qed.

Lemma sql_unescape_replace (v : string) : sql_unescape (replace_quote v) = v.
Proof.
  induction v as [|c v IH]; [reflexivity|].
  cbn [replace_quote]. destruct (is_squote c) eqn:E.
  - cbn [sql_unescape]. rewrite E, IH. reflexivity.
  - cbn [sql_unescape]. rewrite E, IH. reflexivity.
Qed.

Lemma replace_quote_plain (v : string) : no_quote v = true -> replace_quote v = v.
Proof.
  unfold no_quote. induction v as [|c v IH]; [reflexivity|].
  cbn [all_chars replace_quote]. intros H. apply andb_prop in H as [Hc Hv].
  apply negb_true_iff in Hc. rewrite Hc, (IH Hv). reflexivity.
Qed.

(** Stripping removes only characters of the stripped class. *)
Lemma all_chars_unlstrip (p q : ascii -> bool) (s : string) :
  (forall c, p c = true -> q c = true) ->
  all_chars q (lstrip p s) = true -> all_chars q s = true.
Proof.
  intros Hpq. induction s as [|c s IH]; [reflexivity|].
  cbn [lstrip]. destruct (p c) eqn:E; [|tauto].
  intros H. cbn [all_chars]. rewrite (Hpq c E), (IH H). reflexivity.
Qed.

Lemma all_chars_unrstrip (p q : ascii -> bool) (s : string) :
  (forall c, p c = true -> q c = true) ->
  all_chars q (rstrip p s) = true -> all_chars q s = true.
Proof.
  intros Hpq. induction s as [|c s IH]; [reflexivity|].
  cbn [rstrip]. destruct (p c && is_empty (rstrip p s)) eqn:E.
  - intros _. apply andb_prop in E as [Hc He]. cbn [all_chars].
    rewrite (Hpq c Hc). apply IH. destruct (rstrip p s); [reflexivity|discriminate].
  - cbn [all_chars]. intros H. apply andb_prop in H as [Hc Hs].
    rewrite Hc, (IH Hs). reflexivity.
Qed.

Lemma no_quote_unstrip (s : string) : no_quote (strip isspace s) = true -> no_quote s = true.
Proof.
  unfold no_quote, strip. intros H.
  assert (Hsp : forall c, isspace c = true -> negb (is_squote c) = true).
  { intros c. by_char c. }
  apply (all_chars_unlstrip isspace _ s Hsp).
  apply (all_chars_unrstrip isspace _ _ Hsp). exact H.
Qed.

Lemma no_quote_unlower (s : string) : no_quote (lower s) = true -> no_quote s = true.
Proof.
  unfold no_quote, lower. induction s as [|c s IH]; [reflexivity|].
  cbn [map_chars all_chars]. intros H. apply andb_prop in H as [Hc Hs].
  rewrite (IH Hs), andb_true_r. revert Hc. clear. by_char c.
Qed.

Lemma no_quote_unsign (s : string) : no_quote (skip_sign s) = true -> no_quote s = true.
Proof.
  destruct s as [|c s]; [reflexivity|]. unfold skip_sign.
  destruct (is_sign c) eqn:E; [|tauto].
  unfold no_quote. cbn [all_chars]. intros ->. rewrite andb_true_r.
  revert E. clear. by_char c.
Qed.

Lemma digit_no_quote (c : ascii) : is_ascii_digit c = true -> negb (is_squote c) = true.
Proof. by_char c. Qed.

Lemma underscore_no_quote (c : ascii) : is_underscore c = true -> negb (is_squote c) = true.
Proof. by_char c. Qed.

Lemma dot_no_quote (c : ascii) : is_dot c = true -> negb (is_squote c) = true.
Proof. by_char c. Qed.

Lemma exp_mark_no_quote (c : ascii) : is_exp_mark c = true -> negb (is_squote c) = true.
Proof. by_char c. Qed.

Lemma no_quote_cons (c : ascii) (s : string) :
  negb (is_squote c) = true -> no_quote s = true -> no_quote (String c s) = true.
Proof. unfold no_quote. cbn [all_chars]. intros -> ->. reflexivity. Qed.

Lemma digits_tail_no_quote (n : nat) (s : string) :
  String.length s <= n -> no_quote (digits_tail s) = true -> no_quote s = true.
Proof.
  revert s. induction n as [|n IH]; intros s Hn.
  - destruct s; [reflexivity|cbn in Hn; lia].
  - destruct s as [|c s]; [reflexivity|]. cbn [String.length] in Hn.
    cbn [digits_tail]. destruct (is_ascii_digit c) eqn:Ed.
    + intros H. apply no_quote_cons; [apply digit_no_quote; exact Ed|].
      apply IH; [lia|exact H].
    + destruct (is_underscore c) eqn:Eu; [|tauto].
      destruct s as [|d s]; [tauto|].
      destruct (is_ascii_digit d) eqn:Ed'; [|tauto].
      intros H. apply no_quote_cons; [apply underscore_no_quote; exact Eu|].
      apply no_quote_cons; [apply digit_no_quote; exact Ed'|].
      apply IH; [cbn [String.length] in Hn; lia|exact H].
Qed.

Lemma digitpart_no_quote (s r : string) :
  digitpart s = Some r -> no_quote r = true -> no_quote s = true.
Proof.
  destruct s as [|c s]; [discriminate|]. unfold digitpart.
  destruct (is_ascii_digit c) eqn:Ed; [|discriminate].
  intros [= <-] H. apply no_quote_cons; [apply digit_no_quote; exact Ed|].
  apply (digits_tail_no_quote (String.length s)); [lia|exact H].
Qed.

Lemma float_number_no_quote (s r : string) :
  float_number s = Some r -> no_quote r = true -> no_quote s = true.
Proof.
  unfold float_number. destruct (digitpart s) as [r0|] eqn:E.
  - intros H Hr. apply (digitpart_no_quote s r0 E).
    destruct r0 as [|c r0]; [injection H as <-; exact Hr|].
    destruct (is_dot c) eqn:Edot; [|injection H as <-; exact Hr].
    apply no_quote_cons; [apply dot_no_quote; exact Edot|].
    destruct (digitpart r0) as [r1|] eqn:E1.
    + injection H as <-. apply (digitpart_no_quote r0 r1 E1 Hr).
    + injection H as <-. exact Hr.
  - destruct s as [|c s]; [discriminate|].
    destruct (is_dot c) eqn:Edot; [|discriminate].
    intros H Hr. apply no_quote_cons; [apply dot_no_quote; exact Edot|].
    apply (digitpart_no_quote s r H Hr).
Qed.

Lemma float_exponent_no_quote (r : string) : float_exponent r = true -> no_quote r = true.
Proof.
  destruct r as [|c r]; [reflexivity|]. unfold float_exponent.
  intros H. apply andb_prop in H as [Hc H].
  apply no_quote_cons; [apply exp_mark_no_quote; exact Hc|].
  apply no_quote_unsign.
  destruct (digitpart (skip_sign r)) as [rest|] eqn:E; [|discriminate].
  apply (digitpart_no_quote _ rest E). destruct rest; [reflexivity|discriminate].
Qed.

Lemma mem_str_no_quote (v : string) (l : list string) :
  forallb no_quote l = true -> mem_str v l = true -> no_quote v = true.
Proof.
  intros Hl Hv. apply mem_str_In in Hv.
  rewrite forallb_forall in Hl. apply Hl. exact Hv.
Qed.

(** A text that [float] accepts has no quote. *)
Lemma float_parses_no_quote (v : string) : float_parses v = true -> no_quote v = true.
Proof.
  unfold float_parses. intros H. apply no_quote_unstrip, no_quote_unsign.
  apply orb_prop in H as [H|H].
  - apply no_quote_unlower.
    apply (mem_str_no_quote _ ["inf"; "infinity"; "nan"]); [reflexivity|exact H].
  - destruct (float_number (skip_sign (strip isspace v))) as [rest|] eqn:E; [|discriminate].
    apply (float_number_no_quote _ rest E). apply float_exponent_no_quote. exact H.
Qed.

Lemma bool_word_no_quote (v : string) :
  mem_str (lower v) bool_values = true -> no_quote v = true.
Proof.
  intros H. apply no_quote_unlower.
  apply (mem_str_no_quote _ bool_values); [reflexivity|exact H].
Qed.

End QuoteFacts.

Section LoaderFacts.
Import DataProcessing RowLoader.
Variable dateutil_parses : string -> bool.
Variable formatted_date : string -> option string.
Variable json_dumps : list (string * sql_type) -> string.
Variable json_keys : string -> option (list string).

Local Abbreviation infer := (infer_column_type dateutil_parses).
Local Abbreviation value_of := (sql_value formatted_date).

(** X5.  A cell that strips to the empty string, NULL, null or None is
    written as NULL whatever the type of its column.  Any other cell of
    a TEXT column is written between quotes with every quote of the
    stripped cell doubled: in the body each quote is followed by a
    second one, the body reads back as the stripped cell, and two
    different cells never give the same body. *)
Theorem text_cells_are_quoted (cell : string) :
  let value := strip isspace cell in
  (In value null_literals -> forall col_type, value_of col_type cell = "NULL") /\
  (~ In value null_literals ->
     value_of TEXT cell = squote +:+ replace_quote value +:+ squote) /\
  quotes_paired (replace_quote value) = true /\
  sql_unescape (replace_quote value) = value /\
  (forall other, replace_quote other = replace_quote value -> other = value).
Proof.
  intros value. split; [|split; [|split; [|split]]].
  - intros H col_type. apply mem_str_In in H. unfold sql_value.
    fold value. rewrite H. reflexivity.
  - intros H. unfold sql_value. fold value.
    destruct (mem_str value null_literals) eqn:E; [|reflexivity].
    apply mem_str_In in E. contradiction.
  - apply replace_quote_paired.
  - apply sql_unescape_replace.
  - intros other E. rewrite <- (sql_unescape_replace other), E.
    apply sql_unescape_replace.
Qed.

(** *** The dictionary of column types *)

Lemma dict_get_set {V} (k k' : string) (v : V) (d : list (string * V)) :
  dict_get k' (dict_set k v d) = if String.eqb k k' then Some v else dict_get k' d.
Proof.
  unfold dict_get. induction d as [|kv d IH].
  - cbn [dict_set List.find fst snd]. destruct (String.eqb k k'); reflexivity.
  - cbn [dict_set]. destruct (String.eqb (fst kv) k) eqn:E.
    + apply String.eqb_eq in E. cbn [List.find fst snd]. rewrite E.
      destruct (String.eqb k k'); reflexivity.
    + cbn [List.find]. destruct (String.eqb (fst kv) k') eqn:E'.
      * apply String.eqb_eq in E'. subst k'.
        rewrite String.eqb_sym, E. reflexivity.
      * exact IH.
Qed.


Lemma infer_columns_from (fieldnames : list string) (rows : list csv_row)
    (init : list (string * sql_type)) (col : string) :
  dict_get col
    (fold_left
       (fun columns_info col_name =>
          dict_set col_name (infer (sample_values rows col_name) col_name) columns_info)
       fieldnames init)
  = if mem_str col fieldnames then Some (infer (sample_values rows col) col)
    else dict_get col init.
Proof.
  revert init. induction fieldnames as [|f l IH]; intros init; [reflexivity|].
  cbn [fold_left]. rewrite IH, dict_get_set. unfold mem_str. cbn [existsb].
  fold (mem_str col l). destruct (mem_str col l); [rewrite orb_true_r; reflexivity|].
  rewrite orb_false_r, String.eqb_sym. destruct (String.eqb col f) eqn:E; [|reflexivity].
  apply String.eqb_eq in E. subst f. reflexivity.
Qed.

Lemma infer_columns_get (fieldnames : list string) (rows : list csv_row) (col : string) :
  In col fieldnames ->
  dict_get col (infer_columns dateutil_parses fieldnames rows)
  = Some (infer (sample_values rows col) col).
Proof.
  intros H. unfold infer_columns. rewrite infer_columns_from.
  apply mem_str_In in H. rewrite H. reflexivity.
Qed.

Lemma infer_float (sample : list string) (col_name : string) :
  infer sample col_name = FLOAT -> forallb float_parses (clean_values sample) = true.
Proof.
  unfold infer_column_type.
  destruct (contains "date" (lower col_name) || contains "time" (lower col_name));
    [discriminate|].
  destruct (is_nil sample); [discriminate|].
  destruct (is_nil (clean_values sample)); [discriminate|].
  destruct (forallb (fun v => mem_str (lower v) bool_values) (clean_values sample));
    [discriminate|].
  destruct (forallb float_parses (clean_values sample)); [reflexivity|].
  destruct (forallb dateutil_parses (firstn 5 (clean_values sample))); discriminate.
Qed.

Lemma infer_boolean (sample : list string) (col_name : string) :
  infer sample col_name = BOOLEAN ->
  forallb (fun v => mem_str (lower v) bool_values) (clean_values sample) = true.
Proof.
  unfold infer_column_type.
  destruct (contains "date" (lower col_name) || contains "time" (lower col_name));
    [discriminate|].
  destruct (is_nil sample); [discriminate|].
  destruct (is_nil (clean_values sample)); [discriminate|].
  destruct (forallb (fun v => mem_str (lower v) bool_values) (clean_values sample));
    [reflexivity|].
  destruct (forallb float_parses (clean_values sample)); [discriminate|].
  destruct (forallb dateutil_parses (firstn 5 (clean_values sample))); discriminate.
Qed.

Lemma infer_range (sample : list string) (col_name : string) :
  infer sample col_name <> INTEGER /\ infer sample col_name <> DATE.
Proof.
  unfold infer_column_type.
  destruct (contains "date" (lower col_name) || contains "time" (lower col_name));
    [split; discriminate|].
  destruct (is_nil sample); [split; discriminate|].
  destruct (is_nil (clean_values sample)); [split; discriminate|].
  destruct (forallb (fun v => mem_str (lower v) bool_values) (clean_values sample));
    [split; discriminate|].
  destruct (forallb float_parses (clean_values sample)); [split; discriminate|].
  destruct (forallb dateutil_parses (firstn 5 (clean_values sample))); split; discriminate.
Qed.

Lemma sampled_cell (rows : list csv_row) (row : csv_row) (col cell : string) :
  In row (firstn 20 rows) -> row_get row col = Some cell ->
  ~ In (strip isspace cell) null_literals ->
  In (strip isspace cell) (clean_values (sample_values rows col)).
Proof.
  intros Hrow Hcell Hnull. apply In_clean_values. exists cell.
  split; [|split; [reflexivity|exact Hnull]].
  unfold sample_values. apply in_map_iff. exists row. rewrite Hcell. auto.
Qed.

(** X6.  Cells of FLOAT and BOOLEAN columns are written without quotes.
    For every row among the first twenty, which are the rows the type
    was inferred from, what is written is NULL or the stripped cell
    itself, and that text is one that [float] accepts (FLOAT) or one of
    the eight boolean words up to case (BOOLEAN); INTEGER and DATE are
    never inferred, so their branches of the loader are not taken. *)
Theorem sampled_cells_are_literals (fieldnames : list string) (rows : list csv_row)
    (col : string) (row : csv_row) (cell : string) :
  In col fieldnames -> In row (firstn 20 rows) -> row_get row col = Some cell ->
  let col_type := default TEXT (dict_get col (infer_columns dateutil_parses fieldnames rows)) in
  let value := strip isspace cell in
  (col_type = FLOAT ->
     value_of col_type cell = "NULL" \/
     (value_of col_type cell = value /\ float_parses value = true)) /\
  (col_type = BOOLEAN ->
     value_of col_type cell = "NULL" \/
     (value_of col_type cell = value /\ In (lower value) bool_values)) /\
  col_type <> INTEGER /\ col_type <> DATE.
Proof.
  intros Hcol Hrow Hcell col_type value. subst col_type.
  rewrite (infer_columns_get fieldnames rows col Hcol). cbn [default].
  split; [|split; [|apply infer_range]].
  - intros E. rewrite E. unfold sql_value. fold value.
    destruct (mem_str value null_literals) eqn:En; [left; reflexivity|right].
    assert (Hf : float_parses value = true).
    { apply infer_float in E. rewrite forallb_forall in E. apply E.
      apply (sampled_cell rows row col cell Hrow Hcell).
      intros Hn. apply mem_str_In in Hn. fold value in Hn. congruence. }
    split; [|exact Hf]. apply replace_quote_plain, float_parses_no_quote, Hf.
  - intros E. rewrite E. unfold sql_value. fold value.
    destruct (mem_str value null_literals) eqn:En; [left; reflexivity|right].
    assert (Hb : mem_str (lower value) bool_values = true).
    { apply infer_boolean in E. rewrite forallb_forall in E.
      apply (E value).
      apply (sampled_cell rows row col cell Hrow Hcell).
      intros Hn. apply mem_str_In in Hn. fold value in Hn. congruence. }
    split; [|apply mem_str_In; exact Hb].
    apply replace_quote_plain, bool_word_no_quote, Hb.
Qed.

(** *** The column list of the INSERT *)



End LoaderFacts.

(** ** Uploads *)

Section UploadFacts.
Import DataProcessing RowLoader UploadApi.
Variable dateutil_parses : string -> bool.
Variable formatted_date : string -> option string.
Variable json_dumps : list (string * sql_type) -> string.
Variable json_keys : string -> option (list string).

Local Abbreviation process :=
  (process_csv_upload dateutil_parses formatted_date json_dumps json_keys).
Local Abbreviation route :=
  (upload_csv dateutil_parses formatted_date json_dumps json_keys).
Local Abbreviation columns_of := (infer_columns dateutil_parses).
Local Abbreviation load := (load_rows formatted_date).

Lemma load_rows_ok (fault : option nat) (t utc : string)
    (info : list (string * sql_type)) (fns : list string) (rows : list csv_row)
    (n n' : nat) (db0 db' : session) :
  load fault t utc info fns rows n db0 = (Some n', db') ->
  n' = n + length rows /\
  exists stmts,
    Forall2 (insert_of formatted_date t utc info fns) rows stmts /\
    db' = flushed db0 (map Sql stmts).
Proof.
  revert fault n db0. induction rows as [|row rest IH]; intros fault n db0 H.
  - cbn [load_rows] in H. destruct fault as [[|k]|]; try discriminate.
    + injection H as <- <-. split; [cbn; lia|]. exists []. split; [constructor|].
      unfold commit, flushed. cbn [map]. rewrite app_nil_r. reflexivity.
    + injection H as <- <-. split; [cbn; lia|]. exists []. split; [constructor|].
      unfold commit, flushed. cbn [map]. rewrite app_nil_r. reflexivity.
  - cbn [load_rows] in H.
    destruct (row_values formatted_date utc info fns row) as [values|] eqn:Ev;
      [|discriminate].
    assert (Hstep : forall fault',
              load fault' t utc info fns rest (S n)
                (exec (Sql (insert_sql t (safe_columns fns) values)) db0) = (Some n', db') ->
              n' = n + length (row :: rest) /\
              exists stmts,
                Forall2 (insert_of formatted_date t utc info fns) (row :: rest) stmts /\
                db' = flushed db0 (map Sql stmts)).
    { intros fault' H'. destruct (IH _ _ _ H') as [-> [stmts [Hs ->]]].
      split; [cbn; lia|].
      exists (insert_sql t (safe_columns fns) values :: stmts). split.
      - constructor; [|exact Hs]. exists values. split; [exact Ev|reflexivity].
      - unfold flushed, exec. cbn [committed pending map].
        rewrite <- !app_assoc. reflexivity. }
    destruct fault as [[|k]|]; [discriminate| |]; apply (Hstep _ H).
Qed.

Lemma load_rows_failed (fault : option nat) (t utc : string)
    (info : list (string * sql_type)) (fns : list string) (rows : list csv_row)
    (n : nat) (db0 db' : session) :
  load fault t utc info fns rows n db0 = (None, db') -> committed db' = committed db0.
Proof.
  revert fault n db0. induction rows as [|row rest IH]; intros fault n db0 H.
  - cbn [load_rows] in H. destruct fault as [[|k]|]; try discriminate.
    injection H as <-. reflexivity.
  - cbn [load_rows] in H.
    destruct (row_values formatted_date utc info fns row) as [values|];
      [|injection H as <-; reflexivity].
    destruct fault as [[|k]|]; [injection H as <-; reflexivity| |];
      apply IH in H; exact H.
Qed.

Lemma load_rows_no_fault (t utc : string)
    (info : list (string * sql_type)) (fns : list string) (rows : list csv_row)
    (n : nat) (db0 : session) :
  Forall (fun row => is_Some (row_values formatted_date utc info fns row)) rows ->
  fst (load None t utc info fns rows n db0) = Some (n + length rows).
Proof.
  intros H. revert n db0. induction H as [|row rest [values Hv] _ IH]; intros n db0.
  - cbn. f_equal. lia.
  - cbn [load_rows]. rewrite Hv. cbn [fmap option_fmap option_map].
    rewrite IH. cbn [length]. f_equal. lia.
Qed.

Lemma load_rows_faulty (k : nat) (t utc : string)
    (info : list (string * sql_type)) (fns : list string) (rows : list csv_row)
    (n : nat) (db0 : session) :
  k <= length rows -> fst (load (Some k) t utc info fns rows n db0) = None.
Proof.
  revert k n db0. induction rows as [|row rest IH]; intros k n db0 Hk.
  - cbn in Hk. assert (k = 0) by lia. subst. reflexivity.
  - cbn [load_rows].
    destruct (row_values formatted_date utc info fns row) as [values|]; [|reflexivity].
    destruct k as [|k]; [reflexivity|].
    cbn [fmap option_fmap option_map Nat.pred]. apply IH. cbn in Hk. lia.
Qed.

Lemma row_values_total (utc : string) (info : list (string * sql_type))
    (fns : list string) (row : csv_row) :
  (forall col, In col fns -> row_get row col <> None) ->
  is_Some (row_values formatted_date utc info fns row).
Proof.
  intros H. unfold row_values.
  assert (Hm : is_Some (mapM (fun col_name =>
                                cell ← row_get row col_name;
                                Some (sql_value formatted_date
                                        (default TEXT (dict_get col_name info)) cell)) fns)).
  { apply mapM_is_Some. apply List.Forall_forall. intros col Hcol.
    specialize (H col Hcol). unfold compose.
    destruct (row_get row col); [eexists; reflexivity|contradiction]. }
  destruct Hm as [vs ->]. eexists. reflexivity.
Qed.

(** What the refresh adds to a session with no open transaction. *)
Lemma view_refresh_adds (fault : option nat) (ml : list CSVFileMetadata) (db0 : session) :
  pending db0 = [] ->
  exists view,
    committed (create_unified_view json_keys fault ml db0) = committed db0 ++ view /\
    pending (create_unified_view json_keys fault ml db0) = [] /\
    (view = [] \/
     exists queries, view = [Sql "DROP VIEW IF EXISTS csv_data_unified_view";
                             Sql (view_sql queries)]).
Proof.
  intros Hp.
  destruct (view_refresh_cases json_keys fault ml db0) as [E|[E|[q [_ E]]]]; rewrite E.
  - exists []. rewrite app_nil_r. auto.
  - exists []. rewrite app_nil_r. auto.
  - eexists. cbn [flushed committed pending]. rewrite Hp. cbn [app].
    split; [reflexivity|]. split; [reflexivity|]. right. exists q. reflexivity.
Qed.

(** Every way a call of [process_csv_upload] ends. *)
Lemma process_cases (parsed : option (list string * list csv_row))
    (file : string) (now : datetime) (utc up : string)
    (cf lf vf : option nat) (st : store) :
  let r := process parsed file now utc up cf lf vf st in
  ((fst r = Raised \/ exists detail, fst r = BadRequest detail) /\ snd r = st) \/
  (fst r = ServerError "Failed to create table for CSV data" /\
   snd r = {| db := rollback (db st); files := files st |}) \/
  (exists fns rows db2,
     parsed = Some (fns, rows) /\ fst r = Raised /\
     snd r = {| db := db2; files := files st |} /\
     committed db2
     = committed (db st) ++ pending (db st)
       ++ [Sql (create_table_sql (sanitize_table_name file now) (columns_of fns rows))]) \/
  (exists fns rows m inserts view,
     parsed = Some (fns, rows) /\ fst r = Uploaded m (length rows) /\
     m = {| filename := file;
            table_name := sanitize_table_name file now;
            upload_timestamp := up;
            record_count := length rows;
            columns_info := json_dumps (columns_of fns rows) |} /\
     files (snd r) = files st ++ [m] /\
     Forall2 (insert_of formatted_date (sanitize_table_name file now) utc
                (columns_of fns rows) fns) rows inserts /\
     committed (db (snd r))
     = committed (db st) ++ pending (db st)
       ++ Sql (create_table_sql (sanitize_table_name file now) (columns_of fns rows))
          :: map Sql inserts ++ view /\
     pending (db (snd r)) = [] /\
     (view = [] \/
      exists queries, view = [Sql "DROP VIEW IF EXISTS csv_data_unified_view";
                              Sql (view_sql queries)])).
Proof.
  intros r. subst r. unfold process_csv_upload.
  destruct parsed as [[fns rows]|]; [|left; split; [left|]; reflexivity].
  destruct (is_nil fns); [left; split; [right; eexists|]; reflexivity|].
  destruct (is_nil rows); [left; split; [right; eexists|]; reflexivity|].
  set (info := columns_of fns rows). set (t := sanitize_table_name file now).
  destruct (create_dynamic_table_cases cf t info (db st)) as [[Hok Hdb]|[Hok Hdb]];
    destruct (create_dynamic_table cf t info (db st)) as [ok db1];
    cbn [fst snd] in Hok, Hdb; subst ok db1.
  2: { right. left. split; reflexivity. }
  destruct (load lf t utc info fns rows 0 (flushed (db st) [Sql (create_table_sql t info)]))
    as [[n|] db2] eqn:El.
  - right. right. right.
    destruct (load_rows_ok _ _ _ _ _ _ _ _ _ _ El) as [-> [inserts [Hins ->]]].
    cbn [Nat.add].
    set (m := {| filename := file; table_name := t; upload_timestamp := up;
                 record_count := length rows; columns_info := json_dumps info |}).
    set (db2 := flushed (flushed (db st) [Sql (create_table_sql t info)]) (map Sql inserts)).
    destruct (view_refresh_adds vf (files st ++ [m]) db2 eq_refl) as [view [Hc [Hp Hv]]].
    exists fns, rows, m, inserts, view.
    split; [reflexivity|]. split; [reflexivity|]. split; [reflexivity|].
    split; [reflexivity|]. split; [exact Hins|]. cbn [fst snd db].
    split; [|split; [exact Hp|exact Hv]].
    rewrite Hc. unfold db2, flushed. cbn [committed pending app].
    rewrite <- !app_assoc. reflexivity.
  - right. right. left. exists fns, rows, db2.
    split; [reflexivity|]. split; [reflexivity|]. split; [reflexivity|].
    apply load_rows_failed in El. rewrite El. cbn [flushed committed].
    reflexivity.
Qed.

(** X8.  An upload with a header, at least one row and no missing field
    succeeds when the database raises nowhere, whatever happens to the
    view refresh: it reports as many records as the file has rows,
    registers one metadata row whose [record_count] is that number, and
    commits the CREATE TABLE followed by exactly one INSERT per row, in
    row order, followed by nothing or by the two statements of the
    view. *)
Theorem upload_counts_rows (fieldnames : list string) (rows : list csv_row)
    (file : string) (now : datetime) (utc up : string) (vf : option nat) (st : store) :
  fieldnames <> [] -> rows <> [] ->
  (forall row col, In row rows -> In col fieldnames -> row_get row col <> None) ->
  let r := process (Some (fieldnames, rows)) file now utc up None None vf st in
  let table := sanitize_table_name file now in
  let info := columns_of fieldnames rows in
  exists m inserts view,
    fst r = Uploaded m (length rows) /\
    m = {| filename := file; table_name := table; upload_timestamp := up;
           record_count := length rows; columns_info := json_dumps info |} /\
    files (snd r) = files st ++ [m] /\
    Forall2 (insert_of formatted_date table utc info fieldnames) rows inserts /\
    length inserts = length rows /\
    committed (db (snd r))
    = committed (db st) ++ pending (db st)
      ++ Sql (create_table_sql table info) :: map Sql inserts ++ view /\
    pending (db (snd r)) = [] /\
    (view = [] \/
     exists queries, view = [Sql "DROP VIEW IF EXISTS csv_data_unified_view";
                             Sql (view_sql queries)]).
Proof.
  intros Hf Hr Hcells r table info.
  assert (Hup : exists m n, fst r = Uploaded m n).
  { subst r. unfold process_csv_upload.
    destruct fieldnames as [|f fns]; [contradiction|].
    destruct rows as [|row rest]; [contradiction|]. cbn [is_nil].
    unfold create_dynamic_table. rewrite run_writes_no_fault.
    match goal with
    | |- context [load None ?t ?u ?i ?fs ?rs ?n ?d] =>
        pose proof (load_rows_no_fault t u i fs rs n d) as Hl;
        destruct (load None t u i fs rs n d) as [[n'|] db2]
    end.
    - eexists _, _. reflexivity.
    - cbn [fst] in Hl. exfalso.
      assert (Hall : Forall (fun row0 => is_Some (row_values formatted_date utc
                        (columns_of (f :: fns) (row :: rest)) (f :: fns) row0))
                       (row :: rest)).
      { apply List.Forall_forall. intros row0 Hrow0. apply row_values_total.
        intros col Hcol. apply Hcells; assumption. }
      specialize (Hl Hall). discriminate. }
  destruct Hup as [m0 [n0 Hup]].
  destruct (process_cases (Some (fieldnames, rows)) file now utc up None None vf st)
    as [[[H|[d H]] _]|[[H _]|[[fns [rs [db2 [_ [H _]]]]]|H]]];
    fold r in H; try (rewrite Hup in H; discriminate).
  destruct H as [fns [rs [m [inserts [view [Hp [Hres [Hm [Hfiles [Hins [Hc [Hpend Hv]]]]]]]]]]]].
  injection Hp as <- <-.
  exists m, inserts, view. fold r in Hfiles, Hc, Hpend.
  split; [exact Hres|]. split; [exact Hm|]. split; [exact Hfiles|].
  split; [exact Hins|]. split; [symmetry; apply (Forall2_length_eq _ _ _ Hins)|].
  split; [exact Hc|]. split; [exact Hpend|exact Hv].
Qed.

(** X9.  The route answers 200, 400 or 500.  A name that does not end
    in [.csv] is refused before the file is read.  Any answer other than
    200 schedules no detection, registers no file and leaves no row
    committed: the committed statements are those of before, or those
    of before and the CREATE TABLE of the upload, which happens when an
    INSERT or the final commit raises after the table was created.  An
    answer 200 reports the number of rows of the file and schedules the
    detection for the new table. *)
Theorem failed_upload_registers_nothing (parsed : option (list string * list csv_row))
    (file : string) (now : datetime) (utc up : string)
    (cf lf vf : option nat) (st : store) :
  let r := route parsed file now utc up cf lf vf st in
  let resp := fst (fst r) in
  let task := snd (fst r) in
  let st' := snd r in
  (status_code_of resp = 200 \/ status_code_of resp = 400 \/ status_code_of resp = 500) /\
  (is_empty file || negb (ends_with ".csv" file) = true ->
     resp = HTTPException 400 "File must be a CSV" /\ task = None /\ st' = close st) /\
  (status_code_of resp <> 200 ->
     task = None /\ files st' = files st /\ pending (db st') = [] /\
     (committed (db st') = committed (db st) \/
      exists fieldnames rows,
        parsed = Some (fieldnames, rows) /\ status_code_of resp = 500 /\
        committed (db st')
        = committed (db st) ++ pending (db st)
          ++ [Sql (create_table_sql (sanitize_table_name file now)
                     (columns_of fieldnames rows))])) /\
  (status_code_of resp = 200 ->
     exists fieldnames rows m,
       parsed = Some (fieldnames, rows) /\
       resp = CSVUploadResponse (length rows) file (table_name m) (upload_timestamp m) /\
       task = Some (table_name m) /\ record_count m = length rows /\
       files st' = files st ++ [m]) /\
  (forall fieldnames rows k,
     is_empty file || negb (ends_with ".csv" file) = false ->
     parsed = Some (fieldnames, rows) -> fieldnames <> [] -> rows <> [] ->
     cf = None -> lf = Some k -> k <= length rows ->
     status_code_of resp = 500 /\ files st' = files st /\
     committed (db st')
     = committed (db st) ++ pending (db st)
       ++ [Sql (create_table_sql (sanitize_table_name file now)
                  (columns_of fieldnames rows))]).
Proof.
  intros r resp task st'. subst resp task st' r. unfold upload_csv.
  destruct (is_empty file || negb (ends_with ".csv" file)) eqn:Hname.
  { cbn [fst snd status_code_of]. split; [auto|]. split; [auto|].
    split; [intros _; cbn; auto|]. split; [discriminate|].
    intros; discriminate. }
  pose proof (process_cases parsed file now utc up cf lf vf st) as Hcases.
  cbv zeta in Hcases.
  split; [|split; [discriminate|split; [|split]]].
  - destruct (process parsed file now utc up cf lf vf st) as [[d|d| |m n] st1];
      cbn; auto.
  - destruct Hcases as [[H Hst]|[[H Hst]|[H|H]]].
    + destruct (process parsed file now utc up cf lf vf st) as [res st1].
      cbn [fst snd] in H, Hst. subst st1.
      destruct H as [->|[d ->]]; cbn [fst snd status_code_of close db files rollback
                                        committed pending]; intros _; auto.
    + destruct (process parsed file now utc up cf lf vf st) as [res st1].
      cbn [fst snd] in H, Hst. subst st1 res.
      cbn [fst snd status_code_of close db files rollback committed pending].
      intros _; auto.
    + destruct H as [fns [rows [db2 [Hp [H [Hst Hc]]]]]].
      destruct (process parsed file now utc up cf lf vf st) as [res st1].
      cbn [fst snd] in H, Hst. subst st1 res.
      cbn [fst snd status_code_of close db files rollback committed pending].
      intros _. split; [reflexivity|]. split; [reflexivity|]. split; [reflexivity|].
      right. exists fns, rows. auto.
    + destruct H as [fns [rows [m [inserts [view [_ [H _]]]]]]].
      destruct (process parsed file now utc up cf lf vf st) as [res st1].
      cbn [fst] in H. subst res. cbn. intros Hc. contradiction.
  - destruct Hcases as [[H Hst]|[[H Hst]|[H|H]]].
    + destruct (process parsed file now utc up cf lf vf st) as [res st1].
      cbn [fst snd] in H. destruct H as [->|[d ->]]; cbn; discriminate.
    + destruct (process parsed file now utc up cf lf vf st) as [res st1].
      cbn [fst snd] in H. subst res. cbn. discriminate.
    + destruct H as [fns [rows [db2 [Hp [H _]]]]].
      destruct (process parsed file now utc up cf lf vf st) as [res st1].
      cbn [fst snd] in H. subst res. cbn. discriminate.
    + destruct H as [fns [rows [m [inserts [view [Hp [H [Hm [Hfiles _]]]]]]]]].
      destruct (process parsed file now utc up cf lf vf st) as [res st1].
      cbn [fst snd] in H, Hfiles. subst res. cbn [fst snd status_code_of close files].
      intros _. exists fns, rows, m. split; [exact Hp|]. split; [reflexivity|].
      split; [reflexivity|]. split; [rewrite Hm; reflexivity|exact Hfiles].
  - intros fns rows k _ -> Hf Hr -> -> Hk.
    unfold process_csv_upload.
    destruct fns as [|f fns]; [contradiction|].
    destruct rows as [|row rest]; [contradiction|]. cbn [is_nil].
    unfold create_dynamic_table. rewrite run_writes_no_fault.
    match goal with
    | |- context [load (Some k) ?t ?u ?i ?fs ?rs ?n ?d] =>
        pose proof (load_rows_faulty k t u i fs rs n d Hk) as Hl;
        destruct (load (Some k) t u i fs rs n d) as [[n'|] db2] eqn:El
    end; [discriminate|].
    apply load_rows_failed in El.
    cbn [fst snd status_code_of close db files rollback committed].
    rewrite El. cbn [flushed committed]. auto.
Qed.

End UploadFacts.

(** ** Severity and scoring, continued *)

Section SeverityEdges.
Import FeatureEngineering Anomaly Labels.

Lemma gt_kpi_not_number (v : value) (t : Q) : to_float v = None -> gt v t = None.
Proof. destruct v; [reflexivity|reflexivity|discriminate|discriminate]. Qed.

Lemma get0_delete_ne (row : gmap string value) (k k' : string) :
  k <> k' -> get0 (delete k row) k' = get0 row k'.
Proof. intros H. unfold get0. rewrite lookup_delete_ne by exact H. reflexivity. Qed.

Lemma get0_delete_eq (row : gmap string value) (k : string) :
  get0 (delete k row) k = VInt 0.
Proof. unfold get0. rewrite lookup_delete_eq. reflexivity. Qed.

Lemma get0_present (row : gmap string value) (k : string) (v : value) :
  row !! k = Some v -> get0 row k = v.
Proof. intros H. unfold get0. rewrite H. reflexivity. Qed.

Ltac kpi_cases H :=
  destruct H as [<-|[<-|[<-|[<-|[]]]]].

(** X10.  The cells of a KPI column that are not finite numbers: a NaN
    or minus infinity never triggers a hard rule, and the row is
    classified as if the cell were absent; plus infinity makes the row
    RED whenever a severity is returned; a cell that is no number at
    all ([None] or a text) makes [determine_severity] raise. *)
Theorem severity_edge_cells (row : gmap string value) (k : string) :
  In k kpi_columns ->
  (forall v, row !! k = Some v -> to_float v = None -> determine_severity row = None) /\
  (row !! k = Some (VFloat NaN) \/ row !! k = Some (VFloat NInf) ->
     determine_severity row = determine_severity (delete k row)) /\
  (row !! k = Some (VFloat PInf) -> is_Some (determine_severity row) ->
     determine_severity row = Some RED).
Proof.
  intros Hk. split; [|split].
  - intros v Hv Hf. unfold determine_severity.
    kpi_cases Hk; rewrite (get0_present _ _ _ Hv), (gt_kpi_not_number _ _ Hf);
      repeat (match goal with
              | |- context [gt ?a ?b] => destruct (gt a b)
              end; cbn [mbind option_bind]); reflexivity.
  - intros Hv. unfold determine_severity.
    assert (Hflag : delete k row !! "anomaly_flag" = row !! "anomaly_flag").
    { apply lookup_delete_ne. kpi_cases Hk; discriminate. }
    rewrite Hflag.
    assert (Hcell : forall t, gt (get0 row k) t = Some false).
    { intros t. destruct Hv as [Hv|Hv]; rewrite (get0_present _ _ _ Hv); reflexivity. }
    kpi_cases Hk;
      rewrite ?get0_delete_eq, ?Hcell;
      rewrite ?get0_delete_ne by discriminate; reflexivity.
  - intros Hv [sev Hsev]. rewrite Hsev. revert Hsev. unfold determine_severity.
    kpi_cases Hk; rewrite (get0_present _ _ _ Hv);
      change (gt (VFloat PInf) _) with (Some true);
      repeat (match goal with
              | |- context [gt ?a ?b] => destruct (gt a b) as [[|]|]
              end; cbn [mbind option_bind orb]); congruence.
Qed.

End SeverityEdges.

(** X10, on a row whose energy reading is plus infinity. *)
Lemma severity_edge_cells_witness :
  Anomaly.determine_severity
    (<["Energy_kWh" := VFloat PInf]> (<["anomaly_flag" := VInt 1]> ∅)) = Some RED.
Proof.
  apply (severity_edge_cells _ "Energy_kWh").
  - left. reflexivity.
  - reflexivity.
  - vm_compute. eexists. reflexivity.
Defined.

Section ScoringFacts.
Import FeatureEngineering Anomaly Labels.
Variable model : option estimator.
Variable scaler : option (list (list fval) -> list (list fval)).
Variable pd : pandas.
Variable legacy_raises : frame -> bool.
Variable utcnow : Z.
Variable cell_to_datetime : value -> option Z.

Local Abbreviation detect :=
  (detect_and_update model scaler pd legacy_raises utcnow cell_to_datetime).

(** *** Infinite cells *)

Lemma replace_inf_cell_no_infinity (v : value) : no_infinity (replace_inf_cell v) = true.
Proof. destruct v as [| | |[| | |]]; reflexivity. Qed.

Lemma replace_inf_cells (df : frame) (k : string) (col : series) (v : value) :
  In (k, col) (cols (replace_inf df)) -> In v col -> no_infinity v = true.
Proof.
  unfold replace_inf. cbn [cols]. intros H Hv.
  apply in_map_iff in H as [kv [[= _ <-] _]].
  apply in_map_iff in Hv as [v0 [<- _]]. apply replace_inf_cell_no_infinity.
Qed.

Lemma calculate_features_replaced (df df_calc : frame) :
  calculate_features pd legacy_raises df = Some df_calc ->
  exists df0, df_calc = replace_inf df0.
Proof.
  unfold calculate_features.
  destruct (engineer_features pd df) as [df'|] eqn:E.
  - intros [= <-]. apply engineer_features_returns in E as (_ & rolled & _ & ->).
    eexists. reflexivity.
  - destruct (legacy_raises df); [discriminate|]. intros [= <-]. eexists. reflexivity.
Qed.

Lemma row_at_cell (df : frame) (i : nat) (k : string) (v : value) :
  row_at df i !! k = Some v ->
  v = VFloat NaN \/ exists col, In (k, col) (cols df) /\ In v col.
Proof.
  unfold row_at. intros H. apply elem_of_list_to_map_2 in H.
  apply list_elem_of_In, in_map_iff in H as [kv [[= <- <-] Hkv]].
  destruct (nth_in_or_default i (snd kv) (VFloat NaN)) as [Hin|Hd].
  - right. exists (snd kv). split; [destruct kv; exact Hkv|exact Hin].
  - left. exact Hd.
Qed.

Lemma iterrows_cell (df : frame) (row : gmap string value) (k : string) (v : value) :
  In row (iterrows (replace_inf df)) -> row !! k = Some v -> no_infinity v = true.
Proof.
  unfold iterrows. intros H Hv. apply in_map_iff in H as [i [<- _]].
  apply row_at_cell in Hv as [->|[col [Hcol Hin]]]; [reflexivity|].
  apply (replace_inf_cells df k col v Hcol Hin).
Qed.

Lemma Forall2_In_l {A B} (P : A -> B -> Prop) (l : list A) (k : list B) (x : A) :
  Forall2 P l k -> In x l -> exists y, In y k /\ P x y.
Proof.
  induction 1 as [|x' y l k Hxy _ IH]; [intros []|].
  intros [<-|Hin]; [exists y; split; [left; reflexivity|exact Hxy]|].
  destruct (IH Hin) as [y' [? ?]]. exists y'. split; [right; assumption|assumption].
Qed.

Lemma feature_vector_In (row : gmap string value) (features : list fval) (k : string) :
  feature_vector row = Some features -> In k required_features ->
  exists v f, row !! k = Some v /\ to_float v = Some f /\ In f features.
Proof.
  unfold feature_vector. intros H Hk. apply mapM_Some in H.
  destruct (Forall2_In_l _ _ _ k H Hk) as [f [Hf Hg]].
  apply bind_Some in Hg as [v [Hv Hfl]]. exists v, f. auto.
Qed.

Lemma valid_not_nan (features : list fval) (f : fval) :
  valid features = true -> In f features -> f <> NaN.
Proof.
  unfold valid. intros H Hf ->. apply negb_true_iff in H.
  assert (existsb is_nan features = true); [|congruence].
  apply existsb_exists. exists NaN. split; [exact Hf|reflexivity].
Qed.

(** A row that passes the mask has a finite number in every required
    feature, when the frame went through [replace_inf]. *)
Lemma survivor_finite (df0 : frame) (row : gmap string value) (k : string) :
  survives (replace_inf df0) row -> In k required_features ->
  exists q, row !! k ≫= to_float = Some (Fin q).
Proof.
  intros [features [Hrow [Hf Hvalid]]] Hk.
  destruct (feature_vector_In row features k Hf Hk) as [v [f [Hv [Hfl Hin]]]].
  pose proof (iterrows_cell df0 row k v Hrow Hv) as Hinf.
  pose proof (valid_not_nan features f Hvalid Hin) as Hnan.
  rewrite Hv. cbn [mbind option_bind]. rewrite Hfl.
  destruct v as [| |z|[q| | |]]; cbn in Hfl; try discriminate;
    injection Hfl as <-; try discriminate; try contradiction; eexists; reflexivity.
Qed.

Lemma scored_from_feature (row : gmap string value) (rs : gmap string value * severity)
    (k : string) :
  scored_from row rs -> In k required_features -> fst rs !! k = row !! k.
Proof.
  intros (flag & score & _ & _ & ->) Hk.
  destruct Hk as [<-|[<-|[<-|[<-|[<-|[<-|[]]]]]]];
    rewrite !lookup_insert_ne by discriminate; reflexivity.
Qed.

Lemma determine_severity_insert (row : gmap string value) (k : string) (v : value) :
  ~ In k kpi_columns -> k <> "anomaly_flag" ->
  determine_severity (<[k := v]> row) = determine_severity row.
Proof.
  intros Hk Hflag. unfold determine_severity.
  rewrite (lookup_insert_ne row k "anomaly_flag" v Hflag).
  rewrite !get0_insert_ne; [reflexivity| | | |];
    intros ->; apply Hk; cbn [In kpi_columns]; auto.
Qed.

Lemma score_rows_length (rows : list (gmap string value)) (flags : list Z)
    (scores : list value) (scored : list (gmap string value * severity)) :
  score_rows rows flags scores = Some scored -> length scored = length rows.
Proof.
  revert flags scores scored.
  induction rows as [|row rows IH]; intros [|f flags] [|s scores] scored H;
    cbn [score_rows] in H; try discriminate.
  - injection H as <-. reflexivity.
  - apply bind_Some in H as [sev [_ H]]. apply bind_Some in H as [rest [Hrest H]].
    injection H as <-. cbn [length]. f_equal. apply (IH _ _ _ Hrest).
Qed.

Lemma rows_valid_length (rows : list (gmap string value)) (features : list (list fval)) :
  length rows = length features ->
  length (rows_valid rows features) = length (List.filter valid features) /\
  length (rows_valid rows features) <= length rows.
Proof.
  unfold rows_valid. rewrite length_map. revert features.
  induction rows as [|r rows IH]; intros [|f features] H; try discriminate;
    [split; reflexivity|].
  injection H as H. destruct (IH features H) as [IH1 IH2].
  cbn [zip zip_with List.filter snd]. destruct (valid f); cbn [length]; split.
  - rewrite IH1. reflexivity.
  - apply le_n_S. exact IH2.
  - exact IH1.
  - apply Nat.le_le_succ_r. exact IH2.
Qed.

Lemma score_rows_cells (rows : list (gmap string value)) (flags : list Z)
    (scores : list value) (scored : list (gmap string value * severity)) :
  score_rows rows flags scores = Some scored ->
  map (fun rs => fst rs !! "anomaly_flag") scored = map (fun flag => Some (VInt flag)) flags /\
  map (fun rs => fst rs !! "anomaly_score") scored = map Some scores.
Proof.
  revert flags scores scored.
  induction rows as [|row rows IH]; intros [|flag flags] [|score scores] scored H;
    cbn [score_rows] in H; try discriminate H.
  - injection H as <-. split; reflexivity.
  - destruct (determine_severity _) as [sev|]; [|discriminate H].
    cbn [mbind option_bind] in H.
    destruct (score_rows rows flags scores) as [rest|] eqn:Hrest; [|discriminate H].
    cbn [mbind option_bind] in H. injection H as <-.
    destruct (IH flags scores rest Hrest) as [Hf Hs].
    cbn [map fst]. rewrite Hf, Hs. split; f_equal.
    + rewrite !lookup_insert_ne by discriminate. apply lookup_insert_eq.
    + rewrite lookup_insert_ne by discriminate. apply lookup_insert_eq.
Qed.

(** X11.  The rows that are scored are the rows without a NaN in a
    required feature; their flags are, row by row, the predictions of
    the estimator on the feature vectors of these rows, scaled when a
    scaler is loaded, and their scores are those of its decision
    function on the same vectors, or the predictions again when it has
    none.  Every scored row has a finite number in each of the six
    required features: infinities became NaN in [calculate_features] and
    the mask dropped the rows with a NaN.  Its [severity] cell is the
    name of the severity it is filed under, and that severity is the one
    [determine_severity] computes on the row. *)
Theorem scored_rows_are_finite (m : estimator) (df df_calc : frame)
    (scored : list (gmap string value * severity)) :
  calculate_features pd legacy_raises df = Some df_calc ->
  score_frame scaler m df_calc = Scored scored ->
  (exists features,
     mapM feature_vector (iterrows df_calc) = Some features /\
     let kept := List.filter (fun f => negb (existsb is_nan f)) features in
     let features_scaled :=
       match scaler with
       | Some transform => transform kept
       | None => kept
       end in
     length scored = length kept /\
     map (fun rs => fst rs !! "anomaly_flag") scored
     = map (fun flag => Some (VInt flag)) (predict m features_scaled) /\
     (forall scores, decision_function m features_scaled = Some scores ->
        length scores = length kept ->
        map (fun rs => fst rs !! "anomaly_score") scored
        = map (fun score => Some (VFloat score)) scores) /\
     (decision_function m features_scaled = None ->
        map (fun rs => fst rs !! "anomaly_score") scored
        = map (fun flag => Some (VInt flag)) (predict m features_scaled))) /\
  (forall rs, In rs scored ->
    (forall k, In k required_features ->
       exists q, fst rs !! k ≫= to_float = Some (Fin q)) /\
    (exists flag, fst rs !! "anomaly_flag" = Some (VInt flag)) /\
    fst rs !! "severity" = Some (VStr (severity_name (snd rs))) /\
    determine_severity (fst rs) = Some (snd rs)).
Proof.
  intros Hcalc Hscore. split.
  - clear Hcalc. unfold score_frame in Hscore. cbv zeta in Hscore.
    destruct (mapM feature_vector (iterrows df_calc)) as [features|] eqn:Hf;
      [|discriminate Hscore].
    exists features. split; [reflexivity|]. cbv zeta.
    change (List.filter (fun f => negb (existsb is_nan f)) features)
      with (List.filter valid features).
    set (kept := List.filter valid features) in Hscore |- *.
    set (features_scaled := match scaler with
                            | Some transform => transform kept
                            | None => kept
                            end) in Hscore |- *.
    destruct (negb (existsb id (map valid features))); [discriminate Hscore|].
    assert (Hkept : length (rows_valid (iterrows df_calc) features) = length kept).
    { apply rows_valid_length. apply (length_mapM _ _ _ Hf). }
    destruct (negb (length (predict m features_scaled)
                    =? length (rows_valid (iterrows df_calc) features))) eqn:Hlen;
      [discriminate Hscore|].
    destruct (score_rows _ _ _) as [sc|] eqn:Hsc; [|discriminate Hscore].
    injection Hscore as <-.
    destruct (score_rows_cells _ _ _ _ Hsc) as [Hflags Hscores].
    split; [|split; [exact Hflags|split]].
    + rewrite <- Hkept. apply (score_rows_length _ _ _ _ Hsc).
    + intros scores Hd Hl. rewrite Hscores, Hd, Hkept, Hl, Nat.eqb_refl, map_map.
      reflexivity.
    + intros Hd. rewrite Hscores, Hd, map_map. reflexivity.
  - intros rs Hrs.
    destruct (calculate_features_replaced df df_calc Hcalc) as [df0 ->].
    destruct (score_frame_scored scaler legacy_raises m _ scored Hscore rs Hrs)
      as [row [Hsurv Hfrom]].
    split; [|split; [|split]].
    + intros k Hk. rewrite (scored_from_feature row rs k Hfrom Hk).
      apply (survivor_finite df0 row k Hsurv Hk).
    + destruct Hfrom as (flag & score & _ & _ & ->). exists flag.
      rewrite !lookup_insert_ne by discriminate. apply lookup_insert_eq.
    + destruct Hfrom as (flag & score & _ & _ & ->). apply lookup_insert_eq.
    + destruct Hfrom as (flag & score & _ & Hsev & ->).
      rewrite determine_severity_insert; [exact Hsev| |discriminate].
      cbn [In kpi_columns]. intros [H|[H|[H|[H|[]]]]]; discriminate.
Qed.

(** *** The counts of a successful run *)

Lemma length_update_ids (sev : severity) (scored : list (gmap string value * severity)) :
  length (update_ids sev scored)
  = length (List.filter (fun rs => has_id rs && severity_eqb (snd rs) sev) scored).
Proof.
  unfold update_ids, has_id. induction scored as [|rs l IH]; [reflexivity|].
  cbn [omap list_omap List.filter].
  destruct (fst rs !! "id") as [record_id|]; [|exact IH].
  destruct (truthy record_id && severity_eqb (snd rs) sev); cbn [length]; rewrite IH;
    reflexivity.
Qed.

Lemma update_ids_partition (scored : list (gmap string value * severity)) :
  length (update_ids RED scored) + length (update_ids AMBER scored)
  + length (update_ids GREEN scored)
  = length (List.filter has_id scored).
Proof.
  rewrite !length_update_ids. induction scored as [|rs l IH]; [reflexivity|].
  cbn [List.filter]. destruct (has_id rs); cbn [andb]; [|exact IH].
  destruct (snd rs); cbn [severity_eqb length]; lia.
Qed.


Lemma valid_rows_exist (features : list (list fval)) :
  existsb id (map valid features) = true -> 1 <= length (List.filter valid features).
Proof.
  induction features as [|f l IH]; [discriminate|].
  cbn [map existsb List.filter]. unfold id at 1. destruct (valid f); cbn [orb length].
  - lia.
  - exact IH.
Qed.

Lemma score_frame_bounds (m : estimator) (df_calc : frame)
    (scored : list (gmap string value * severity)) :
  score_frame scaler m df_calc = Scored scored ->
  1 <= length scored <= nrows df_calc.
Proof.
  unfold score_frame.
  destruct (mapM feature_vector (iterrows df_calc)) as [features|] eqn:Hf;
    [|discriminate].
  apply length_mapM in Hf.
  destruct (existsb id (map valid features)) eqn:Hany; [|discriminate]. cbn [negb].
  match goal with
  | |- context [negb (length (predict m ?x) =? ?n)] =>
      destruct (negb (length (predict m x) =? n)); [discriminate|]
  end.
  destruct (score_rows _ _ _) as [sc|] eqn:Hsc; [|discriminate].
  intros [= <-]. apply score_rows_length in Hsc. rewrite Hsc.
  destruct (rows_valid_length _ _ Hf) as [H1 H2].
  apply valid_rows_exist in Hany.
  assert (Hn : length (iterrows df_calc) = nrows df_calc).
  { unfold iterrows. rewrite length_map. apply length_seq. }
  rewrite Hn in H2. lia.
Qed.

(** X12.  When the call gets to the write phases it answers error or
    success, and the counts of a success add up: [anomalies] is the sum
    of the RED and AMBER counts, each count is the number of scored rows
    of that severity that have a truthy [id], the three counts together
    are the number of scored rows with a truthy [id], and there is at
    least one scored row and no more than the frame has rows. *)
Theorem success_counts_add_up (table : option frame) (df_calc : frame)
    (scored : list (gmap string value * severity)) (uf hf : option nat)
    (t : string) (db : session) :
  reaches_persist model scaler pd legacy_raises table df_calc scored ->
  let r := fst (detect table uf hf t db) in
  let count sev :=
    length (List.filter (fun rs => has_id rs && severity_eqb (snd rs) sev) scored) in
  (r = Return Failed \/
   r = Return (Success (count RED + count AMBER) (count RED) (count AMBER) (count GREEN))) /\
  count RED + count AMBER + count GREEN = length (List.filter has_id scored) /\
  count RED + count AMBER + count GREEN <= length scored /\
  1 <= length scored <= nrows df_calc.
Proof.
  intros Hreach r count. subst r.
  rewrite (detect_persist model scaler pd legacy_raises utcnow cell_to_datetime
             table df_calc scored uf hf t db Hreach).
  assert (Hsum : count RED + count AMBER + count GREEN = length (List.filter has_id scored)).
  { unfold count. rewrite <- !length_update_ids. apply update_ids_partition. }
  split; [|split; [exact Hsum|split]].
  - destruct (persist_cases utcnow cell_to_datetime uf hf t scored db) as [[H _]|[H _]];
      [left; exact H|right]. rewrite H. unfold success_counts, count.
    rewrite !length_update_ids. reflexivity.
  - rewrite Hsum. apply List.filter_length_le.
  - destruct Hreach as (m & df & _ & _ & _ & _ & _ & Hscore).
    apply (score_frame_bounds m df_calc scored Hscore).
Qed.

(** X13.  The alert updates are all or nothing.  When one of the UPDATE
    statements or their commit raises, the call answers error with the
    transaction rolled back: no alert and no history entry is
    committed.  When none raises, the call answers success and the
    statements are committed in order, followed by the history entries
    that could be saved.  An answer error always comes with the session
    rolled back. *)
Theorem alert_updates_are_atomic (table : option frame) (df_calc : frame)
    (scored : list (gmap string value * severity)) (uf hf : option nat)
    (t : string) (db : session) :
  reaches_persist model scaler pd legacy_raises table df_calc scored ->
  let r := detect table uf hf t db in
  let updates := alert_writes t scored in
  (forall k, uf = Some k -> k <= length updates -> r = (Return Failed, rollback db)) /\
  (uf = None \/ (exists k, uf = Some k /\ length updates < k) ->
     fst r = Return (success_counts scored) /\
     exists hist, snd r = flushed db (updates ++ map AddHistory hist)) /\
  (fst r = Return Failed -> snd r = rollback db) /\
  (committed (snd r) = committed db \/
   exists hist, committed (snd r)
                = committed db ++ pending db ++ updates ++ map AddHistory hist).
Proof.
  intros Hreach r updates. subst r updates.
  rewrite (detect_persist model scaler pd legacy_raises utcnow cell_to_datetime
             table df_calc scored uf hf t db Hreach).
  pose proof (persist_cases utcnow cell_to_datetime uf hf t scored db) as Hcases.
  cbv zeta in Hcases.
  split; [|split; [|split]].
  - intros k -> Hk. unfold persist.
    pose proof (run_writes_faulty k (alert_writes t scored) db Hk) as Hf.
    destruct (run_writes (Some k) (alert_writes t scored) db) as [[|] db1] eqn:E;
      [discriminate|].
    f_equal. apply rollback_committed. apply (run_writes_failed _ _ _ _ E).
  - intros Huf.
    assert (Hrun : run_writes uf (alert_writes t scored) db
                   = (true, flushed db (alert_writes t scored))).
    { destruct Huf as [->|[k [-> Hk]]];
        [apply run_writes_no_fault|apply run_writes_late; exact Hk]. }
    destruct Hcases as [[H _]|[H [hist [Hs _]]]].
    + exfalso. unfold persist in H. rewrite Hrun in H. discriminate.
    + split; [exact H|]. exists hist. exact Hs.
  - intros Hfail. destruct Hcases as [[_ H]|[H _]]; [exact H|].
    rewrite H in Hfail. discriminate.
  - destruct Hcases as [[_ H]|[_ [hist [H _]]]]; rewrite H.
    + left. reflexivity.
    + right. exists hist. reflexivity.
Qed.

(** *** Which features are missing *)

Lemma required_not_derived (c : string) :
  In c required_features ->
  ~ In c defaulted_features /\
  c <> "Energy_kWh_Rolling_Mean" /\ c <> "Energy_kWh_Rolling_Std" /\
  c <> "Yield_loss_pct_Rolling_Mean".
Proof.
  intros H.
  destruct H as [<-|[<-|[<-|[<-|[<-|[<-|[]]]]]]];
    (split; [intros [E|[E|[E|[E|[E|[E|[]]]]]]]; discriminate
            |split; [discriminate|split; discriminate]]).
Qed.

(** X14.  Which required features [calculate_features] leaves missing
    depends on the source columns only, and is the same on the enhanced
    and on the fallback path: a required feature is present exactly
    when the renamed table has it or has the sources it is computed
    from.  A table with the four sources under a known alias is never
    skipped for missing columns; one without an energy or a temperature
    column always is. *)
Theorem missing_features_by_source (df df_calc : frame) :
  calculate_features pd legacy_raises df = Some df_calc ->
  let src := columns (standardize_columns df) in
  (forall c, In c required_features ->
     (In c (columns df_calc) <->
      In c src \/
      ((c = "Energy_per_kg" \/ c = "CO2_per_kg") /\
         In "Energy_kWh" src /\ In "OutputWeight_kg" src) \/
      (c = "Yield_loss_pct" /\ In "InputWeight_kg" src /\ In "OutputWeight_kg" src) \/
      (c = "Energy_x_Temp" /\ In "Energy_kWh" src /\ In "RoomTemp_C" src))) /\
  (In "Energy_kWh" src -> In "OutputWeight_kg" src ->
   In "InputWeight_kg" src -> In "RoomTemp_C" src ->
   missing_features df_calc = []) /\
  (~ In "Energy_kWh" src -> In "Energy_kWh" (missing_features df_calc)) /\
  (~ In "RoomTemp_C" src -> In "RoomTemp_C" (missing_features df_calc)).
Proof.
  intros Hcalc src.
  assert (Hiff : forall c, In c required_features ->
     (In c (columns df_calc) <->
      In c src \/
      ((c = "Energy_per_kg" \/ c = "CO2_per_kg") /\
         In "Energy_kWh" src /\ In "OutputWeight_kg" src) \/
      (c = "Yield_loss_pct" /\ In "InputWeight_kg" src /\ In "OutputWeight_kg" src) \/
      (c = "Energy_x_Temp" /\ In "Energy_kWh" src /\ In "RoomTemp_C" src))).
  { intros c Hc. unfold calculate_features in Hcalc.
    destruct (engineer_features pd df) as [df'|] eqn:E.
    - injection Hcalc as <-.
      pose proof (In_engineer_features pd df df' c E) as H. cbv zeta in H. fold src in H.
      destruct (required_not_derived c Hc) as [Hd [H1 [H2 H3]]].
      rewrite H. clear H E.
      generalize dependent (In c src). generalize dependent (In "Energy_kWh" src).
      generalize dependent (In "OutputWeight_kg" src).
      generalize dependent (In "InputWeight_kg" src).
      generalize dependent (In "RoomTemp_C" src).
      generalize dependent (In "Yield_loss_pct" src).
      generalize dependent (In c defaulted_features).
      intros. tauto.
    - destruct (legacy_raises df); [discriminate|]. injection Hcalc as <-.
      rewrite columns_replace_inf. apply In_basic_kpis. }
  split; [exact Hiff|]. split; [|split].
  - intros HE HO HI HT.
    destruct (missing_features df_calc) as [|c l] eqn:Em; [reflexivity|].
    assert (Hin : In c (missing_features df_calc)) by (rewrite Em; left; reflexivity).
    apply missing_features_spec in Hin as [Hreq Hnot]. exfalso. apply Hnot.
    apply (Hiff c Hreq).
    destruct Hreq as [<-|[<-|[<-|[<-|[<-|[<-|[]]]]]]].
    + left. exact HE.
    + right. left. split; [left; reflexivity|split; assumption].
    + right. right. left. split; [reflexivity|split; assumption].
    + left. exact HT.
    + right. left. split; [right; reflexivity|split; assumption].
    + right. right. right. split; [reflexivity|split; assumption].
  - intros HE. apply missing_features_spec. split; [left; reflexivity|].
    intros Hin. apply (Hiff "Energy_kWh") in Hin; [|left; reflexivity].
    destruct Hin as [H|[[[H|H] _]|[[H _]|[H _]]]];
      [exact (HE H)|discriminate H..].
  - intros HT. apply missing_features_spec.
    split; [cbn [In required_features]; auto|].
    intros Hin. apply (Hiff "RoomTemp_C") in Hin; [|cbn [In required_features]; auto].
    destruct Hin as [H|[[[H|H] _]|[[H _]|[H _]]]];
      [exact (HT H)|discriminate H..].
Qed.

End ScoringFacts.

Section AlertFacts.
Import FeatureEngineering Anomaly Labels.

(** X15.  Every scored row with a truthy [id] gets its alert written:
    its id is in the list of the statement of its severity, and that
    statement is among the updates.  Rows without an [id], or with a
    falsy one such as 0, are in no statement.  There are at most three
    statements, one per severity, none with an empty list of ids. *)
Theorem alerts_cover_scored_rows (t : string)
    (scored : list (gmap string value * severity)) :
  let updates := alert_writes t scored in
  (forall rs record_id, In rs scored -> fst rs !! "id" = Some record_id ->
     truthy record_id = true ->
     In record_id (update_ids (snd rs) scored) /\
     In (UpdateAlert t (snd rs) (update_ids (snd rs) scored)) updates) /\
  (forall sev record_id, In record_id (update_ids sev scored) ->
     truthy record_id = true /\
     exists rs, In rs scored /\ fst rs !! "id" = Some record_id /\ snd rs = sev) /\
  (forall w, In w updates ->
     exists sev, w = UpdateAlert t sev (update_ids sev scored) /\
                 update_ids sev scored <> []) /\
  length updates <= 3.
Proof.
  intros updates. subst updates.
  assert (Hin : forall rs record_id, In rs scored -> fst rs !! "id" = Some record_id ->
                  truthy record_id = true -> In record_id (update_ids (snd rs) scored)).
  { intros rs record_id Hrs Hid Ht. unfold update_ids.
    apply list_elem_of_In, list_elem_of_omap. exists rs.
    split; [apply list_elem_of_In; exact Hrs|].
    rewrite Hid, Ht. destruct (snd rs); reflexivity. }
  split; [|split; [|split]].
  - intros rs record_id Hrs Hid Ht. pose proof (Hin rs record_id Hrs Hid Ht) as H.
    split; [exact H|]. unfold alert_writes. cbn [map List.concat].
    rewrite !in_app_iff.
    destruct (update_ids (snd rs) scored) as [|x ids] eqn:E; [destruct H|].
    destruct (snd rs); rewrite E; cbn [is_nil In]; auto.
  - intros sev record_id H. split; [|apply update_ids_In; exact H].
    unfold update_ids in H. apply list_elem_of_In, list_elem_of_omap in H.
    destruct H as (rs & _ & H).
    destruct (fst rs !! "id") as [v|]; [|discriminate].
    destruct (truthy v) eqn:Ev; [|discriminate].
    destruct (severity_eqb (snd rs) sev); [|discriminate].
    injection H as <-. exact Ev.
  - intros w Hw. apply alert_writes_In. exact Hw.
  - unfold alert_writes. cbn [map List.concat]. rewrite !length_app.
    destruct (update_ids RED scored), (update_ids AMBER scored),
      (update_ids GREEN scored); cbn; lia.
Qed.

End AlertFacts.

(** ** What a history entry records *)

Section HistoryFacts.
Import FeatureEngineering Anomaly Labels.
Variable scaler : option (list (list fval) -> list (list fval)).
Variable pd : pandas.
Variable legacy_raises : frame -> bool.
Variable utcnow : Z.
Variable cell_to_datetime : value -> option Z.

Lemma snapshot_finite (row : gmap string value) (k : string) (q : Q) :
  row !! k ≫= to_float = Some (Fin q) -> kpi_snapshot row k = Some (Fin q).
Proof.
  unfold kpi_snapshot. destruct (row !! k) as [v|]; [|discriminate].
  cbn [mbind option_bind notnull].
  destruct v as [| |z|[q0| | |]]; cbn; intros H; try discriminate H; exact H.
Qed.

(** X24.  A history entry records the row it was built from: its five
    KPI fields are the finite values of the row's [Energy_kWh],
    [Energy_per_kg], [Yield_loss_pct], [CO2_per_kg] and [RoomTemp_C]
    (the fallback 0.0 of a null cell is never used for a scored row),
    its score is the row's [anomaly_score], its severity and table are
    those of the row, [is_anomaly] is set, the batch id is the row's
    [batchid] or the text unknown, and the timestamp is the clock
    reading when the row has neither an upload timestamp nor a date. *)
Theorem history_entries_record_the_row (m : estimator) (df df_calc : frame)
    (scored : list (gmap string value * severity)) (t : string)
    (rs : gmap string value * severity) (e : AnomalyDetection) :
  calculate_features pd legacy_raises df = Some df_calc ->
  score_frame scaler m df_calc = Scored scored -> In rs scored ->
  history_entry utcnow cell_to_datetime t rs = Some e ->
  let kpi := fun k => fst rs !! k ≫= to_float in
  (kpi "Energy_kWh" = Some (energy_kwh e) /\
   kpi "Energy_per_kg" = Some (energy_per_kg e) /\
   kpi "Yield_loss_pct" = Some (yield_loss_pct e) /\
   kpi "CO2_per_kg" = Some (co2_per_kg e) /\
   kpi "RoomTemp_C" = Some (room_temp_c e)) /\
  ((exists q, energy_kwh e = Fin q) /\ (exists q, energy_per_kg e = Fin q) /\
   (exists q, yield_loss_pct e = Fin q) /\ (exists q, co2_per_kg e = Fin q) /\
   (exists q, room_temp_c e = Fin q)) /\
  kpi "anomaly_score" = Some (anomaly_score e) /\
  ad_severity e = snd rs /\ ad_table_name e = t /\ is_anomaly e = true /\
  batch_id e = default (VStr "unknown") (fst rs !! "batchid") /\
  (notnull (fst rs !! "upload_timestamp") = false ->
   notnull (fst rs !! "date") = false -> timestamp e = utcnow).
Proof.
  intros Hcalc Hscore Hrs He kpi.
  destruct (calculate_features_replaced pd legacy_raises df df_calc Hcalc) as [df0 ->].
  destruct (score_frame_scored scaler legacy_raises m _ scored Hscore rs Hrs)
    as [row [Hsurv Hfrom]].
  assert (Hfin : forall k, In k required_features ->
                   exists q, kpi k = Some (Fin q) /\ kpi_snapshot (fst rs) k = Some (Fin q)).
  { intros k Hk. destruct (survivor_finite df0 row k Hsurv Hk) as [q Hq].
    exists q. unfold kpi. rewrite (scored_from_feature row rs k Hfrom Hk).
    split; [exact Hq|]. apply snapshot_finite.
    rewrite (scored_from_feature row rs k Hfrom Hk). exact Hq. }
  assert (Hscore_cell : exists score, fst rs !! "anomaly_score" = Some score).
  { destruct Hfrom as (flag & score & _ & _ & ->). exists score.
    rewrite lookup_insert_ne by discriminate. apply lookup_insert_eq. }
  destruct Hscore_cell as [score Hsc].
  destruct (Hfin "Energy_kWh") as [q1 [K1 S1]]; [cbn [In required_features]; auto|].
  destruct (Hfin "Energy_per_kg") as [q2 [K2 S2]]; [cbn [In required_features]; auto|].
  destruct (Hfin "Yield_loss_pct") as [q3 [K3 S3]]; [cbn [In required_features]; auto|].
  destruct (Hfin "CO2_per_kg") as [q4 [K4 S4]]; [cbn [In required_features]; auto 6|].
  destruct (Hfin "RoomTemp_C") as [q5 [K5 S5]]; [cbn [In required_features]; auto 6|].
  unfold history_entry in He. cbv zeta in He.
  rewrite S1, S2, S3, S4, S5, Hsc in He. cbn [default] in He.
  apply bind_Some in He as [ts [Hts He]].
  apply bind_Some in He as [sc [Hs He]].
  cbn [mbind option_bind] in He. injection He as <-.
  cbn [energy_kwh energy_per_kg yield_loss_pct co2_per_kg room_temp_c anomaly_score
       ad_severity ad_table_name is_anomaly batch_id timestamp].
  split; [repeat split; assumption|].
  split; [repeat split; eexists; reflexivity|].
  split; [unfold kpi; rewrite Hsc; exact Hs|].
  split; [reflexivity|]. split; [reflexivity|]. split; [reflexivity|].
  split; [reflexivity|].
  intros Hu Hd. unfold entry_timestamp in Hts. rewrite Hu, Hd in Hts.
  injection Hts as <-. reflexivity.
Qed.

End HistoryFacts.

(** X24, on the sample table: the entries of its alert rows carry a
    finite energy reading. *)
Lemma history_entries_record_the_row_witness :
  Forall (fun rs =>
            match Anomaly.history_entry Samples.sample_clock Samples.no_datetime
                    "csv_batches" rs with
            | Some e => exists q, energy_kwh e = Fin q
            | None => True
            end) Samples.sample_scored.
Proof.
  apply List.Forall_forall. intros rs Hrs.
  destruct (Anomaly.history_entry Samples.sample_clock Samples.no_datetime
              "csv_batches" rs) as [e|] eqn:He; [|exact I].
  refine (proj1 (proj1 (proj2
            (history_entries_record_the_row None FeatureEngineering.quiet_pandas
               Samples.never_raises Samples.sample_clock Samples.no_datetime
               Samples.sample_estimator Samples.sample_table
               (Samples.calc_of Samples.sample_table) Samples.sample_scored
               "csv_batches" rs e _ _ Hrs He)))).
  - vm_compute. reflexivity.
  - vm_compute. reflexivity.
Defined.

(** ** Column labels *)

Section LabelFacts.
Import FeatureEngineering Labels.

(** *** Renaming the aliases *)

Lemma columns_rename_step (df : frame) (m : string * string) :
  columns (rename_step df m)
  = map (fun k => if String.eqb k (fst m) then snd m else k) (columns df).
Proof.
  unfold rename_step. destruct (has_col (fst m) df) eqn:E.
  - unfold rename_col, columns. cbn [cols]. rewrite !map_map. reflexivity.
  - symmetry. rewrite <- (map_id (columns df)) at 2. apply map_ext_in.
    intros k Hk. destruct (String.eqb k (fst m)) eqn:Ek; [|reflexivity].
    apply String.eqb_eq in Ek. subst k. apply has_col_In in Hk. congruence.
Qed.

Lemma data_rename_step (df : frame) (m : string * string) :
  map snd (cols (rename_step df m)) = map snd (cols df) /\
  nrows (rename_step df m) = nrows df.
Proof.
  unfold rename_step. destruct (has_col (fst m) df); [|split; reflexivity].
  unfold rename_col. cbn [cols nrows]. rewrite map_map. split; reflexivity.
Qed.

Lemma columns_renamed (l : list (string * string)) (df : frame) :
  columns (fold_left rename_step l df)
  = map (fun k => fold_left (fun k m => if String.eqb k (fst m) then snd m else k) l k)
        (columns df).
Proof.
  revert df. induction l as [|m l IH]; intros df.
  - cbn [fold_left]. symmetry. apply map_id.
  - cbn [fold_left]. rewrite IH, columns_rename_step, map_map. reflexivity.
Qed.

Lemma data_renamed (l : list (string * string)) (df : frame) :
  map snd (cols (fold_left rename_step l df)) = map snd (cols df) /\
  nrows (fold_left rename_step l df) = nrows df.
Proof.
  revert df. induction l as [|m l IH]; intros df; [split; reflexivity|].
  cbn [fold_left]. destruct (IH (rename_step df m)) as [-> ->].
  apply data_rename_step.
Qed.

Lemma relabel_stable (l : list (string * string)) (x : string) :
  (forall m, In m l -> fst m = x -> snd m = x) ->
  fold_left (fun k m => if String.eqb k (fst m) then snd m else k) l x = x.
Proof.
  induction l as [|m l IH]; intros H; [reflexivity|].
  cbn [fold_left]. destruct (String.eqb x (fst m)) eqn:E.
  - apply String.eqb_eq in E. rewrite (H m (or_introl eq_refl) (eq_sym E)).
    apply IH. intros m' Hm'. apply H. right. exact Hm'.
  - apply IH. intros m' Hm'. apply H. right. exact Hm'.
Qed.

Lemma relabel_find (l : list (string * string)) (k : string) :
  (forall m m', In m l -> In m' l -> fst m' = snd m -> snd m' = snd m) ->
  fold_left (fun k m => if String.eqb k (fst m) then snd m else k) l k
  = match List.find (fun m => String.eqb (fst m) k) l with
    | Some m => snd m
    | None => k
    end.
Proof.
  induction l as [|m0 l IH]; intros H; [reflexivity|].
  cbn [fold_left List.find]. rewrite (String.eqb_sym (fst m0) k).
  destruct (String.eqb k (fst m0)) eqn:E.
  - apply relabel_stable. intros m' Hm' Hfst.
    apply (H m0 m'); [left; reflexivity|right; exact Hm'|exact Hfst].
  - apply IH. intros m m' Hm Hm'. apply H; right; assumption.
Qed.

Lemma stable_targets_spec (l : list (string * string)) :
  stable_targets l = true ->
  forall m m', In m l -> In m' l -> fst m' = snd m -> snd m' = snd m.
Proof.
  unfold stable_targets. intros H m m' Hm Hm' E.
  rewrite forallb_forall in H. specialize (H m Hm).
  rewrite forallb_forall in H. specialize (H m' Hm').
  rewrite E, String.eqb_refl in H. cbn [implb] in H.
  apply String.eqb_eq. exact H.
Qed.

Lemma canonical_name_fixed (c : string) : canonical_name (canonical_name c) = canonical_name c.
Proof.
  unfold canonical_name at 2 3.
  destruct (List.find (fun m => String.eqb (fst m) c) column_mapping) as [m|] eqn:E.
  - apply find_some in E as [Hm _]. unfold canonical_name.
    destruct (List.find (fun m0 => String.eqb (fst m0) (snd m)) column_mapping)
      as [m'|] eqn:E'; [|reflexivity].
    apply find_some in E' as [Hm' Hk]. apply String.eqb_eq in Hk.
    apply (stable_targets_spec column_mapping eq_refl m m' Hm Hm' Hk).
  - unfold canonical_name. rewrite E. reflexivity.
Qed.

Lemma map_collision {A B} (f : A -> B) (l : list A) (a b : A) :
  In a l -> In b l -> a <> b -> f a = f b -> ~ List.NoDup (map f l).
Proof.
  intros Ha Hb Hab Hf Hnd. induction l as [|x l IH]; [destruct Ha|].
  cbn [map] in Hnd. apply List.NoDup_cons_iff in Hnd as [Hx Hnd].
  destruct Ha as [->|Ha], Hb as [->|Hb].
  - contradiction.
  - apply Hx. rewrite Hf. apply in_map. exact Hb.
  - apply Hx. rewrite <- Hf. apply in_map. exact Ha.
  - apply (IH Ha Hb Hnd).
Qed.

(** X16.  The renaming at the head of [calculate_basic_features] gives
    every column the canonical name of its label: the name
    [column_mapping] lists for it, or the label itself.  The cells and
    the number of rows are untouched, and every label of the result is
    canonical.  Two columns that are aliases of the same name, such as
    [roomtemp_c] and [roomtemperature_c], end up under one label
    twice. *)
Theorem standardize_columns_canonical (df : frame) :
  columns (standardize_columns df) = map canonical_name (columns df) /\
  map snd (cols (standardize_columns df)) = map snd (cols df) /\
  nrows (standardize_columns df) = nrows df /\
  (forall c, In c (columns (standardize_columns df)) -> canonical_name c = c) /\
  (forall a b, In a (columns df) -> In b (columns df) -> a <> b ->
     canonical_name a = canonical_name b ->
     ~ List.NoDup (columns (standardize_columns df))).
Proof.
  assert (Hcols : columns (standardize_columns df) = map canonical_name (columns df)).
  { unfold standardize_columns. rewrite columns_renamed. apply map_ext.
    intros k. apply relabel_find. apply stable_targets_spec. reflexivity. }
  split; [exact Hcols|]. split; [apply data_renamed|]. split; [apply data_renamed|].
  split.
  - intros c Hc. rewrite Hcols in Hc. apply in_map_iff in Hc as [c0 [<- _]].
    apply canonical_name_fixed.
  - intros a b Ha Hb Hab Hf. rewrite Hcols. apply (map_collision _ _ a b Ha Hb Hab Hf).
Qed.

End LabelFacts.

(** X16, on a table with both aliases of the room temperature. *)
Lemma standardize_columns_canonical_witness :
  ~ List.NoDup
      (FeatureEngineering.columns
         (FeatureEngineering.standardize_columns
            {| FeatureEngineering.nrows := 1;
               FeatureEngineering.cols :=
                 [("roomtemp_c", [VInt 20]); ("roomtemperature_c", [VInt 21])] |})).
Proof.
  apply (standardize_columns_canonical _) with (a := "roomtemp_c") (b := "roomtemperature_c").
  - left. reflexivity.
  - right. left. reflexivity.
  - discriminate.
  - reflexivity.
Defined.

(** ** Feature stages, continued *)

Section StageFacts.
Import FeatureEngineering Labels.
Variable pd : pandas.

(** *** Columns are only appended *)

Lemma appends_refl (l : list string) : exists new, appends l l new.
Proof.
  exists []. split; [symmetry; apply app_nil_r|]. split; [constructor|intros x []].
Qed.

Lemma appends_trans (a b c : list string) :
  (exists new, appends a b new) -> (exists new, appends b c new) ->
  exists new, appends a c new.
Proof.
  intros [n1 [-> [Hd1 Hn1]]] [n2 [-> [Hd2 Hn2]]]. exists (n1 ++ n2).
  split; [symmetry; apply app_assoc|]. split.
  - apply List.NoDup_app; [exact Hd1|exact Hd2|].
    intros x Hx1 Hx2. apply (Hn2 x Hx2). apply in_or_app. right. exact Hx1.
  - intros x Hx Ha. apply in_app_or in Hx as [Hx|Hx].
    + apply (Hn1 x Hx Ha).
    + apply (Hn2 x Hx). apply in_or_app. left. exact Ha.
Qed.

Lemma appends_assign (c : string) (v : series) (l : list (string * series)) :
  exists new, appends (map fst l) (map fst (assign c v l)) new.
Proof.
  induction l as [|kv l IH].
  - exists [c]. split; [reflexivity|]. split; [|intros x _ []].
    constructor; [intros []|constructor].
  - cbn [assign]. destruct (String.eqb (fst kv) c) eqn:E.
    + apply String.eqb_eq in E. cbn [map fst]. rewrite E. apply appends_refl.
    + destruct IH as [new [Heq [Hd Hn]]]. exists new. cbn [map]. rewrite Heq.
      split; [reflexivity|]. split; [exact Hd|].
      intros x Hx [Hk|Hin]; [|apply (Hn x Hx Hin)].
      subst x. destruct new as [|y new]; [destruct Hx|].
      (* a new label can only be [c] *)
      assert (Hc : forall z, In z (map fst (assign c v l)) -> z = c \/ In z (map fst l)).
      { intros z Hz. apply In_assign in Hz. exact Hz. }
      assert (Hy : In (fst kv) (map fst (assign c v l))).
      { rewrite Heq. apply in_or_app. right. exact Hx. }
      destruct (Hc _ Hy) as [Hk|Hk].
      * rewrite Hk, String.eqb_refl in E. discriminate.
      * apply (Hn _ Hx Hk).
Qed.

Lemma grows_set_col (c : string) (v : series) (df : frame) :
  exists new, appends (columns df) (columns (set_col c v df)) new.
Proof. apply appends_assign. Qed.

Lemma grows_set_const (c : string) (v : value) (df : frame) :
  exists new, appends (columns df) (columns (set_const c v df)) new.
Proof. apply appends_assign. Qed.

Ltac grow :=
  repeat first
    [ apply appends_refl
    | rewrite columns_sort_values
    | rewrite columns_replace_inf
    | (eapply appends_trans; [|apply grows_set_col])
    | (eapply appends_trans; [|apply grows_set_const]) ].

Ltac split_guards :=
  repeat match goal with
         | |- context [if ?b then _ else _] => destruct b
         end.

Lemma grows_add_energy_per_kg (df : frame) :
  exists new, appends (columns df) (columns (add_energy_per_kg pd df)) new.
Proof. unfold add_energy_per_kg. split_guards; grow. Qed.

Lemma grows_add_yield_loss_pct (df : frame) :
  exists new, appends (columns df) (columns (add_yield_loss_pct pd df)) new.
Proof. unfold add_yield_loss_pct. split_guards; grow. Qed.

Lemma grows_add_co2_per_kg (df : frame) :
  exists new, appends (columns df) (columns (add_co2_per_kg pd df)) new.
Proof. unfold add_co2_per_kg. split_guards; grow. Qed.

Lemma grows_add_energy_x_temp (df : frame) :
  exists new, appends (columns df) (columns (add_energy_x_temp pd df)) new.
Proof. unfold add_energy_x_temp. split_guards; grow. Qed.

Lemma grows_basic_kpis (df : frame) :
  exists new, appends (columns df) (columns (basic_kpis pd df)) new.
Proof.
  unfold basic_kpis.
  eapply appends_trans; [|apply grows_add_energy_x_temp].
  eapply appends_trans; [|apply grows_add_co2_per_kg].
  eapply appends_trans; [|apply grows_add_yield_loss_pct].
  apply grows_add_energy_per_kg.
Qed.

Lemma grows_temporal (df : frame) :
  exists new, appends (columns df) (columns (calculate_temporal_features pd df)) new.
Proof.
  unfold calculate_temporal_features, temporal_defaults.
  destruct (temporal_raises pd df); [grow|].
  destruct (List.find (fun c => has_col c df) timestamp_candidates); [|grow].
  cbv zeta. split_guards; grow.
Qed.

Lemma grows_rolling (df rolled : frame) :
  calculate_rolling_features pd df = Some rolled ->
  exists new, appends (columns df) (columns rolled) new.
Proof.
  intros H. destruct (rolling_cases pd df rolled H) as [-> | ->];
    unfold rolling_fallback, rolling_body; cbv zeta;
    destruct (has_col "Energy_kWh" df); split_guards; grow.
Qed.

Lemma grows_equipment (df : frame) :
  exists new, appends (columns df) (columns (calculate_equipment_features pd df)) new.
Proof.
  unfold calculate_equipment_features, equipment_defaults. cbv zeta.
  destruct (equipment_raises pd df); [grow|].
  destruct (has_col "MachineName" df); destruct (has_col "ProductionStage" _);
    split_guards; grow.
Qed.

Lemma feature_names_cover (x : string) (src : list string) :
  In x defaulted_features \/
  ((x = "Energy_per_kg" \/ x = "CO2_per_kg") /\
     In "Energy_kWh" src /\ In "OutputWeight_kg" src) \/
  (x = "Yield_loss_pct" /\ In "InputWeight_kg" src /\ In "OutputWeight_kg" src) \/
  (x = "Energy_x_Temp" /\ In "Energy_kWh" src /\ In "RoomTemp_C" src) \/
  ((x = "Energy_kWh_Rolling_Mean" \/ x = "Energy_kWh_Rolling_Std") /\
     In "Energy_kWh" src) \/
  (x = "Yield_loss_pct_Rolling_Mean" /\
     (In "Yield_loss_pct" src \/ In "InputWeight_kg" src /\ In "OutputWeight_kg" src)) ->
  In x get_feature_names.
Proof.
  assert (Hname : forall y, mem_str y get_feature_names = true -> In y get_feature_names).
  { intros y. apply mem_str_In. }
  intros [H|[[[->| ->] _]|[[-> _]|[[-> _]|[[[->| ->] _]|[-> _]]]]]];
    try (apply Hname; reflexivity).
  destruct H as [<-|[<-|[<-|[<-|[<-|[<-|[]]]]]]]; apply Hname; reflexivity.
Qed.

Lemma nrows_basic_kpis (df : frame) : nrows (basic_kpis pd df) = nrows df.
Proof.
  unfold basic_kpis, add_energy_x_temp, add_co2_per_kg, add_yield_loss_pct,
    add_energy_per_kg. split_guards; reflexivity.
Qed.

Lemma nrows_temporal (df : frame) : nrows (calculate_temporal_features pd df) = nrows df.
Proof.
  unfold calculate_temporal_features.
  destruct (temporal_raises pd df); [reflexivity|].
  destruct (List.find _ _); [|reflexivity]. cbv zeta. split_guards; reflexivity.
Qed.

Lemma nrows_rolling (df rolled : frame) :
  calculate_rolling_features pd df = Some rolled -> nrows rolled = nrows df.
Proof.
  intros H. destruct (rolling_cases pd df rolled H) as [-> | ->];
    unfold rolling_fallback, rolling_body; cbv zeta;
    destruct (has_col "Energy_kWh" df); split_guards; reflexivity.
Qed.

Lemma nrows_equipment (df : frame) : nrows (calculate_equipment_features pd df) = nrows df.
Proof.
  unfold calculate_equipment_features. cbv zeta.
  destruct (equipment_raises pd df); [reflexivity|].
  destruct (has_col "MachineName" df); destruct (has_col "ProductionStage" _);
    split_guards; reflexivity.
Qed.

(** The stages of [engineer_features], named. *)
Lemma engineer_features_stages (df df' : frame) :
  engineer_features pd df = Some df' ->
  exists rolled,
    calculate_rolling_features pd
      (calculate_temporal_features pd (basic_kpis pd (standardize_columns df)))
    = Some rolled /\
    df' = replace_inf (calculate_equipment_features pd rolled).
Proof. intros H. apply (engineer_features_returns pd df df' H). Qed.

Lemma nrows_engineer_features (df df' : frame) :
  engineer_features pd df = Some df' -> nrows df' = nrows df.
Proof.
  intros H. destruct (engineer_features_stages df df' H) as (rolled & Hroll & ->).
  cbn [replace_inf nrows].
  rewrite nrows_equipment, (nrows_rolling _ rolled Hroll), nrows_temporal,
    nrows_basic_kpis.
  apply (data_renamed column_mapping df).
Qed.

(** X17.  Feature engineering only appends columns.  The columns of the
    renamed input keep their labels and their positions, and what
    follows them are new columns with distinct labels, none of which the
    input had and all of which are among the 15 feature names; the
    number of rows is unchanged.  If the labels of the renamed input
    are distinct, so are those of the result. *)
Theorem engineer_features_appends (df df' : frame) :
  engineer_features pd df = Some df' ->
  let src := columns (standardize_columns df) in
  exists new,
    columns df' = src ++ new /\
    List.NoDup new /\
    (forall x, In x new -> ~ In x src /\ In x get_feature_names) /\
    length new <= 15 /\
    (List.NoDup src -> List.NoDup (columns df')) /\
    nrows df' = nrows df.
Proof.
  intros Heng src.
  assert (Hgrow : exists new, appends src (columns df') new).
  { destruct (engineer_features_stages df df' Heng) as (rolled & Hroll & ->).
    rewrite columns_replace_inf.
    eapply appends_trans; [|apply grows_equipment].
    eapply appends_trans; [|apply (grows_rolling _ rolled Hroll)].
    eapply appends_trans; [|apply grows_temporal].
    apply grows_basic_kpis. }
  destruct Hgrow as [new [Heq [Hd Hn]]]. exists new.
  assert (Hnames : forall x, In x new -> ~ In x src /\ In x get_feature_names).
  { intros x Hx. split; [apply (Hn x Hx)|].
    assert (Hin : In x (columns df')) by (rewrite Heq; apply in_or_app; right; exact Hx).
    apply (In_engineer_features pd df df' x Heng) in Hin. fold src in Hin.
    destruct Hin as [Hin|Hin]; [destruct (Hn x Hx Hin)|].
    apply (feature_names_cover x src Hin). }
  split; [exact Heq|]. split; [exact Hd|]. split; [exact Hnames|].
  split; [|split].
  - change 15 with (length get_feature_names).
    apply NoDup_incl_length; [exact Hd|]. intros x Hx. apply (Hnames x Hx).
  - intros Hsrc. rewrite Heq. apply List.NoDup_app; [exact Hsrc|exact Hd|].
    intros x Hx Hx'. apply (Hn x Hx' Hx).
  - apply nrows_engineer_features. exact Heng.
Qed.

(** *** The cells of the defaulted features *)

Lemma get_col_set_col_eq (c : string) (v : series) (df : frame) :
  get_col c (set_col c v df) = v.
Proof.
  unfold get_col, set_col. cbn [cols]. induction (cols df) as [|kv l IH].
  - cbn [assign List.find fst]. rewrite String.eqb_refl. reflexivity.
  - cbn [assign]. destruct (String.eqb (fst kv) c) eqn:E.
    + cbn [List.find fst]. rewrite String.eqb_refl. reflexivity.
    + cbn [List.find]. rewrite E. exact IH.
Qed.

Lemma get_col_set_col_ne (c c' : string) (v : series) (df : frame) :
  c <> c' -> get_col c (set_col c' v df) = get_col c df.
Proof.
  intros Hne. unfold get_col, set_col. cbn [cols]. induction (cols df) as [|kv l IH].
  - cbn [assign List.find fst]. destruct (String.eqb c' c) eqn:E; [|reflexivity].
    apply String.eqb_eq in E. congruence.
  - cbn [assign]. destruct (String.eqb (fst kv) c') eqn:E.
    + apply String.eqb_eq in E. cbn [List.find fst].
      destruct (String.eqb c' c) eqn:E1; [apply String.eqb_eq in E1; congruence|].
      rewrite E, E1. reflexivity.
    + cbn [List.find]. destruct (String.eqb (fst kv) c); [reflexivity|exact IH].
Qed.

Lemma get_col_set_const_eq (c : string) (v : value) (df : frame) :
  get_col c (set_const c v df) = repeat v (nrows df).
Proof. apply get_col_set_col_eq. Qed.

Lemma get_col_set_const_ne (c c' : string) (v : value) (df : frame) :
  c <> c' -> get_col c (set_const c' v df) = get_col c df.
Proof. apply get_col_set_col_ne. Qed.

Lemma get_col_replace_inf (c : string) (df : frame) :
  get_col c (replace_inf df) = map replace_inf_cell (get_col c df).
Proof.
  unfold get_col, replace_inf. cbn [cols].
  induction (cols df) as [|[k col] l IH]; [reflexivity|].
  cbn [map List.find fst snd]. destruct (String.eqb k c); [reflexivity|exact IH].
Qed.

Ltac keep_col :=
  repeat first
    [ rewrite get_col_set_col_ne by discriminate
    | rewrite get_col_set_const_ne by discriminate ].

Lemma get_col_rolling (c : string) (df rolled : frame) :
  calculate_rolling_features pd df = Some rolled ->
  c <> "Energy_kWh_Rolling_Mean" -> c <> "Energy_kWh_Rolling_Std" ->
  c <> "Yield_loss_pct_Rolling_Mean" ->
  get_col c rolled = get_col c df.
Proof.
  intros H H1 H2 H3.
  destruct (rolling_cases pd df rolled H) as [-> | ->];
    unfold rolling_fallback, rolling_body; cbv zeta;
    destruct (has_col "Energy_kWh" df);
    split_guards;
    repeat first [ rewrite get_col_set_col_ne by assumption
                 | rewrite get_col_set_const_ne by assumption ];
    reflexivity.
Qed.

Lemma get_col_equipment (c : string) (df : frame) :
  c <> "Machine_Batch_Count" -> c <> "ProductionStage_Encoded" ->
  c <> "Machine_Utilization" ->
  get_col c (calculate_equipment_features pd df) = get_col c df.
Proof.
  intros H1 H2 H3.
  unfold calculate_equipment_features, equipment_defaults. cbv zeta.
  destruct (equipment_raises pd df); split_guards;
    repeat first [ rewrite get_col_set_col_ne by assumption
                 | rewrite get_col_set_const_ne by assumption ];
    reflexivity.
Qed.

Ltac literal_eqb :=
  repeat match goal with
         | |- context [String.eqb ?a ?b] =>
             let r := eval vm_compute in (String.eqb a b) in
             change (String.eqb a b) with r
         end.

Lemma equipment_without_machine (df : frame) :
  has_col "MachineName" df = false ->
  get_col "Machine_Batch_Count" (calculate_equipment_features pd df)
  = repeat (VInt 1) (nrows df) /\
  get_col "Machine_Utilization" (calculate_equipment_features pd df)
  = repeat (VInt 1) (nrows df).
Proof.
  intros H. unfold calculate_equipment_features, equipment_defaults. cbv zeta.
  destruct (equipment_raises pd df).
  - keep_col. rewrite !get_col_set_const_eq. split; reflexivity.
  - rewrite H. cbv beta iota.
    destruct (has_col "ProductionStage" (set_const "Machine_Batch_Count" (VInt 1) df));
      rewrite ?has_col_set_col, ?has_col_set_const, H; literal_eqb;
      cbn [orb andb]; cbv beta iota; keep_col; rewrite !get_col_set_const_eq;
      split; reflexivity.
Qed.

Lemma equipment_without_stage (df : frame) :
  has_col "ProductionStage" df = false ->
  get_col "ProductionStage_Encoded" (calculate_equipment_features pd df)
  = repeat (VInt 0) (nrows df).
Proof.
  intros H. unfold calculate_equipment_features, equipment_defaults. cbv zeta.
  destruct (equipment_raises pd df).
  - keep_col. rewrite !get_col_set_const_eq. reflexivity.
  - destruct (has_col "MachineName" df);
      rewrite ?has_col_set_col, ?has_col_set_const, H; literal_eqb;
      cbn [orb andb]; cbv beta iota; split_guards; keep_col;
      rewrite !get_col_set_const_eq; reflexivity.
Qed.

Lemma find_none_all {A} (p : A -> bool) (l : list A) :
  (forall x, In x l -> p x = false) -> List.find p l = None.
Proof.
  induction l as [|x l IH]; intros H; [reflexivity|].
  cbn [List.find]. rewrite (H x (or_introl eq_refl)). apply IH.
  intros y Hy. apply H. right. exact Hy.
Qed.

Lemma find_some_any {A} (p : A -> bool) (l : list A) (x : A) :
  In x l -> p x = true -> exists y, List.find p l = Some y.
Proof.
  induction l as [|z l IH]; intros Hx Hp; [destruct Hx|].
  cbn [List.find]. destruct (p z) eqn:E; [eexists; reflexivity|].
  destruct Hx as [->|Hx]; [congruence|]. apply (IH Hx Hp).
Qed.

Lemma not_feature_name (x : string) :
  mem_str x get_feature_names = false -> ~ In x get_feature_names.
Proof. intros H Hin. apply mem_str_In in Hin. congruence. Qed.

(** A column that is no feature is in the frame before the equipment
    stage only if the renamed input has it. *)
Lemma foreign_column (x : string) (df rolled : frame) :
  calculate_rolling_features pd (calculate_temporal_features pd (basic_kpis pd df))
  = Some rolled ->
  ~ In x get_feature_names ->
  In x (columns rolled) ->
  In x (columns df).
Proof.
  intros Hroll Hx H.
  assert (Hname : forall y, mem_str y get_feature_names = true -> x <> y).
  { intros y Hy ->. apply Hx. apply mem_str_In. exact Hy. }
  apply (In_rolling pd x _ rolled Hroll) in H as [H|[[[H|H] _]|[H _]]];
    try (exfalso; revert H; apply Hname; reflexivity).
  apply In_temporal in H as [H|[H|[H|H]]];
    try (exfalso; revert H; apply Hname; reflexivity).
  apply In_basic_kpis in H as [H|[[[H|H] _]|[[H _]|[H _]]]];
    try (exfalso; revert H; apply Hname; reflexivity).
  exact H.
Qed.

Lemma has_col_false (c : string) (df : frame) : ~ In c (columns df) -> has_col c df = false.
Proof. intros H. apply has_col_not_In. exact H. Qed.

Lemma replace_inf_repeat (z : Z) (n : nat) :
  map replace_inf_cell (repeat (VInt z) n) = repeat (VInt z) n.
Proof. apply map_repeat. Qed.

(** X18.  The values of the constant defaults.  When the renamed input
    has none of the timestamp columns, or the temporal stage raises, the
    result has 12, 2 and 60 in every row of [Batch_Hour],
    [Batch_DayOfWeek] and [Time_Since_Last_Batch].  Without a
    [MachineName] column [Machine_Batch_Count] and [Machine_Utilization]
    are 1 in every row, and without a [ProductionStage] column
    [ProductionStage_Encoded] is 0.  A table of at most one row that
    has a timestamp column gets 0 as [Time_Since_Last_Batch]. *)
Theorem default_feature_values (df df' : frame) :
  engineer_features pd df = Some df' ->
  let src := columns (standardize_columns df) in
  let kpis := basic_kpis pd (standardize_columns df) in
  let n := nrows df in
  (temporal_raises pd kpis = true \/
   (forall c, In c timestamp_candidates -> ~ In c src) ->
     get_col "Batch_Hour" df' = repeat (VInt 12) n /\
     get_col "Batch_DayOfWeek" df' = repeat (VInt 2) n /\
     get_col "Time_Since_Last_Batch" df' = repeat (VInt 60) n) /\
  (~ In "MachineName" src ->
     get_col "Machine_Batch_Count" df' = repeat (VInt 1) n /\
     get_col "Machine_Utilization" df' = repeat (VInt 1) n) /\
  (~ In "ProductionStage" src ->
     get_col "ProductionStage_Encoded" df' = repeat (VInt 0) n) /\
  (temporal_raises pd kpis = false -> n <= 1 ->
   (exists c, In c timestamp_candidates /\ In c src) ->
     get_col "Time_Since_Last_Batch" df' = repeat (VInt 0) n).
Proof.
  intros Heng src kpis n.
  destruct (engineer_features_stages df df' Heng) as (rolled & Hroll & ->).
  fold kpis in Hroll.
  assert (Hn : nrows kpis = n).
  { unfold kpis. rewrite nrows_basic_kpis. apply (data_renamed column_mapping df). }
  assert (Hsrc : forall x, ~ In x get_feature_names -> In x (columns kpis) -> In x src).
  { intros x Hx H. unfold kpis in H.
    apply In_basic_kpis in H as [H|[[[H|H] _]|[[H _]|[H _]]]];
      [exact H|exfalso; apply Hx; apply mem_str_In; rewrite H; reflexivity..]. }
  assert (Hsrc' : forall x, In x src -> In x (columns kpis)).
  { intros x H. unfold kpis. apply In_basic_kpis. left. exact H. }
  clearbody src kpis n. clear Heng.
  split; [|split; [|split]].
  - intros Hdef.
    assert (Ht : calculate_temporal_features pd kpis = temporal_defaults kpis).
    { unfold calculate_temporal_features.
      destruct (temporal_raises pd kpis) eqn:Er; [reflexivity|].
      destruct Hdef as [Hdef|Hdef]; [discriminate|].
      rewrite find_none_all; [reflexivity|].
      intros c Hc. apply has_col_false. intros Hin. apply (Hdef c Hc).
      apply (Hsrc c); [|exact Hin].
      apply not_feature_name.
      destruct Hc as [<-|[<-|[<-|[<-|[<-|[]]]]]]; reflexivity. }
    rewrite Ht in Hroll. rewrite !get_col_replace_inf.
    rewrite !get_col_equipment by discriminate.
    rewrite !(get_col_rolling _ _ rolled Hroll) by discriminate.
    unfold temporal_defaults. keep_col.
    rewrite !get_col_set_const_eq. keep_col. rewrite !get_col_set_const_eq.
    cbn [nrows set_const set_col]. rewrite Hn, !replace_inf_repeat. auto.
  - intros Hm.
    assert (Hno : has_col "MachineName" rolled = false).
    { apply has_col_false. intros Hin. apply Hm.
      apply (In_rolling pd _ _ rolled Hroll) in Hin as [Hin|[[[Hin|Hin] _]|[Hin _]]];
        [|discriminate Hin..].
      apply In_temporal in Hin as [Hin|[Hin|[Hin|Hin]]]; [|discriminate Hin..].
      apply (Hsrc "MachineName"); [apply not_feature_name; reflexivity|exact Hin]. }
    rewrite !get_col_replace_inf.
    destruct (equipment_without_machine _ Hno) as [-> ->].
    rewrite (nrows_rolling _ rolled Hroll), nrows_temporal, Hn, !replace_inf_repeat. auto.
  - intros Hm.
    assert (Hno : has_col "ProductionStage" rolled = false).
    { apply has_col_false. intros Hin. apply Hm.
      apply (In_rolling pd _ _ rolled Hroll) in Hin as [Hin|[[[Hin|Hin] _]|[Hin _]]];
        [|discriminate Hin..].
      apply In_temporal in Hin as [Hin|[Hin|[Hin|Hin]]]; [|discriminate Hin..].
      apply (Hsrc "ProductionStage"); [apply not_feature_name; reflexivity|exact Hin]. }
    rewrite get_col_replace_inf, (equipment_without_stage _ Hno).
    rewrite (nrows_rolling _ rolled Hroll), nrows_temporal, Hn, replace_inf_repeat.
    reflexivity.
  - intros Hr Hone [c [Hc Hin]].
    rewrite get_col_replace_inf.
    rewrite get_col_equipment by discriminate.
    rewrite (get_col_rolling _ _ rolled Hroll) by discriminate.
    assert (Hfind : exists c0, List.find (fun c => has_col c kpis) timestamp_candidates
                               = Some c0).
    { apply (find_some_any _ _ c Hc). apply has_col_In. apply Hsrc'. exact Hin. }
    destruct Hfind as [c0 Hfind].
    unfold calculate_temporal_features. rewrite Hr, Hfind. cbv zeta.
    assert (Hrows : forall c1 v d, nrows (set_col c1 v d) = nrows d) by reflexivity.
    rewrite !Hrows, Hn.
    assert (Hlt : (1 <? n) = false) by (apply Nat.ltb_ge; exact Hone).
    rewrite Hlt, get_col_set_const_eq, replace_inf_repeat, !Hrows, Hn. reflexivity.
Qed.

End StageFacts.

(** ** The encoded production stage, and the features of the trainer *)

Section EncodingFacts.
Import FeatureEngineering Anomaly Labels Training.
Variable pd : pandas.

Lemma stage_mapping_range (kv : string * Z) :
  In kv stage_mapping -> (0 < snd kv <= 6)%Z.
Proof.
  intros [<-|[<-|[<-|[<-|[<-|[<-|[]]]]]]]; cbn [snd]; lia.
Qed.

Lemma stage_code_spec (v : value) :
  match stage_code v with
  | Some z => (0 < z <= 6)%Z /\ exists s, v = VStr s /\ In (s, z) stage_mapping
  | None => forall s z, v = VStr s -> ~ In (s, z) stage_mapping
  end.
Proof.
  destruct v as [|s|z0|f]; cbn [stage_code]; try (intros s z H; discriminate H).
  destruct (List.find (fun kv => String.eqb (fst kv) s) stage_mapping) as [kv|] eqn:E.
  - apply find_some in E as [Hin Hk]. apply String.eqb_eq in Hk.
    split; [apply (stage_mapping_range kv Hin)|].
    exists s. split; [reflexivity|]. rewrite <- Hk. destruct kv. exact Hin.
  - intros s' z [= <-] Hin.
    pose proof (find_none _ _ E (s, z) Hin) as Hne. cbn [fst] in Hne.
    rewrite String.eqb_refl in Hne. discriminate Hne.
Qed.

Lemma stage_code_known (s : string) (z : Z) :
  In (s, z) stage_mapping -> stage_code (VStr s) = Some z.
Proof.
  intros [[= <- <-]|[[= <- <-]|[[= <- <-]|[[= <- <-]|[[= <- <-]|[[= <- <-]|[]]]]]]];
    reflexivity.
Qed.

(** The cell [c] is the code of the stage cell [v]: the code of its
    name when [v] is one of the six stage names, 0 otherwise. *)
Lemma encodes_code (v c : value) :
  holds (default 0%Z (stage_code v)) c ->
  exists z, holds z c /\ (0 <= z <= 6)%Z /\
            (forall s z', v = VStr s -> In (s, z') stage_mapping -> z = z') /\
            ((0 < z)%Z <-> exists s, v = VStr s /\ In (s, z) stage_mapping).
Proof.
  intros Hc. exists (default 0%Z (stage_code v)). split; [exact Hc|].
  pose proof (stage_code_spec v) as Hv.
  destruct (stage_code v) as [z|] eqn:E; simpl.
  - destruct Hv as [Hr Hs]. split; [lia|]. split.
    + intros s z' -> Hin. apply stage_code_known in Hin. congruence.
    + split; [intros _; exact Hs|intros _; lia].
  - split; [lia|]. split.
    + intros s z' Hs Hin. destruct (Hv s z' Hs Hin).
    + split; [lia|]. intros [s [Hs Hin]]. destruct (Hv s 0%Z Hs Hin).
Qed.

Lemma map_stages_int (s : series) (codes : list Z) :
  mapM stage_code s = Some codes ->
  fillna (VFloat (Fin 0)) (map_stages s) = map VInt codes.
Proof.
  intros H. unfold map_stages, fillna. rewrite H, map_map. apply map_ext.
  intros z. reflexivity.
Qed.

Lemma map_stages_float (s : series) :
  mapM stage_code s = None ->
  fillna (VFloat (Fin 0)) (map_stages s)
  = map (fun v => VFloat (Fin (inject_Z (default 0%Z (stage_code v))))) s.
Proof.
  intros H. unfold map_stages, fillna. rewrite H, map_map. apply map_ext.
  intros v. destruct (stage_code v); reflexivity.
Qed.

Lemma mapM_stage_codes (s : series) (codes : list Z) :
  mapM stage_code s = Some codes -> codes = map (fun v => default 0%Z (stage_code v)) s.
Proof.
  intros H. apply mapM_Some in H. induction H as [|v z s codes Hv _ IH]; [reflexivity|].
  cbn [map]. rewrite Hv, <- IH. reflexivity.
Qed.

(** The encoded series, cell by cell. *)
Lemma encoded_series (s : series) :
  let codes := fillna (VFloat (Fin 0)) (map_stages s) in
  codes = map (fun v => VInt (default 0%Z (stage_code v))) s /\
  (forall v, In v s -> is_Some (stage_code v)) \/
  codes = map (fun v => VFloat (Fin (inject_Z (default 0%Z (stage_code v))))) s /\
  (exists v, In v s /\ stage_code v = None).
Proof.
  intros codes. subst codes. destruct (mapM stage_code s) as [l|] eqn:E.
  - left. rewrite (map_stages_int s l E), (mapM_stage_codes s l E), map_map.
    split; [reflexivity|]. intros v Hv.
    pose proof (proj1 (mapM_is_Some stage_code s) (ex_intro _ l E)) as HF.
    rewrite List.Forall_forall in HF. apply (HF v Hv).
  - right. rewrite (map_stages_float s E). split; [reflexivity|].
    assert (Hdec : forall v, {stage_code v = None} + {stage_code v <> None})
      by (intros v; destruct (stage_code v); [right; discriminate|left; reflexivity]).
    destruct (List.Exists_dec (fun v => stage_code v = None) s Hdec) as [Hex|Hno].
    + apply List.Exists_exists in Hex. exact Hex.
    + exfalso. assert (Hall : is_Some (mapM stage_code s)).
      { apply mapM_is_Some. apply List.Forall_forall. intros v Hv.
        unfold compose. destruct (stage_code v) eqn:Ev; [eexists; reflexivity|].
        destruct Hno. apply List.Exists_exists. exists v.
        split; [exact Hv|exact Ev]. }
      rewrite E in Hall. destruct Hall as [x Hx]. discriminate Hx.
Qed.

Lemma encoded_whole (s : series) :
  Forall (whole_between 0 6) (fillna (VFloat (Fin 0)) (map_stages s)) /\
  (forallb is_int (fillna (VFloat (Fin 0)) (map_stages s)) = true \/
   forallb is_float (fillna (VFloat (Fin 0)) (map_stages s)) = true).
Proof.
  assert (Hr : forall v, (0 <= default 0%Z (stage_code v) <= 6)%Z).
  { intros v. pose proof (stage_code_spec v) as Hv.
    destruct (stage_code v); simpl; [destruct Hv; lia|lia]. }
  destruct (encoded_series s) as [[-> _]|[-> _]]; split.
  - apply List.Forall_forall. intros c Hc. apply in_map_iff in Hc as [v [<- _]].
    eexists. split; [left; reflexivity|apply Hr].
  - left. apply forallb_forall. intros c Hc. apply in_map_iff in Hc as [v [<- _]].
    reflexivity.
  - apply List.Forall_forall. intros c Hc. apply in_map_iff in Hc as [v [<- _]].
    eexists. split; [right; reflexivity|apply Hr].
  - right. apply forallb_forall. intros c Hc. apply in_map_iff in Hc as [v [<- _]].
    reflexivity.
Qed.

Lemma zero_series (n : nat) :
  Forall (whole_between 0 6) (repeat (VInt 0) n) /\
  forallb is_int (repeat (VInt 0) n) = true.
Proof.
  split.
  - apply List.Forall_forall. intros x Hx. apply repeat_spec in Hx. subst x.
    exists 0%Z. split; [left; reflexivity|lia].
  - apply forallb_forall. intros x Hx. apply repeat_spec in Hx. subst x. reflexivity.
Qed.

Ltac split_guards :=
  repeat match goal with
         | |- context [if ?b then _ else _] => destruct b
         end.

Lemma equipment_stage_codes (df : frame) :
  let encoded := get_col "ProductionStage_Encoded" (calculate_equipment_features pd df) in
  Forall (whole_between 0 6) encoded /\
  (forallb is_int encoded = true \/ forallb is_float encoded = true).
Proof.
  intros encoded. subst encoded.
  unfold calculate_equipment_features, equipment_defaults. cbv zeta.
  destruct (equipment_raises pd df).
  - rewrite get_col_set_const_ne by discriminate. rewrite get_col_set_const_eq.
    destruct (zero_series (nrows (set_const "Machine_Batch_Count" (VInt 1) df))) as [H1 H2].
    split; [exact H1|left; exact H2].
  - split_guards;
      repeat first [ rewrite get_col_set_col_ne by discriminate
                   | rewrite get_col_set_const_ne by discriminate ];
      first [ rewrite get_col_set_const_eq;
              match goal with
              | |- context [repeat (VInt 0) ?n] =>
                  destruct (zero_series n) as [H1 H2]; split; [exact H1|left; exact H2]
              end
            | rewrite get_col_set_col_eq; apply encoded_whole ].
Qed.

Lemma equipment_with_stage (df : frame) :
  equipment_raises pd df = false -> has_col "ProductionStage" df = true ->
  get_col "ProductionStage_Encoded" (calculate_equipment_features pd df)
  = fillna (VFloat (Fin 0)) (map_stages (get_col "ProductionStage" df)).
Proof.
  intros Hr Hs. unfold calculate_equipment_features. rewrite Hr. cbv zeta.
  destruct (has_col "MachineName" df);
    rewrite ?has_col_set_col, ?has_col_set_const, Hs, orb_true_r;
    split_guards;
    repeat first [ rewrite get_col_set_col_ne by discriminate
                 | rewrite get_col_set_const_ne by discriminate ];
    rewrite get_col_set_col_eq;
    repeat first [ rewrite get_col_set_col_ne by discriminate
                 | rewrite get_col_set_const_ne by discriminate ];
    reflexivity.
Qed.

Lemma replace_inf_whole (l : series) :
  Forall (whole_between 0 6) l -> map replace_inf_cell l = l.
Proof.
  intros H. induction H as [|c l [z [[-> | ->] _]] _ IH]; [reflexivity|..];
    cbn [map replace_inf_cell]; rewrite IH; reflexivity.
Qed.

(** X19.  [ProductionStage_Encoded] holds a whole number between 0 and 6
    in every row, never a null, and the column is one of integers or
    one of floats.  When the frame that reaches the equipment stage has
    a [ProductionStage] column and the stage does not raise, the column
    is the encoding of that one, cell by cell: a cell that is one of the
    six stage names gets the code of the name, which is positive, and
    any other cell (another text, a number, a null) gets 0; the codes
    are integers when every cell is a stage name, and floats as soon as
    one cell is not. *)
Theorem production_stage_codes (df df' : frame) :
  engineer_features pd df = Some df' ->
  let encoded := get_col "ProductionStage_Encoded" df' in
  Forall (whole_between 0 6) encoded /\
  (forallb is_int encoded = true \/ forallb is_float encoded = true) /\
  (forall rolled,
     calculate_rolling_features pd
       (calculate_temporal_features pd (basic_kpis pd (standardize_columns df)))
     = Some rolled ->
     equipment_raises pd rolled = false -> In "ProductionStage" (columns rolled) ->
     let stages := get_col "ProductionStage" rolled in
     Forall2 (fun v c =>
                exists z, holds z c /\ (0 <= z <= 6)%Z /\
                  (forall s z', v = VStr s -> In (s, z') stage_mapping -> z = z') /\
                  ((0 < z)%Z <-> exists s, v = VStr s /\ In (s, z) stage_mapping))
       stages encoded /\
     ((forall v, In v stages -> exists s z, v = VStr s /\ In (s, z) stage_mapping) ->
      forallb is_int encoded = true) /\
     ((exists v, In v stages /\ forall s z, v = VStr s -> ~ In (s, z) stage_mapping) ->
      stages <> [] /\ forallb is_float encoded = true) /\
     encoded = fillna (VFloat (Fin 0)) (map_stages stages)).
Proof.
  intros Heng encoded. subst encoded.
  destruct (engineer_features_stages pd df df' Heng) as (rolled & Hroll & ->).
  rewrite get_col_replace_inf.
  destruct (equipment_stage_codes rolled) as [Hwhole Htype]. cbv zeta in Hwhole, Htype.
  rewrite (replace_inf_whole _ Hwhole).
  split; [exact Hwhole|]. split; [exact Htype|].
  intros rolled' Hroll' Hr Hs stages. rewrite Hroll in Hroll'. injection Hroll' as <-.
  apply has_col_In in Hs. rewrite (equipment_with_stage rolled Hr Hs). fold stages.
  assert (Hcells : forall f : Z -> value, (forall z, holds z (f z)) ->
            Forall2 (fun v c =>
                exists z, holds z c /\ (0 <= z <= 6)%Z /\
                  (forall s z', v = VStr s -> In (s, z') stage_mapping -> z = z') /\
                  ((0 < z)%Z <-> exists s, v = VStr s /\ In (s, z) stage_mapping))
              stages (map (fun v => f (default 0%Z (stage_code v))) stages)).
  { intros f Hf. induction stages as [|v l IH]; [constructor|].
    cbn [map]. constructor; [|exact IH]. apply encodes_code. apply Hf. }
  destruct (encoded_series stages) as [[Heq Hall]|[Heq Hex]]; cbv zeta in Heq;
    rewrite Heq; (split; [|split; [|split; [|reflexivity]]]).
  - apply (Hcells VInt). intros z. left. reflexivity.
  - intros _. apply forallb_forall. intros c Hc. apply in_map_iff in Hc as [v [<- _]].
    reflexivity.
  - intros [v [Hv Hnone]]. exfalso. destruct (Hall v Hv) as [z Hz].
    pose proof (stage_code_spec v) as Hspec. rewrite Hz in Hspec.
    destruct Hspec as [_ [s [Hs' Hin]]]. apply (Hnone s z Hs' Hin).
  - apply (Hcells (fun z => VFloat (Fin (inject_Z z)))). intros z. right. reflexivity.
  - intros Hknown. exfalso. destruct Hex as [v [Hv Hnone]].
    destruct (Hknown v Hv) as [s [z [-> Hin]]].
    rewrite (stage_code_known s z Hin) in Hnone. discriminate Hnone.
  - intros [v [Hv _]]. split; [intros He; rewrite He in Hv; destruct Hv|].
    apply forallb_forall. intros c Hc. apply in_map_iff in Hc as [v' [<- _]].
    reflexivity.
Qed.

(** *** The trainer *)

Lemma defaulted_nodup : List.NoDup defaulted_features.
Proof.
  unfold defaulted_features.
  repeat (constructor; [cbn [In]; intros H;
                        repeat (destruct H as [H|H]; [discriminate H|]); exact H|]).
  constructor.
Qed.

Lemma defaulted_available (df df' : frame) (f : string) :
  engineer_features pd df = Some df' -> In f defaulted_features ->
  In f (available_features df').
Proof.
  intros Heng Hf. unfold available_features. apply filter_In. split.
  - apply mem_str_In. destruct Hf as [<-|[<-|[<-|[<-|[<-|[<-|[]]]]]]]; reflexivity.
  - apply has_col_In. apply (In_engineer_features pd df df' f Heng). right. left. exact Hf.
Qed.

(** X20.  The check on the number of features in [prepare_features]
    never fires: the six defaulted features are always available, so at
    least 6 and at most 15 features are used, and the call ends in an
    exception of the feature engineer or of the matrix, or in a cleaned
    matrix with one vector per kept row, each with one number that is no
    NaN per available feature. *)
Theorem insufficient_features_unreachable (df : frame) :
  (forall available, prepare_features pd df <> InsufficientFeatures available) /\
  (forall df', engineer_features pd df = Some df' ->
     6 <= length (available_features df') <= 15 /\
     forall f, In f defaulted_features -> In f (available_features df')) /\
  (forall features_clean available rows,
     prepare_features pd df = Prepared features_clean available rows ->
     length features_clean = length rows /\
     Forall (fun v => length v = length available /\ valid v = true) features_clean).
Proof.
  assert (Hcount : forall df', engineer_features pd df = Some df' ->
                     6 <= length (available_features df') <= 15).
  { intros df' Heng. split.
    - change 6 with (length defaulted_features).
      apply NoDup_incl_length; [apply defaulted_nodup|].
      intros f Hf. apply (defaulted_available df df' f Heng Hf).
    - change 15 with (length get_feature_names). apply List.filter_length_le. }
  split; [|split].
  - intros available. unfold prepare_features.
    destruct (engineer_features pd df) as [df'|] eqn:Heng; [|discriminate].
    destruct (Hcount df' eq_refl) as [H6 _].
    apply Nat.ltb_ge in H6. rewrite H6.
    destruct (mapM _ _); discriminate.
  - intros df' Heng. split; [apply (Hcount df' Heng)|].
    intros f Hf. apply (defaulted_available df df' f Heng Hf).
  - intros fc av rows. unfold prepare_features.
    destruct (engineer_features pd df) as [df'|] eqn:Heng; [|discriminate].
    destruct (length (available_features df') <? 6); [discriminate|].
    destruct (mapM _ (iterrows df')) as [features|] eqn:Hm; [|discriminate].
    intros [= <- <- <-]. split.
    + symmetry. apply rows_valid_length. apply (length_mapM _ _ _ Hm).
    + apply List.Forall_forall. intros v Hv. apply filter_In in Hv as [Hv Hvalid].
      split; [|exact Hvalid].
      apply mapM_Some in Hm.
      destruct (Forall2_In_r _ _ _ v Hm Hv) as [row [_ Hrow]].
      symmetry. apply (length_mapM _ _ _ Hrow).
Qed.

End EncodingFacts.

(** ** Columns of digits *)

Section DigitFacts.
Import DataProcessing.
Variable dateutil_parses : string -> bool.

Local Abbreviation infer := (infer_column_type dateutil_parses).

Ltac by_char c :=
  destruct c as [[|] [|] [|] [|] [|] [|] [|] [|]]; vm_compute; try reflexivity;
  try discriminate; try tauto.

Lemma rstrip_fixed (p : ascii -> bool) (s : string) :
  all_chars (fun c => negb (p c)) s = true -> rstrip p s = s.
Proof.
  induction s as [|c s IH]; [reflexivity|].
  cbn [all_chars rstrip]. intros H. apply andb_prop in H as [Hc Hs].
  apply negb_true_iff in Hc. rewrite Hc, (IH Hs). reflexivity.
Qed.

Lemma digit_not_space (c : ascii) : is_ascii_digit c = true -> negb (isspace c) = true.
Proof. by_char c. Qed.

Lemma digit_not_sign (c : ascii) : is_ascii_digit c = true -> is_sign c = false.
Proof. by_char c. Qed.

Lemma digit_lower (c : ascii) : is_ascii_digit c = true -> lower_char c = c.
Proof. by_char c. Qed.

Lemma strip_digits (s : string) :
  all_chars is_ascii_digit s = true -> strip isspace s = s.
Proof.
  intros H. unfold strip.
  assert (Hs : all_chars (fun c => negb (isspace c)) s = true).
  { apply (all_chars_weaken is_ascii_digit); [apply digit_not_space|exact H]. }
  rewrite (lstrip_fixed isspace s).
  - apply rstrip_fixed. exact Hs.
  - intros c Hc. destruct s as [|d s]; [discriminate|]. injection Hc as <-.
    cbn [all_chars] in Hs. apply andb_prop in Hs as [Hd _].
    apply negb_true_iff in Hd. exact Hd.
Qed.

Lemma digits_tail_digits (s : string) :
  all_chars is_ascii_digit s = true -> digits_tail s = "".
Proof.
  induction s as [|c s IH]; [reflexivity|].
  cbn [all_chars digits_tail]. intros H. apply andb_prop in H as [Hc Hs].
  rewrite Hc. apply IH. exact Hs.
Qed.

Lemma float_parses_digits (s : string) :
  s <> "" -> all_chars is_ascii_digit s = true -> float_parses s = true.
Proof.
  intros Hne H. unfold float_parses. rewrite (strip_digits s H).
  destruct s as [|c s]; [contradiction|].
  cbn [all_chars] in H. apply andb_prop in H as [Hc Hs].
  unfold skip_sign. rewrite (digit_not_sign c Hc).
  unfold float_number, digitpart. rewrite Hc, (digits_tail_digits s Hs).
  apply orb_true_r.
Qed.

Lemma bool_word_digits (s : string) :
  all_chars is_ascii_digit s = true ->
  mem_str (lower s) bool_values = String.eqb s "0" || String.eqb s "1".
Proof.
  intros H. unfold lower. rewrite (map_chars_fixed is_ascii_digit lower_char s digit_lower H).
  destruct (mem_str s bool_values) eqn:E.
  - apply mem_str_In in E.
    destruct E as [E|[E|[E|[E|[E|[E|[E|[E|[]]]]]]]]]; subst s;
      first [reflexivity|discriminate H].
  - destruct (String.eqb s "0") eqn:E0.
    { apply String.eqb_eq in E0. subst s. discriminate E. }
    destruct (String.eqb s "1") eqn:E1; [|reflexivity].
    apply String.eqb_eq in E1. subst s. discriminate E.
Qed.

(** X21.  A column whose non-null cells are all written with digits
    only is typed BOOLEAN when every such cell is 0 or 1 and FLOAT
    otherwise, unless its name has [date] or [time] in it: it is never
    typed INTEGER or TEXT, and every text of digits is one that [float]
    accepts. *)
Theorem digit_columns_are_float_or_boolean (sample_values : list string)
    (col_name : string) :
  let clean := clean_values sample_values in
  contains "date" (lower col_name) || contains "time" (lower col_name) = false ->
  clean <> [] ->
  Forall (fun v => v <> "" /\ all_chars is_ascii_digit v = true) clean ->
  infer sample_values col_name
  = (if forallb (fun v => String.eqb v "0" || String.eqb v "1") clean
     then BOOLEAN else FLOAT) /\
  Forall (fun v => float_parses v = true) clean.
Proof.
  intros clean Hname Hne Hd.
  assert (Hf : Forall (fun v => float_parses v = true) clean).
  { apply List.Forall_forall. intros v Hv. rewrite List.Forall_forall in Hd.
    destruct (Hd v Hv) as [H1 H2]. apply (float_parses_digits v H1 H2). }
  split; [|exact Hf].
  unfold infer_column_type. rewrite Hname. fold clean.
  assert (Hs : is_nil sample_values = false).
  { destruct sample_values; [exfalso; apply Hne; reflexivity|reflexivity]. }
  rewrite Hs.
  assert (Hc : is_nil clean = false) by (destruct clean; [contradiction|reflexivity]).
  rewrite Hc.
  assert (Hb : forallb (fun v => mem_str (lower v) bool_values) clean
               = forallb (fun v => String.eqb v "0" || String.eqb v "1") clean).
  { clear -Hd. induction Hd as [|v l [_ Hv] _ IH]; [reflexivity|].
    cbn [forallb]. rewrite (bool_word_digits v Hv), IH. reflexivity. }
  rewrite Hb.
  destruct (forallb (fun v => String.eqb v "0" || String.eqb v "1") clean); [reflexivity|].
  assert (Hall : forallb float_parses clean = true).
  { apply forallb_forall. intros v Hv. rewrite List.Forall_forall in Hf. apply Hf, Hv. }
  rewrite Hall. reflexivity.
Qed.

End DigitFacts.

(** X21, on a column of flags written as 0 and 1. *)
Lemma digit_columns_are_float_or_boolean_witness :
  DataProcessing.infer_column_type (fun _ => false) ["0"; "1"; " 1 "] "Passed"
  = DataProcessing.BOOLEAN.
Proof.
  refine (proj1 (digit_columns_are_float_or_boolean (fun _ => false)
                   ["0"; "1"; " 1 "] "Passed" _ _ _)).
  - reflexivity.
  - discriminate.
  - vm_compute. repeat constructor; discriminate.
Defined.

(** ** The view after an upload, and deletions *)

Section RefreshFacts.
Import DataProcessing RowLoader UploadApi.
Variable dateutil_parses : string -> bool.
Variable formatted_date : string -> option string.
Variable json_dumps : list (string * sql_type) -> string.
Variable json_keys : string -> option (list string).

Local Abbreviation process :=
  (process_csv_upload dateutil_parses formatted_date json_dumps json_keys).
Local Abbreviation columns_of := (infer_columns dateutil_parses).
Local Abbreviation load := (load_rows formatted_date).




(** *** Deleting a file *)

Lemma keyed_from (l : list CSVFileMetadata) (s i : nat) (m : CSVFileMetadata) :
  In (i, m) (combine (seq s (length l)) l) <-> s <= i /\ nth_error l (i - s) = Some m.
Proof.
  revert s. induction l as [|x l IH]; intros s.
  - cbn [length seq combine In]. split; [intros []|intros [_ H]].
    destruct (i - s); discriminate H.
  - cbn [length seq combine In]. rewrite IH. split.
    + intros [[= <- <-]|[Hle Hn]].
      * split; [lia|]. rewrite Nat.sub_diag. reflexivity.
      * split; [lia|]. replace (i - s) with (S (i - S s)) by lia. exact Hn.
    + intros [Hle Hn]. destruct (Nat.eq_dec s i) as [<-|Hne].
      * left. rewrite Nat.sub_diag in Hn. injection Hn as <-. reflexivity.
      * right. split; [lia|]. replace (i - s) with (S (i - S s)) in Hn by lia. exact Hn.
Qed.

Lemma keyed_In (l : list CSVFileMetadata) (i : nat) (m : CSVFileMetadata) :
  In (i, m) (keyed l) <-> nth_error l i = Some m.
Proof.
  unfold keyed. rewrite keyed_from, Nat.sub_0_r. split; [tauto|]. split; [lia|assumption].
Qed.

Lemma named_In (name : string) (l : list CSVFileMetadata) (i : nat) (m : CSVFileMetadata) :
  In (i, m) (named name l) <-> nth_error l i = Some m /\ filename m = name.
Proof.
  unfold named. rewrite filter_In, keyed_In. cbn [snd]. rewrite String.eqb_eq. reflexivity.
Qed.

(** The row handed over is a registered file of that name. *)
Lemma first_named_spec (choice : nat) (name : string) (l : list CSVFileMetadata)
    (i : nat) (m : CSVFileMetadata) :
  first_named choice name l = Some (i, m) ->
  nth_error l i = Some m /\ filename m = name.
Proof.
  unfold first_named. cbv zeta. intros H. apply nth_error_In in H.
  apply named_In. exact H.
Qed.

Lemma first_named_none (choice : nat) (name : string) (l : list CSVFileMetadata) :
  first_named choice name l = None <-> forall x, In x l -> filename x <> name.
Proof.
  unfold first_named. cbv zeta. split.
  - intros H x Hx Hname. apply nth_error_None in H.
    apply In_nth_error in Hx as [i Hi].
    assert (Hin : In (i, x) (named name l)) by (apply named_In; split; assumption).
    destruct (named name l) as [|row rows]; [destruct Hin|].
    pose proof (Nat.mod_upper_bound choice (length (row :: rows))) as Hlt.
    cbn [length] in H, Hlt. lia.
  - intros H. destruct (named name l) as [|[i m] rows] eqn:E; [destruct choice; reflexivity|].
    assert (Hin : In (i, m) (named name l)) by (rewrite E; left; reflexivity).
    apply named_In in Hin as [Hi Hname]. apply nth_error_In in Hi.
    destruct (H m Hi Hname).
Qed.

(** Every registered file of that name can be the row handed over. *)
Lemma first_named_any (name : string) (l : list CSVFileMetadata)
    (i : nat) (m : CSVFileMetadata) :
  nth_error l i = Some m -> filename m = name ->
  exists choice, first_named choice name l = Some (i, m).
Proof.
  intros Hi Hname.
  assert (Hin : In (i, m) (named name l)) by (apply named_In; split; assumption).
  apply In_nth_error in Hin as [k Hk]. exists k. unfold first_named. cbv zeta.
  rewrite Nat.mod_small; [exact Hk|].
  apply nth_error_Some. rewrite Hk. discriminate.
Qed.

(** X23.  [delete_csv_data] answers 200, 404 or 500 and leaves no open
    transaction.  Unless it answers 200 nothing changes: every file
    stays registered and nothing is committed.  A name no registered
    file has gives 404.  When a registered file has the name and neither
    the DROP nor the commit raises, the answer reports the record count
    of one registered file of that name, the row the database hands
    over first; exactly that row is unregistered, every other file, of
    that name or not, stays in place, and the DROP of its table is
    committed, followed by nothing or by the two statements of the view.
    The query has no ORDER BY: each registered file of that name is the
    row handed over under some choice of the database. *)
Theorem delete_removes_one_file (select_raises : bool) (choice : nat)
    (fault vf : option nat) (name : string) (st : store) :
  let r := delete_csv_data json_keys select_raises choice fault vf name st in
  (status_code_of (fst r) = 200 \/ status_code_of (fst r) = 404 \/
   status_code_of (fst r) = 500) /\
  pending (db (snd r)) = [] /\
  (status_code_of (fst r) <> 200 ->
     files (snd r) = files st /\ committed (db (snd r)) = committed (db st)) /\
  (select_raises = false -> (forall x, In x (files st) -> filename x <> name) ->
     fst r = HTTPException 404 ("File " +:+ name +:+ " not found")) /\
  (select_raises = false -> (exists x, In x (files st) /\ filename x = name) ->
     fault = None \/ (exists k, fault = Some k /\ 1 < k) ->
     exists m before after view,
       first_named choice name (files st) = Some (length before, m) /\
       filename m = name /\
       fst r = Deleted (record_count m) name /\
       files st = before ++ m :: after /\
       files (snd r) = before ++ after /\
       committed (db (snd r))
       = committed (db st) ++ pending (db st)
         ++ Sql ("DROP TABLE IF EXISTS " +:+ table_name m +:+ " CASCADE") :: view /\
       (view = [] \/
        exists queries, view = [Sql "DROP VIEW IF EXISTS csv_data_unified_view";
                                Sql (view_sql queries)])) /\
  (forall before m after, files st = before ++ m :: after -> filename m = name ->
     exists choice', first_named choice' name (files st) = Some (length before, m)) /\
  (status_code_of (fst r) = 200 -> length (files (snd r)) + 1 = length (files st)).
Proof.
  intros r. subst r.
  assert (Hany : forall before m after,
            files st = before ++ m :: after -> filename m = name ->
            exists choice', first_named choice' name (files st) = Some (length before, m)).
  { intros before m after Hsplit Hname. apply first_named_any; [|exact Hname].
    rewrite Hsplit, nth_error_app2 by lia. rewrite Nat.sub_diag. reflexivity. }
  unfold delete_csv_data.
  destruct select_raises.
  { cbn. split; [auto|]. split; [reflexivity|]. split; [auto|].
    split; [discriminate|]. split; [discriminate|]. split; [exact Hany|discriminate]. }
  destruct (first_named choice name (files st)) as [[i m]|] eqn:Hfind.
  2: { cbn. split; [auto|]. split; [reflexivity|]. split; [auto|].
       split; [reflexivity|]. split; [|split; [exact Hany|discriminate]].
       intros _ [x [Hx Hname]] _. exfalso.
       apply (proj1 (first_named_none choice name (files st)) Hfind x Hx Hname). }
  destruct (first_named_spec choice name (files st) i m Hfind) as [Hi Hname].
  pose proof (firstn_skipn_middle i (files st) Hi) as Hsplit. symmetry in Hsplit.
  assert (Hlen : length (firstn i (files st)) = i).
  { apply firstn_length_le. apply Nat.lt_le_incl. apply nth_error_Some.
    rewrite Hi. discriminate. }
  set (before := firstn i (files st)) in Hsplit, Hlen |- *.
  set (after := skipn (S i) (files st)) in Hsplit |- *.
  assert (Hdel : delete_row i (files st) = before ++ after) by reflexivity.
  set (drop := Sql ("DROP TABLE IF EXISTS " +:+ table_name m +:+ " CASCADE")).
  pose proof (run_writes_atomic fault [drop] (db st)) as Hrun. cbv zeta in Hrun.
  destruct (run_writes fault [drop] (db st)) as [[|] db1] eqn:Erun;
    cbn [fst snd] in Hrun.
  - destruct Hrun as [[_ ->]|[H _]]; [|discriminate H].
    destruct (view_refresh_adds json_keys vf (delete_row i (files st))
                (flushed (db st) [drop]) eq_refl) as [view [Hc [Hp Hv]]].
    cbn [fst snd status_code_of close db files rollback committed pending].
    split; [auto|]. split; [reflexivity|]. split; [intros H; contradiction|].
    split.
    { intros _ Hnone. exfalso. apply (Hnone m); [|exact Hname].
      apply (nth_error_In _ _ Hi). }
    split; [|split; [exact Hany|]].
    + intros _ _ _. exists m, before, after, view.
      split; [rewrite Hlen; reflexivity|]. split; [exact Hname|].
      split; [reflexivity|]. split; [exact Hsplit|]. split; [exact Hdel|].
      split; [|exact Hv].
      rewrite Hc. cbn [flushed committed]. rewrite <- !app_assoc. reflexivity.
    + intros _. rewrite Hdel, Hsplit, !length_app. cbn [length]. lia.
  - destruct Hrun as [[H _]|[_ Hroll]]; [discriminate H|].
    cbn [fst snd status_code_of close db files rollback committed pending].
    assert (Hcommitted : committed db1 = committed (db st)).
    { apply (f_equal committed) in Hroll. exact Hroll. }
    split; [auto|]. split; [reflexivity|]. split; [intros _; split; [reflexivity|exact Hcommitted]|].
    split.
    { intros _ Hnone. exfalso. apply (Hnone m); [|exact Hname].
      apply (nth_error_In _ _ Hi). }
    split; [|split; [exact Hany|discriminate]].
    intros _ _ Hfault. exfalso.
    assert (Hok : run_writes fault [drop] (db st) = (true, flushed (db st) [drop])).
    { destruct Hfault as [->|[k [-> Hk]]];
        [apply run_writes_no_fault|apply run_writes_late; exact Hk]. }
    rewrite Hok in Erun. discriminate Erun.
Qed.

End RefreshFacts.


(** X23, on a file uploaded twice: the database hands over the later
    upload, and it is the later upload that goes. *)
Lemma delete_removes_one_file_witness :
  UploadApi.delete_csv_data Samples.sample_keys false 1 None None "a.csv"
    {| RowLoader.db := Samples.fresh_session;
       RowLoader.files := [Samples.table_a; Samples.table_a_again; Samples.table_b] |}
  = (UploadApi.Deleted 7 "a.csv",
     {| RowLoader.db :=
          Db.flushed Samples.fresh_session
            [Db.Sql "DROP TABLE IF EXISTS csv_a_20240308_101500_000 CASCADE";
             Db.Sql "DROP VIEW IF EXISTS csv_data_unified_view";
             Db.Sql (DataProcessing.view_sql
                       (DataProcessing.union_queries
                          [Samples.table_a; Samples.table_b]
                          (snd (DataProcessing.collect_columns Samples.sample_keys
                                  [Samples.table_a; Samples.table_b]))
                          (DataProcessing.sorted_columns
                             (fst (DataProcessing.collect_columns Samples.sample_keys
                                     [Samples.table_a; Samples.table_b])))))];
        RowLoader.files := [Samples.table_a; Samples.table_b] |}).
Proof.
  destruct (proj1 (proj2 (proj2 (proj2 (proj2
              (delete_removes_one_file Samples.sample_keys false 1 None None "a.csv"
                 {| RowLoader.db := Samples.fresh_session;
                    RowLoader.files :=
                      [Samples.table_a; Samples.table_a_again; Samples.table_b] |})))))
              eq_refl
              (ex_intro _ Samples.table_a (conj (or_introl eq_refl) eq_refl))
              (or_introl eq_refl))
    as (m & before & after & view & Hfirst & _ & Hanswer & _).
  vm_compute in Hfirst. injection Hfirst as _ <-.
  apply injective_projections; [exact Hanswer|].
  vm_compute. reflexivity.
Defined.

(** ** Worked cases *)

Section LoaderCases.
Import DataProcessing RowLoader UploadApi Cases.

(** X5, on a name with an apostrophe. *)
Lemma text_cells_are_quoted_witness :
  sql_value no_formatted_date TEXT " O'Hara " = squote +:+ "O''Hara" +:+ squote.
Proof.
  refine (proj1 (proj2 (text_cells_are_quoted no_formatted_date " O'Hara ")) _).
  vm_compute. intros [H|[H|[H|[H|[]]]]]; discriminate H.
Defined.

(** X6, on the energy cell of the first row of the sample file. *)
Lemma sampled_cells_are_literals_witness :
  sql_value no_formatted_date FLOAT " 12.5 " = "NULL" \/
  (sql_value no_formatted_date FLOAT " 12.5 " = "12.5" /\ float_parses "12.5" = true).
Proof.
  refine (proj1 (sampled_cells_are_literals no_dates no_formatted_date
                   batch_header batch_rows "Energy (kWh)"
                   {["Batch ID" := Some "B-1"; "Energy (kWh)" := Some " 12.5 "]}
                   " 12.5 " _ _ _) _).
  - right. left. reflexivity.
  - left. reflexivity.
  - vm_compute. reflexivity.
  - vm_compute. reflexivity.
Defined.


(** X8, on the sample file of two rows. *)
Lemma upload_counts_rows_witness :
  exists m,
    fst (process_csv_upload no_dates no_formatted_date sample_dumps sample_loads
           (Some (batch_header, batch_rows)) "Batch Records.csv" Samples.sample_instant
           "2024-03-07 09:05:01" "2024-03-07 09:05:02" None None None empty_store)
    = Uploaded m 2 /\ record_count m = 2.
Proof.
  destruct (upload_counts_rows no_dates no_formatted_date sample_dumps sample_loads
              batch_header batch_rows "Batch Records.csv" Samples.sample_instant
              "2024-03-07 09:05:01" "2024-03-07 09:05:02" None empty_store)
    as [m [inserts [view [Hr [Hm _]]]]].
  - discriminate.
  - discriminate.
  - intros row col [<-|[<-|[]]] [<-|[<-|[]]] H; vm_compute in H; discriminate H.
  - exists m. split; [exact Hr|]. rewrite Hm. reflexivity.
Defined.

(** X9, on the sample file when the first INSERT raises: the answer is
    500 and the table of the upload stays behind, unregistered. *)
Lemma failed_upload_registers_nothing_witness :
  let r := upload_csv no_dates no_formatted_date sample_dumps sample_loads
             (Some (batch_header, batch_rows)) "Batch Records.csv" Samples.sample_instant
             "2024-03-07 09:05:01" "2024-03-07 09:05:02" None (Some 0) None empty_store in
  status_code_of (fst (fst r)) = 500 /\ files (snd r) = [] /\
  committed (db (snd r))
  = [Sql (create_table_sql "csv_batch_records_20240307_090501_123"
            [("Batch ID", TEXT); ("Energy (kWh)", FLOAT)])].
Proof.
  refine (proj2 (proj2 (proj2 (proj2
            (failed_upload_registers_nothing no_dates no_formatted_date sample_dumps
               sample_loads (Some (batch_header, batch_rows)) "Batch Records.csv"
               Samples.sample_instant "2024-03-07 09:05:01" "2024-03-07 09:05:02"
               None (Some 0) None empty_store))))
            batch_header batch_rows 0 _ _ _ _ _ _ _).
  - reflexivity.
  - reflexivity.
  - discriminate.
  - discriminate.
  - reflexivity.
  - reflexivity.
  - apply Nat.le_0_l.
Defined.

End LoaderCases.

Section ScoringCases.
Import FeatureEngineering Anomaly Labels Training Samples.

Lemma sample_reaches_persist :
  reaches_persist (Some sample_estimator) None quiet_pandas never_raises
    (Some sample_table) (calc_of sample_table) sample_scored.
Proof.
  exists sample_estimator, sample_table.
  split; [reflexivity|]. split; [reflexivity|]. split; [simpl; lia|].
  split; [vm_compute; reflexivity|]. split; vm_compute; reflexivity.
Defined.

(** X11, on the three batches of [mixed_table]. *)
Lemma scored_rows_are_finite_witness :
  map (fun rs => fst rs !! "anomaly_flag") mixed_scored
  = [Some (VInt 1); Some (VInt (-1)); Some (VInt 1)] /\
  map (fun rs => fst rs !! "anomaly_score") mixed_scored
  = [Some (VFloat (Fin 5)); Some (VFloat (Fin (-5))); Some (VFloat (Fin 5))].
Proof.
  destruct (proj1 (scored_rows_are_finite None exact_pandas never_raises
                     temperature_estimator mixed_table mixed_calc mixed_scored
                     eq_refl eq_refl))
    as (features & Hf & _ & Hflags & Hscores & _).
  vm_compute in Hf. injection Hf as <-. split.
  - rewrite Hflags. vm_compute. reflexivity.
  - rewrite (Hscores [Fin 5; Fin (-5); Fin 5] eq_refl eq_refl). reflexivity.
Defined.

(** X12, on the sample table. *)
Lemma success_counts_add_up_witness :
  1 <= length sample_scored <= nrows (calc_of sample_table).
Proof.
  refine (proj2 (proj2 (proj2
            (success_counts_add_up (Some sample_estimator) None quiet_pandas never_raises
               sample_clock no_datetime (Some sample_table) (calc_of sample_table)
               sample_scored None None "csv_batches" fresh_session
               sample_reaches_persist)))).
Defined.

(** X13, on the sample table when the first UPDATE raises. *)
Lemma alert_updates_are_atomic_witness :
  detect_and_update (Some sample_estimator) None quiet_pandas never_raises
    sample_clock no_datetime (Some sample_table) (Some 0) None "csv_batches" fresh_session
  = (Return Failed, rollback fresh_session).
Proof.
  refine (proj1
            (alert_updates_are_atomic (Some sample_estimator) None quiet_pandas never_raises
               sample_clock no_datetime (Some sample_table) (calc_of sample_table)
               sample_scored (Some 0) None "csv_batches" fresh_session
               sample_reaches_persist) 0 _ _).
  - reflexivity.
  - apply Nat.le_0_l.
Defined.

(** X14, on a table that has only an [id] column. *)
Lemma missing_features_by_source_witness :
  In "Energy_kWh" (missing_features (calc_of bare_table)).
Proof.
  refine (proj1 (proj2 (proj2
            (missing_features_by_source quiet_pandas never_raises bare_table
               (calc_of bare_table) _))) _).
  - vm_compute. reflexivity.
  - vm_compute. intros [H|[]]. discriminate H.
Defined.

(** X15, on the sample table. *)
Lemma alerts_cover_scored_rows_witness :
  length (alert_writes "csv_batches" sample_scored) <= 3.
Proof.
  exact (proj2 (proj2 (proj2 (alerts_cover_scored_rows "csv_batches" sample_scored)))).
Defined.

(** X17, on a table that has only an [id] column. *)
Lemma engineer_features_appends_witness :
  List.NoDup (columns (calc_of bare_table)).
Proof.
  destruct (engineer_features_appends quiet_pandas bare_table (calc_of bare_table))
    as [new [_ [_ [_ [_ [H _]]]]]].
  - vm_compute. reflexivity.
  - apply H. vm_compute. constructor; [intros []|constructor].
Defined.

(** X18, on a table that has only an [id] column. *)
Lemma default_feature_values_witness :
  get_col "Batch_Hour" (calc_of bare_table) = [VInt 12].
Proof.
  refine (proj1 (proj1 (default_feature_values quiet_pandas bare_table
                          (calc_of bare_table) _) _)).
  - vm_compute. reflexivity.
  - right. intros c Hc Hin. vm_compute in Hin. destruct Hin as [<-|[]].
    vm_compute in Hc. repeat (destruct Hc as [Hc|Hc]; [discriminate Hc|]). exact Hc.
Defined.

(** X19, on a table with two known stages and an unknown one: the codes
    are floats. *)
Lemma production_stage_codes_witness :
  get_col "ProductionStage_Encoded"
    (default stage_table (engineer_features exact_pandas stage_table))
  = [VFloat (Fin 1); VFloat (Fin 5); VFloat (Fin 0)].
Proof.
  refine (eq_trans
            (proj2 (proj2 (proj2 (proj2 (proj2
               (production_stage_codes exact_pandas stage_table
                  (default stage_table (engineer_features exact_pandas stage_table)) _))
               (default stage_table
                  (calculate_rolling_features exact_pandas
                     (calculate_temporal_features exact_pandas
                        (basic_kpis exact_pandas (standardize_columns stage_table)))))
               _ _ _)))) _).
  - reflexivity.
  - reflexivity.
  - reflexivity.
  - vm_compute. tauto.
  - reflexivity.
Defined.

(** X20, on a table that has only an [id] column. *)
Lemma insufficient_features_unreachable_witness :
  6 <= length (available_features (calc_of bare_table)) <= 15.
Proof.
  refine (proj1 (proj1 (proj2 (insufficient_features_unreachable quiet_pandas bare_table))
                   (calc_of bare_table) _)).
  vm_compute. reflexivity.
Defined.

End ScoringCases.
